(** * mana-hr-backend: attendance sessions and role-based access control

    A shallow embedding of the attendance session engine
    (services/AttendanceService, models/Attendance), of the role service
    (services/RoleService, models/Role), of [UserService.getUsersAboveRole]
    and of the organization-code middleware
    (middlewares/organizationCode), with the properties of the
    specification proved, or refuted, about them; and, with further
    properties, of the attendance controller
    (controllers/AttendanceController), of the queries of the two
    services, of [PermissionService.deletePermission] and of the file
    name helpers (utils/helpers) behind [DocumentService.uploadDocument].

    Conventions of the embedding.
    - A Mongo collection is the list of its documents in natural
      (insertion) order; [findOne] returns the first match.
    - An asynchronous service method is a function over the database
      state that returns the state it leaves behind together with either
      the value it resolves to or the error it throws: a throw does not
      roll back the writes that came before it.
    - A [Date] is its time value, an integer number of milliseconds; a
      JavaScript [number] that holds hours is an IEEE 754 binary64 float.
      The local time of the server is at a fixed offset from UTC.
    - A string is a sequence of code units below 256. [Js.trim] is the
      function of JavaScript on all of them, [Js.toUpperCase] on those
      below 128; a property that depends on the latter says so.
    - Of a Mongoose schema, the setters ([trim], [uppercase]), the
      validators ([required], [maxlength], [min], [max], [enum]), the
      defaults, the pre-save middleware and the unique index on roles
      are part of the embedding. Setters run when a document is built
      or assigned to, and when an update or the filter of a query is
      cast. [save] validates every path of the document, before the
      pre-save middleware of the schema; an update with
      [runValidators] validates the paths it sets, before it writes.
    - The identifiers handed to the attendance and user services are
      [ObjectId]s; the role service, which compares identifiers as
      strings and catches the errors of its lookups, is given strings:
      the canonical spelling of an identifier, another spelling of it,
      or a string that does not cast to one.
    - [populate('permissions')] replaces the references of a role by
      the permission documents they name, and drops the others. *)

From Stdlib Require Import ZArith List String Ascii Bool Lia Floats Uint63.
From Stdlib Require Import Permutation DecimalString.
From Stdlib Require Import Sorted.
From Stdlib Require HexadecimalString.
Import ListNotations.

Local Open Scope string_scope.
Local Open Scope Z_scope.

(** ** JavaScript strings and values *)

Module Js.

(** The characters below 128, on which [toUpperCase] below is the
    function of JavaScript. *)
Definition isAsciiChar (c : ascii) : bool := (nat_of_ascii c <? 128)%nat.

Fixpoint isAscii (s : string) : bool :=
  match s with
  | EmptyString => true
  | String c s' => isAsciiChar c && isAscii s'
  end.

(** White space and line terminators of ECMAScript below 256:
    TAB, LF, VT, FF, CR, SP and NBSP. *)
Definition isWhiteSpace (c : ascii) : bool :=
  let n := nat_of_ascii c in
  ((9 <=? n) && (n <=? 13) || (n =? 32) || (n =? 160))%nat.

Fixpoint trimStart (s : string) : string :=
  match s with
  | EmptyString => EmptyString
  | String c s' => if isWhiteSpace c then trimStart s' else s
  end.

Fixpoint trimEnd (s : string) : string :=
  match s with
  | EmptyString => EmptyString
  | String c s' =>
      match trimEnd s' with
      | EmptyString => if isWhiteSpace c then EmptyString else String c EmptyString
      | t => String c t
      end
  end.

(** [String.prototype.trim] *)
Definition trim (s : string) : string := trimEnd (trimStart s).

Definition isLower (c : ascii) : bool :=
  let n := nat_of_ascii c in ((97 <=? n) && (n <=? 122))%nat.

Definition isUpper (c : ascii) : bool :=
  let n := nat_of_ascii c in ((65 <=? n) && (n <=? 90))%nat.

Definition isDigit (c : ascii) : bool :=
  let n := nat_of_ascii c in ((48 <=? n) && (n <=? 57))%nat.

Definition upperChar (c : ascii) : ascii :=
  if isLower c then ascii_of_nat (nat_of_ascii c - 32) else c.

(** [String.prototype.toUpperCase] *)
Fixpoint toUpperCase (s : string) : string :=
  match s with
  | EmptyString => EmptyString
  | String c s' => String (upperChar c) (toUpperCase s')
  end.

Fixpoint all (p : ascii -> bool) (s : string) : bool :=
  match s with
  | EmptyString => true
  | String c s' => p c && all p s'
  end.

(** The values a request field can hold: [undefined], [null], a boolean,
    a number, a string, or an array or object. *)
Inductive value : Type :=
| Undefined
| Null
| Bool (b : bool)
| Num (n : Z)
| Str (s : string)
| Obj.

(** ToBoolean *)
Definition truthy (v : value) : bool :=
  match v with
  | Undefined | Null => false
  | Bool b => b
  | Num n => negb (n =? 0)
  | Str s => negb (String.eqb s "")
  | Obj => true
  end.

Definition isAsciiValue (v : value) : bool :=
  match v with
  | Str s => isAscii s
  | _ => true
  end.

End Js.

(** ** middlewares/organizationCode.ts *)

Module OrganizationCode.

Import Js.

(** The parts of the request the middleware reads,
    [req.headers['x-organization-code']], [req.body?.organizationCode]
    and [req.query?.organizationCode], and the field it writes. *)
Record OrganizationRequest : Type := mkRequest {
  header_x_organization_code : value;
  body_organizationCode : value;
  query_organizationCode : value;
  organizationCode : option string
}.

(** What the middleware does with the request: it calls [next()] on the
    request it has updated, or it answers with [sendError]. *)
Inductive outcome : Type :=
| Next (req : OrganizationRequest)
| SendError (statusCode : Z) (message : string).

(** [/^[A-Z0-9]{2,10}$/.test] *)
Definition orgCodeRegex_test (s : string) : bool :=
  (2 <=? String.length s)%nat && (String.length s <=? 10)%nat
  && all (fun c => isUpper c || isDigit c) s.

Definition msg_required : string :=
  "Organization code is required. Please provide it in X-Organization-Code header, request body, or query parameter.".

Definition msg_format : string :=
  "Invalid organization code format. Must be 2-10 characters, alphanumeric only.".

Definition extractOrganizationCode (req : OrganizationRequest) : outcome :=
  let orgCode := header_x_organization_code req in
  let orgCode :=
    if negb (truthy orgCode) && truthy (body_organizationCode req)
    then body_organizationCode req else orgCode in
  let orgCode :=
    if negb (truthy orgCode) && truthy (query_organizationCode req)
    then query_organizationCode req else orgCode in
  match orgCode with
  | Str s =>
      if negb (truthy orgCode) then SendError 400 msg_required
      else
        let trimmedOrgCode := toUpperCase (trim s) in
        if negb (orgCodeRegex_test trimmedOrgCode) then SendError 400 msg_format
        else
          Next {| header_x_organization_code := header_x_organization_code req;
                  body_organizationCode := body_organizationCode req;
                  query_organizationCode := query_organizationCode req;
                  organizationCode := Some trimmedOrgCode |}
  | _ => SendError 400 msg_required
  end.

(** The organization code of a request in the words of the
    specification: the header's, else the body's, else the query's. *)
Definition suppliedCode (req : OrganizationRequest) : value :=
  if truthy (header_x_organization_code req) then header_x_organization_code req
  else if truthy (body_organizationCode req) then body_organizationCode req
  else query_organizationCode req.

Definition asciiRequest (req : OrganizationRequest) : Prop :=
  isAsciiValue (header_x_organization_code req) = true /\
  isAsciiValue (body_organizationCode req) = true /\
  isAsciiValue (query_organizationCode req) = true.

Definition withCode (req : OrganizationRequest) (c : string) : OrganizationRequest :=
  {| header_x_organization_code := header_x_organization_code req;
     body_organizationCode := body_organizationCode req;
     query_organizationCode := query_organizationCode req;
     organizationCode := Some c |}.

(** The value of [orgCode] when the middleware tests it. *)
Definition chosenCode (req : OrganizationRequest) : value :=
  let orgCode := header_x_organization_code req in
  let orgCode :=
    if negb (truthy orgCode) && truthy (body_organizationCode req)
    then body_organizationCode req else orgCode in
  if negb (truthy orgCode) && truthy (query_organizationCode req)
  then query_organizationCode req else orgCode.

(** The code the specification describes: the supplied code matches
    the pattern once it is uppercased. *)
Definition matchesAfterUppercasing (req : OrganizationRequest) : bool :=
  match suppliedCode req with
  | Str s => orgCodeRegex_test (toUpperCase s)
  | _ => false
  end.

(** What the middleware tests: the supplied code, trimmed and then
    uppercased, matches the pattern. *)
Definition matchesAfterTrimAndUppercasing (req : OrganizationRequest) : bool :=
  match suppliedCode req with
  | Str s => orgCodeRegex_test (toUpperCase (trim s))
  | _ => false
  end.

Definition normalizedCode (req : OrganizationRequest) : string :=
  match suppliedCode req with
  | Str s => toUpperCase (trim s)
  | _ => EmptyString
  end.

(** A request whose body pads the code with blanks. *)
Definition paddedRequest : OrganizationRequest :=
  {| header_x_organization_code := Undefined;
     body_organizationCode := Str " ac ";
     query_organizationCode := Undefined;
     organizationCode := None |}.

End OrganizationCode.

(** ** The document store *)

Module Mongo.

(** An identifier that has been cast to an [ObjectId]. *)
Definition ObjectId : Type := N.

(** A string argument that names a document. [Hex id] is the string
    that [id.toString()] returns, 24 hexadecimal digits in lower case;
    [Spelled id s] is another string [s] that Mongoose casts to [id],
    such as the same digits in upper case; [Malformed s] is a string
    that Mongoose refuses to cast. *)
Inductive IdString : Type :=
| Hex (id : ObjectId)
| Spelled (id : ObjectId) (s : string)
| Malformed (s : string).

(** The errors the services throw or let through: [AppError] of
    middlewares/error.ts, [ApiError] of utils/response.ts, and the
    errors of Mongoose and of the driver. A [ValidationError] has the
    name of the model, when it comes from the validation of a document
    and not of an update, and the paths that failed, each with the
    message of its validator. *)
Inductive error : Type :=
| AppError (message : string) (statusCode : Z)
| ApiError (message : string) (statusCode : Z)
| CastError (value : string)
| ValidationError (modelName : option string) (errors : list (string * string))
| DocumentNotFoundError
| MongoServerError (code : Z) (keyPattern : list string).

Inductive result (A : Type) : Type :=
| Ok (a : A)
| Throw (e : error).

Arguments Ok {A} a.
Arguments Throw {A} e.

(** A computation over a store [S] that resolves to an [A] or throws. *)
Definition M (S A : Type) : Type := S -> result A * S.

Definition ret {S A : Type} (a : A) : M S A := fun s => (Ok a, s).

Definition bind {S A B : Type} (m : M S A) (k : A -> M S B) : M S B :=
  fun s =>
    match m s with
    | (Ok a, s') => k a s'
    | (Throw e, s') => (Throw e, s')
    end.

Definition throw {S A : Type} (e : error) : M S A := fun s => (Throw e, s).

Definition gets {S A : Type} (f : S -> A) : M S A := fun s => (Ok (f s), s).

Definition modify {S : Type} (f : S -> S) : M S unit := fun s => (Ok tt, f s).

(** [try { m } catch (error) { h error }] *)
Definition tryCatch {S A : Type} (m : M S A) (h : error -> M S A) : M S A :=
  fun s =>
    match m s with
    | (Ok a, s') => (Ok a, s')
    | (Throw e, s') => h e s'
    end.

(** The first document of a collection that [p] holds of is replaced
    by its image under [f]. *)
Fixpoint replaceFirst {A : Type} (p : A -> bool) (f : A -> A) (l : list A) : list A :=
  match l with
  | [] => []
  | x :: l' => if p x then f x :: l' else x :: replaceFirst p f l'
  end.

(** The first document of a collection that [p] holds of is removed. *)
Fixpoint removeFirst {A : Type} (p : A -> bool) (l : list A) : list A :=
  match l with
  | [] => []
  | x :: l' => if p x then l' else x :: removeFirst p l'
  end.

(** The filter [{ _id: k }] on a collection whose identifiers [key] reads. *)
Definition hasKey {A : Type} (key : A -> ObjectId) (k : ObjectId) (x : A) : bool :=
  N.eqb (key x) k.

(** [a || b] on optional strings: the empty string is falsy. *)
Definition truthyString (n : option string) : bool :=
  match n with
  | Some s => negb (String.eqb s "")
  | None => false
  end.

Definition orElse (a b : option string) : option string :=
  if truthyString a then a else b.

(** The validator [maxlength: [n, msg]] of the path [path]. *)
Definition maxlength (n : nat) (msg path : string) (v : string) : list (string * string) :=
  if (n <? String.length v)%nat then [(path, msg)] else [].

(** The validator [required: [true, msg]] of a string, which the empty
    string does not pass. *)
Definition required (msg path : string) (v : string) : list (string * string) :=
  if String.eqb v "" then [(path, msg)] else [].

(** The outcome of a validation: it throws when a path has failed. *)
Definition validation {S : Type} (modelName : option string)
  (errors : list (string * string)) : M S unit :=
  match errors with
  | [] => ret tt
  | _ :: _ => throw (ValidationError modelName errors)
  end.

End Mongo.

Declare Scope mongo_scope.
Delimit Scope mongo_scope with mongo.
Notation "x <- c ;; k" := (Mongo.bind c (fun x => k))
  (at level 61, c at next level, right associativity) : mongo_scope.
Notation "c ;;; k" := (Mongo.bind c (fun _ => k))
  (at level 61, right associativity) : mongo_scope.

(** ** JavaScript numbers *)

Module JsNumber.

Local Open Scope float_scope.

(** The largest time value of a [Date], and the time values of the
    dates that are not [Invalid Date]. *)
Definition maxTime : Z := 8640000000000000.

Definition validDate (t : Z) : Prop := (- maxTime <= t <= maxTime)%Z.

(** The time value of a [Date] as a number; exact for every valid
    [Date], whose time value is below 2^53 in magnitude. *)
Definition getTime (t : Z) : float :=
  if (t <? 0)%Z then - (of_uint63 (Uint63.of_Z (- t))) else of_uint63 (Uint63.of_Z t).

(** [Math.round]: the closest integral number, a tie going up; the zero
    it returns for a negative number is negative. A finite number other
    than zero is, in magnitude, [m * 2^(e - 2154)] for the integer [m]
    of 53 binary digits and the exponent [e] that [frshiftexp] and
    [normfr_mantissa] return: it is integral when [e] is 2154 or more,
    and has [2154 - e] binary digits after the point otherwise. *)
Definition Math_round (x : float) : float :=
  if PrimFloat.is_nan x || PrimFloat.is_infinity x || PrimFloat.is_zero x then x
  else
    let (f, e) := frshiftexp x in
    let m := normfr_mantissa f in
    if (2154 <=? e)%uint63 then x
    else
      let digits := (2154 - e)%uint63 in
      if (62 <? digits)%uint63 then (if x <? 0 then -0 else 0)
      else
        let half := (1 << (digits - 1))%uint63 in
        if x <? 0 then
          let k := ((m + half - 1) >> digits)%uint63 in
          if (k =? 0)%uint63 then -0 else - of_uint63 k
        else of_uint63 ((m + half) >> digits).

(** [Math.round(h * 100) / 100] *)
Definition round2 (h : float) : float := Math_round (h * 100) / 100.

(** [(b.getTime() - a.getTime()) / (1000 * 60 * 60)] *)
Definition hoursBetween (a b : Z) : float := (getTime b - getTime a) / 3600000.

(** A number of the given sign that is not [NaN]. *)
Inductive signed (s : bool) : spec_float -> Prop :=
| signed_zero : signed s (S754_zero s)
| signed_finite (m : positive) (e : Z) : signed s (S754_finite s m e)
| signed_infinity : signed s (S754_infinity s).

(** The hundredths of an hour in a duration of [ms] milliseconds, the
    half of a hundredth counted as one: [ms / 36000] to the nearest
    integer. *)
Definition hundredths (ms : Z) : Z := ((ms + 18000) / 36000)%Z.

(** The number with the given count of hundredths: the closest to
    [n / 100]. *)
Definition ofHundredths (n : Z) : float := of_uint63 (Uint63.of_Z n) / 100.

(** What the rounded hours of a duration are checked to be: the number
    of its hundredths, or the one below when the duration lies halfway
    between the two. *)
Definition roundsToHundredths (ms : int) : bool :=
  let r := round2 (of_uint63 ms / 3600000) in
  let n := ((ms + 18000) / 36000)%uint63 in
  (r =? of_uint63 n / 100)
  || (Uint63.eqb (ms mod 36000)%uint63 18000%uint63 && (r =? of_uint63 (n - 1)%uint63 / 100)).

(** The check of [count] durations from [ms] on, and of [blocks]
    blocks of them. *)
Fixpoint checkFrom (count : nat) (ms : int) : bool :=
  match count with
  | O => true
  | S count' => roundsToHundredths ms && checkFrom count' (ms + 1)%uint63
  end.

Fixpoint checkBlocks (blocks count : nat) (ms : int) : bool :=
  match blocks with
  | O => true
  | S blocks' =>
      checkFrom count ms && checkBlocks blocks' count (ms + Uint63.of_Z (Z.of_nat count))%uint63
  end.

End JsNumber.

(** ** types/index.ts and the collections *)

Module Model.

Import Mongo.

Inductive UserStatus : Type := ACTIVE | INACTIVE | SUSPENDED.

Inductive AttendanceStatus : Type :=
| PRESENT
| ABSENT
| LATE
| HALF_DAY
| WORK_FROM_HOME.

(** The fields of a user document that the services below read. *)
Record IUser : Type := mkUser {
  user_id : ObjectId;
  email : string;
  fullName : string;
  role : Z;
  userStatus : UserStatus;
  userOrganizationCode : string
}.

(** models/Attendance.ts; the timestamps that Mongoose maintains
    ([createdAt], [updatedAt]) are left out. *)
Record IAttendance : Type := mkAttendance {
  _id : ObjectId;
  employeeId : ObjectId;
  date : Z;
  checkIn : Z;
  checkOut : option Z;
  totalHours : option float;
  status : AttendanceStatus;
  notes : option string;
  isLoggedIn : bool;
  createdBy : ObjectId;
  updatedBy : ObjectId
}.

Record IPermission : Type := mkPermission {
  permission_id : ObjectId;
  permissionName : string
}.

(** models/Role.ts *)
Record IRole : Type := mkRole {
  role_id : ObjectId;
  name : string;
  displayName : string;
  description : option string;
  permissions : list ObjectId;
  isActive : bool;
  isSystemRole : bool;
  level : Z;
  dataAccessLevel : Z;
  organizationCode : string;
  roleCreatedBy : string;
  roleUpdatedBy : string
}.

(** A role as the queries return it after [populate('permissions')]:
    the permissions are documents. *)
Record PopulatedRole : Type := mkPopulated {
  populated_id : ObjectId;
  populated_name : string;
  populated_displayName : string;
  populated_description : option string;
  populated_permissions : list IPermission;
  populated_isActive : bool;
  populated_isSystemRole : bool;
  populated_level : Z;
  populated_dataAccessLevel : Z;
  populated_organizationCode : string;
  populated_createdBy : string;
  populated_updatedBy : string
}.

(** The database: one list of documents per collection. *)
Record Db : Type := mkDb {
  users : list IUser;
  attendances : list IAttendance;
  roles : list IRole;
  permissionDocs : list IPermission
}.

Definition setAttendances (f : list IAttendance -> list IAttendance) (db : Db) : Db :=
  {| users := users db;
     attendances := f (attendances db);
     roles := roles db;
     permissionDocs := permissionDocs db |}.

Definition setRoles (f : list IRole -> list IRole) (db : Db) : Db :=
  {| users := users db;
     attendances := attendances db;
     roles := f (roles db);
     permissionDocs := permissionDocs db |}.

Definition statusEqb (a b : UserStatus) : bool :=
  match a, b with
  | ACTIVE, ACTIVE | INACTIVE, INACTIVE | SUSPENDED, SUSPENDED => true
  | _, _ => false
  end.

(** The setters of [organizationCode] in the schemas of roles and of
    users, [uppercase] and [trim]: a document stores, and a filter is
    compared with, the result. *)
Definition setOrganizationCode (code : string) : string :=
  Js.trim (Js.toUpperCase code).

(** [User.findById] *)
Definition User_findById (id : ObjectId) : M Db (option IUser) :=
  gets (fun db => find (fun u => N.eqb (user_id u) id) (users db)).

End Model.

(** ** models/Attendance.ts and services/AttendanceService *)

Module Attendance.

Import Mongo Model JsNumber.
Local Open Scope mongo_scope.

(** The pre-save middleware of the schema: the total is recomputed
    whenever the document has both a check-in and a check-out. *)
Definition preSave (a : IAttendance) : IAttendance :=
  match checkOut a with
  | Some out =>
      {| _id := _id a; employeeId := employeeId a; date := date a;
         checkIn := checkIn a; checkOut := checkOut a;
         totalHours := Some (round2 (hoursBetween (checkIn a) out));
         status := status a; notes := notes a; isLoggedIn := isLoggedIn a;
         createdBy := createdBy a; updatedBy := updatedBy a |}
  | None => a
  end.

Definition hasId (id : ObjectId) : IAttendance -> bool := hasKey _id id.

(** [Attendance.findById] *)
Definition Attendance_findById (id : ObjectId) : M Db (option IAttendance) :=
  gets (fun db => find (hasId id) (attendances db)).

(** The setter of [notes], [trim: true]. *)
Definition setNotes (n : option string) : option string := option_map Js.trim n.

Definition withNotes (a : IAttendance) (n : option string) : IAttendance :=
  {| _id := _id a; employeeId := employeeId a; date := date a;
     checkIn := checkIn a; checkOut := checkOut a; totalHours := totalHours a;
     status := status a; notes := n; isLoggedIn := isLoggedIn a;
     createdBy := createdBy a; updatedBy := updatedBy a |}.

(** The validators of the schema that a value of its type can fail:
    [min: [0, ...]] of [totalHours] and [maxlength: [500, ...]] of
    [notes]. No validator runs on a path that has no value. *)
Definition totalHoursErrors (h : option float) : list (string * string) :=
  match h with
  | Some x => if (0 <=? x)%float then [] else [("totalHours", "Total hours must be positive")]
  | None => []
  end.

Definition notesErrors (n : option string) : list (string * string) :=
  match n with
  | Some s => maxlength 500 "Notes cannot exceed 500 characters" "notes" s
  | None => []
  end.

(** The validation of a document, which [save] runs on all its paths
    before the pre-save middleware of the schema. *)
Definition validate (a : IAttendance) : M Db unit :=
  validation (Some "Attendance")
    (totalHoursErrors (totalHours a) ++ notesErrors (notes a))%list.

(** A note that the schema accepts: one of 500 characters at most, or
    none; and the path that fails for another. *)
Definition fits (n : option string) : bool :=
  match n with
  | Some s => (String.length s <=? 500)%nat
  | None => true
  end.

Definition notesRefused : list (string * string) :=
  [("notes", "Notes cannot exceed 500 characters")].

(** [Attendance.create]: the document is built, which runs the
    setters, validated, taken through the pre-save middleware and
    added to the collection. *)
Definition Attendance_create (a : IAttendance) : M Db IAttendance :=
  let doc := withNotes a (setNotes (notes a)) in
  validate doc ;;;
  let doc := preSave doc in
  modify (setAttendances (fun l => (l ++ [doc])%list)) ;;;
  ret doc.

(** [doc.save()] on a document that was read from the collection and
    then assigned to. *)
Definition Attendance_save (a : IAttendance) : M Db IAttendance :=
  validate a ;;;
  let doc := preSave a in
  stored <- Attendance_findById (_id a) ;;
  match stored with
  | None => throw DocumentNotFoundError
  | Some _ =>
      modify (setAttendances (replaceFirst (hasId (_id a)) (fun _ => doc))) ;;;
      ret doc
  end.

(** The update document that [markAttendance] builds: the fields it
    sets, [notes] only when it has a value, and whether it carries
    [$unset: { checkOut: 1 }]. *)
Record UpdateData : Type := mkUpdate {
  set_notes : option string;
  set_updatedBy : ObjectId;
  set_status : AttendanceStatus;
  set_isLoggedIn : bool;
  unset_checkOut : bool
}.

(** The cast of the update, which runs the setters. *)
Definition castUpdate (u : UpdateData) : UpdateData :=
  {| set_notes := setNotes (set_notes u);
     set_updatedBy := set_updatedBy u;
     set_status := set_status u;
     set_isLoggedIn := set_isLoggedIn u;
     unset_checkOut := unset_checkOut u |}.

Definition applyUpdate (u : UpdateData) (a : IAttendance) : IAttendance :=
  {| _id := _id a; employeeId := employeeId a; date := date a;
     checkIn := checkIn a;
     checkOut := if unset_checkOut u then None else checkOut a;
     totalHours := totalHours a;
     status := set_status u;
     notes := match set_notes u with
              | Some n => Some n
              | None => notes a
              end;
     isLoggedIn := set_isLoggedIn u;
     createdBy := createdBy a;
     updatedBy := set_updatedBy u |}.

(** [Attendance.findByIdAndUpdate(id, update, { new: true,
    runValidators: true })]: the update is cast and the paths it sets
    are validated before the collection is written; query middleware
    does not run the document's pre-save hook. *)
Definition Attendance_findByIdAndUpdate (id : ObjectId) (u : UpdateData)
  : M Db (option IAttendance) :=
  let u := castUpdate u in
  validation None (notesErrors (set_notes u)) ;;;
  stored <- Attendance_findById id ;;
  match stored with
  | None => ret None
  | Some a =>
      modify (setAttendances (replaceFirst (hasId id) (applyUpdate u))) ;;;
      ret (Some (applyUpdate u a))
  end.

Record MarkAttendanceData : Type := mkData {
  data_employeeId : ObjectId;
  data_checkIn : Z;
  data_checkOut : option Z;
  data_status : option AttendanceStatus;
  data_notes : option string
}.

Section LocalTime.

(** The offset of the server's local time from UTC, in milliseconds,
    taken to be the same all year. *)
Variable tz : Z.

Definition msPerDay : Z := 86400000.

(** [d.setHours(0, 0, 0, 0)], and [new Date(y, m, d)] on the local
    year, month and day of a date. *)
Definition startOfDay (t : Z) : Z := t - (t + tz) mod msPerDay.

(** [d.setHours(23, 59, 59, 999)] *)
Definition endOfDay (t : Z) : Z := startOfDay t + 86399999.

(** The filter of [getTodayAttendance]. *)
Definition todayFilter (userId : ObjectId) (day : Z) (a : IAttendance) : bool :=
  let startOfDay := startOfDay day in
  let endOfDay := endOfDay startOfDay in
  N.eqb (employeeId a) userId
  && ((startOfDay <=? date a) && (date a <=? endOfDay)
      || (startOfDay <=? checkIn a) && (checkIn a <=? endOfDay)).

Definition getTodayAttendance (userId : ObjectId) (day : Z) : M Db (option IAttendance) :=
  gets (fun db => find (todayFilter userId day) (attendances db)).

(** The [updateData] of a clock-in on a day that has a record: the
    check-in time is not among the fields it sets, and the check-out
    is unset only if the record has one. *)
Definition reopenUpdate (attendanceData : MarkAttendanceData) (by_ : ObjectId)
  (existingRecord : IAttendance) : UpdateData :=
  {| set_notes := orElse (data_notes attendanceData) (notes existingRecord);
     set_updatedBy := by_;
     set_status := PRESENT;
     set_isLoggedIn := true;
     unset_checkOut := match checkOut existingRecord with
                       | Some _ => true
                       | None => false
                       end |}.

(** The document of a clock-in on a day that has no record; [newId] is
    the identifier the driver generates for it. *)
Definition newAttendance (attendanceData : MarkAttendanceData) (by_ : ObjectId)
  (newId : ObjectId) : IAttendance :=
  {| _id := newId;
     employeeId := data_employeeId attendanceData;
     date := startOfDay (data_checkIn attendanceData);
     checkIn := data_checkIn attendanceData;
     checkOut := data_checkOut attendanceData;
     totalHours := None;
     status := match data_status attendanceData with
               | Some s => s
               | None => PRESENT
               end;
     notes := data_notes attendanceData;
     isLoggedIn := true;
     createdBy := by_;
     updatedBy := by_ |}.

Definition markAttendance (attendanceData : MarkAttendanceData) (by_ : ObjectId)
  (newId : ObjectId) : M Db IAttendance :=
  employee <- User_findById (data_employeeId attendanceData) ;;
  match employee with
  | None => throw (AppError "Employee not found" 404)
  | Some _ =>
      let localDate := startOfDay (data_checkIn attendanceData) in
      existingRecord <- getTodayAttendance (data_employeeId attendanceData) localDate ;;
      match existingRecord with
      | Some existing =>
          updatedAttendance <-
            Attendance_findByIdAndUpdate (_id existing)
              (reopenUpdate attendanceData by_ existing) ;;
          match updatedAttendance with
          | None => throw (AppError "Failed to update attendance record" 500)
          | Some updated => ret updated
          end
      | None => Attendance_create (newAttendance attendanceData by_ newId)
      end
  end.

(** The record that the first clock-in of a day stores, and what a
    later clock-in of the day makes of the record it finds. *)
Definition firstRecord (attendanceData : MarkAttendanceData) (by_ newId : ObjectId)
  : IAttendance :=
  preSave (withNotes (newAttendance attendanceData by_ newId)
                     (setNotes (data_notes attendanceData))).

Definition reopened (attendanceData : MarkAttendanceData) (by_ : ObjectId)
  (existingRecord : IAttendance) : IAttendance :=
  applyUpdate (castUpdate (reopenUpdate attendanceData by_ existingRecord)) existingRecord.

End LocalTime.

Definition checkoutNotes (old : option string) (n : string) : string :=
  if truthyString old
  then match old with
       | Some o => o ++ " | Checkout: " ++ n
       | None => "Checkout: " ++ n
       end
  else "Checkout: " ++ n.

(** The record of [markCheckOut] after its assignments, before it is
    saved; the assignment to [notes] runs the setter of the path. *)
Definition checkedOut (attendance : IAttendance) (checkOutTime : Z)
  (by_ : ObjectId) (notes_ : option string) : IAttendance :=
  let sessionHours := hoursBetween (checkIn attendance) checkOutTime in
  {| _id := _id attendance;
     employeeId := employeeId attendance;
     date := date attendance;
     checkIn := checkIn attendance;
     checkOut := Some checkOutTime;
     totalHours := Some (round2 sessionHours);
     status := status attendance;
     notes := match notes_ with
              | Some n => if truthyString notes_
                          then setNotes (Some (checkoutNotes (notes attendance) n))
                          else notes attendance
              | None => notes attendance
              end;
     isLoggedIn := false;
     createdBy := createdBy attendance;
     updatedBy := by_ |}.

Definition markCheckOut (attendanceId : ObjectId) (checkOutTime : Z)
  (by_ : ObjectId) (notes_ : option string) : M Db IAttendance :=
  found <- Attendance_findById attendanceId ;;
  match found with
  | None => throw (AppError "Attendance record not found" 404)
  | Some attendance =>
      match checkOut attendance with
      | Some _ => throw (AppError "Already checked out" 400)
      | None =>
          if checkOutTime <=? checkIn attendance
          then throw (AppError "Check-out time must be after check-in time" 400)
          else Attendance_save (checkedOut attendance checkOutTime by_ notes_)
      end
  end.

(** The note that a check-out leaves on a record, case by case: the
    note of the record when no note, or an empty one, is given;
    otherwise ["Checkout: "] and the given note, after the note of
    the record and [" | "] when the record has one, trimmed. *)
Definition closingNote (old given : option string) : option string :=
  match given with
  | Some s =>
      if String.eqb s "" then old
      else Some (Js.trim (match old with
                          | Some o => if String.eqb o "" then "Checkout: " ++ s
                                      else o ++ " | Checkout: " ++ s
                          | None => "Checkout: " ++ s
                          end))
  | None => old
  end.

(** The [_id] index: no two documents of the collection share an
    identifier. *)
Definition uniqueIds (db : Db) : Prop := NoDup (map _id (attendances db)).

(** The identifier the driver generates for a new document is not in
    the collection. *)
Definition freshId (newId : ObjectId) (db : Db) : Prop :=
  ~ In newId (map _id (attendances db)).

End Attendance.

(** ** models/Role.ts and services/RoleService *)

Module RoleService.

Import Mongo Model.
Local Open Scope mongo_scope.

Definition quote : string := String (ascii_of_nat 34) EmptyString.

Definition castErrorMessage (s : string) : string :=
  "Cast to ObjectId failed for value " ++ quote ++ s ++ quote.

(** The paths of a [ValidationError] with their messages, as its
    [message] lists them. *)
Definition showErrors (errors : list (string * string)) : string :=
  String.concat ", " (map (fun e => fst e ++ ": " ++ snd e) errors).

(** The [message] of an error, which the services quote in their 500
    errors; of the messages of a cast error, of a missing document and
    of the driver it gives the leading words only. *)
Definition message (e : error) : string :=
  match e with
  | AppError m _ => m
  | ApiError m _ => m
  | CastError s => castErrorMessage s
  | ValidationError (Some modelName) errors =>
      modelName ++ " validation failed: " ++ showErrors errors
  | ValidationError None errors => "Validation failed: " ++ showErrors errors
  | DocumentNotFoundError => "No document found for query"
  | MongoServerError _ _ => "E11000 duplicate key error"
  end.

(** The cast of an identifier argument of a query. *)
Definition castObjectId (s : IdString) : M Db ObjectId :=
  match s with
  | Hex id => ret id
  | Spelled id _ => ret id
  | Malformed v => throw (CastError v)
  end.

(** The identifier that a string names, if it names one. *)
Definition idOf (s : IdString) : option ObjectId :=
  match s with
  | Hex id => Some id
  | Spelled id _ => Some id
  | Malformed _ => None
  end.

Fixpoint castObjectIds (l : list IdString) : M Db (list ObjectId) :=
  match l with
  | [] => ret []
  | s :: l' =>
      id <- castObjectId s ;;
      ids <- castObjectIds l' ;;
      ret (id :: ids)
  end.

Definition hasId (id : ObjectId) : IRole -> bool := hasKey role_id id.

Definition Role_findOne (p : IRole -> bool) : M Db (option IRole) :=
  gets (fun db => find p (roles db)).

(** [Role.findById] *)
Definition Role_findById (roleId : IdString) : M Db (option IRole) :=
  id <- castObjectId roleId ;;
  Role_findOne (hasId id).

(** [Role.findOne({ _id: roleId, organizationCode })]; the cast of the
    filter runs the setters of [organizationCode]. *)
Definition Role_findInOrganization (roleId : IdString) (code : string)
  : M Db (option IRole) :=
  id <- castObjectId roleId ;;
  Role_findOne (fun r => hasId id r
                         && String.eqb (organizationCode r) (setOrganizationCode code)).

(** [populate('permissions')]: each reference is replaced by the
    permission document it names; a reference to no document is
    dropped from the array. *)
Fixpoint populate (docs : list IPermission) (refs : list ObjectId) : list IPermission :=
  match refs with
  | [] => []
  | id :: refs' =>
      match find (fun p => N.eqb (permission_id p) id) docs with
      | Some p => p :: populate docs refs'
      | None => populate docs refs'
      end
  end.

(** A role with its permissions populated, as [lean()] returns it. *)
Definition populateRole (docs : list IPermission) (r : IRole) : PopulatedRole :=
  {| populated_id := role_id r;
     populated_name := name r;
     populated_displayName := displayName r;
     populated_description := description r;
     populated_permissions := populate docs (permissions r);
     populated_isActive := isActive r;
     populated_isSystemRole := isSystemRole r;
     populated_level := level r;
     populated_dataAccessLevel := dataAccessLevel r;
     populated_organizationCode := organizationCode r;
     populated_createdBy := roleCreatedBy r;
     populated_updatedBy := roleUpdatedBy r |}.

(** [Role.findById(id).populate('permissions').lean()] *)
Definition Role_findByIdPopulated (roleId : IdString) : M Db (option PopulatedRole) :=
  found <- Role_findById roleId ;;
  docs <- gets permissionDocs ;;
  ret (option_map (populateRole docs) found).

(** The decimal digits of a number, as a message prints it. *)
Definition showZ (z : Z) : string := NilZero.string_of_int (Z.to_int z).

(** The validators of the schema, path by path. *)
Definition nameErrors (v : string) : list (string * string) :=
  (required "Role name is required" "name" v
   ++ maxlength 50 "Role name cannot exceed 50 characters" "name" v)%list.

Definition displayNameErrors (v : string) : list (string * string) :=
  (required "Display name is required" "displayName" v
   ++ maxlength 100 "Display name cannot exceed 100 characters" "displayName" v)%list.

Definition descriptionErrors (v : option string) : list (string * string) :=
  match v with
  | Some d => maxlength 500 "Description cannot exceed 500 characters" "description" d
  | None => []
  end.

Definition levelErrors (v : Z) : list (string * string) :=
  if v <? 1
  then [("level", "Path `level` (" ++ showZ v ++ ") is less than minimum allowed value (1).")]
  else if 100 <? v
  then [("level", "Path `level` (" ++ showZ v ++ ") is more than maximum allowed value (100).")]
  else [].

Definition dataAccessLevelErrors (v : Z) : list (string * string) :=
  if (v =? 1) || (v =? 2) || (v =? 3) then []
  else [("dataAccessLevel", "Data access level must be 1 (ALL), 2 (TEAM), or 3 (OWN)")].

Definition organizationCodeErrors (v : string) : list (string * string) :=
  (required "Organization code is required" "organizationCode" v
   ++ maxlength 10 "Organization code cannot exceed 10 characters" "organizationCode" v)%list.

(** The validation of a document, which [save] runs on all its paths. *)
Definition roleErrors (r : IRole) : list (string * string) :=
  (nameErrors (name r) ++ displayNameErrors (displayName r)
   ++ descriptionErrors (description r) ++ levelErrors (level r)
   ++ dataAccessLevelErrors (dataAccessLevel r)
   ++ organizationCodeErrors (organizationCode r))%list.

Definition validate (r : IRole) : M Db unit :=
  validation (Some "Role") (roleErrors r).

(** The unique index [{ name: 1, organizationCode: 1 }]. *)
Definition sameKey (a b : IRole) : bool :=
  String.eqb (name a) (name b) && String.eqb (organizationCode a) (organizationCode b).

(** [role.save()] on a new document: it is validated, and inserted
    unless the unique index refuses it. *)
Definition Role_insert (r : IRole) : M Db unit :=
  validate r ;;;
  dup <- Role_findOne (sameKey r) ;;
  match dup with
  | Some _ => throw (MongoServerError 11000 ["name"; "organizationCode"])
  | None => modify (setRoles (fun l => (l ++ [r])%list))
  end.

(** [role.save()] on a document that was read from the collection,
    after its permissions were changed. *)
Definition Role_savePermissions (r : IRole) : M Db unit :=
  validate r ;;;
  stored <- Role_findOne (hasId (role_id r)) ;;
  match stored with
  | None => throw DocumentNotFoundError
  | Some _ => modify (setRoles (replaceFirst (hasId (role_id r)) (fun _ => r)))
  end.

Record IRoleCreateInput : Type := mkCreateInput {
  create_name : string;
  create_displayName : string;
  create_description : option string;
  create_level : Z;
  create_isActive : option bool
}.

Record IRoleUpdateInput : Type := mkUpdateInput {
  update_name : option string;
  update_displayName : option string;
  update_description : option string;
  update_level : option Z;
  update_isActive : option bool
}.

Definition orDefault {A : Type} (o : option A) (d : A) : A :=
  match o with
  | Some a => a
  | None => d
  end.

(** [new Role({ ...roleData, organizationCode, createdBy, updatedBy })]
    with the setters and the defaults of the schema. *)
Definition newRole (newId : ObjectId) (roleData : IRoleCreateInput)
  (code : string) (userId : string) : IRole :=
  {| role_id := newId;
     name := Js.trim (create_name roleData);
     displayName := Js.trim (create_displayName roleData);
     description := option_map Js.trim (create_description roleData);
     permissions := [];
     isActive := orDefault (create_isActive roleData) true;
     isSystemRole := false;
     level := create_level roleData;
     dataAccessLevel := 3;
     organizationCode := setOrganizationCode code;
     roleCreatedBy := userId;
     roleUpdatedBy := userId |}.

Definition msg_nameExists : string := "Role name already exists in this organization".


(** [newId] is the identifier that [new Role] generates; the cast of
    the filter of the first query runs the setters of [name] and of
    [organizationCode]. *)
Definition createRole (roleData : IRoleCreateInput) (organizationCode_ : string)
  (userId : string) (newId : ObjectId) : M Db (option PopulatedRole) :=
  tryCatch
    (existingRole <- Role_findOne (fun r =>
         String.eqb (name r) (Js.trim (create_name roleData))
         && String.eqb (organizationCode r)
                       (setOrganizationCode (Js.toUpperCase organizationCode_))) ;;
     match existingRole with
     | Some _ => throw (ApiError msg_nameExists 400)
     | None =>
         let role := newRole newId roleData (Js.toUpperCase organizationCode_) userId in
         Role_insert role ;;;
         Role_findByIdPopulated (Hex (role_id role))
     end)
    (fun error =>
       match error with
       | ApiError _ _ => throw error
       | ValidationError _ errors =>
           throw (ApiError ("Validation failed: " ++ String.concat ", " (map snd errors)) 400)
       | MongoServerError 11000 keyPattern =>
           let field := match keyPattern with k :: _ => k | [] => "field" end in
           throw (ApiError ("Role with this " ++ field ++ " already exists") 400)
       | _ => throw (ApiError ("Failed to create role: " ++ message error) 500)
       end).

(** The cast of [{ ...updateData, updatedBy: userId }], which runs the
    setters. *)
Definition castRoleUpdate (u : IRoleUpdateInput) : IRoleUpdateInput :=
  {| update_name := option_map Js.trim (update_name u);
     update_displayName := option_map Js.trim (update_displayName u);
     update_description := option_map Js.trim (update_description u);
     update_level := update_level u;
     update_isActive := update_isActive u |}.

(** The validators of the paths that an update sets. *)
Definition updateErrors (u : IRoleUpdateInput) : list (string * string) :=
  (match update_name u with Some v => nameErrors v | None => [] end
   ++ match update_displayName u with Some v => displayNameErrors v | None => [] end
   ++ descriptionErrors (update_description u)
   ++ match update_level u with Some v => levelErrors v | None => [] end)%list.

(** The update applied to a role. *)
Definition applyRoleUpdate (u : IRoleUpdateInput) (userId : string) (r : IRole) : IRole :=
  {| role_id := role_id r;
     name := orDefault (update_name u) (name r);
     displayName := orDefault (update_displayName u) (displayName r);
     description := match update_description u with
                    | Some d => Some d
                    | None => description r
                    end;
     permissions := permissions r;
     isActive := orDefault (update_isActive u) (isActive r);
     isSystemRole := isSystemRole r;
     level := orDefault (update_level u) (level r);
     dataAccessLevel := dataAccessLevel r;
     organizationCode := organizationCode r;
     roleCreatedBy := roleCreatedBy r;
     roleUpdatedBy := userId |}.

(** [Role.findByIdAndUpdate(roleId, update, { new: true,
    runValidators: true }).populate('permissions').lean()] under the
    unique index of the collection: the update is cast and the paths
    it sets are validated before the collection is written. *)
Definition Role_findByIdAndUpdate (roleId : IdString) (u : IRoleUpdateInput)
  (userId : string) : M Db (option PopulatedRole) :=
  id <- castObjectId roleId ;;
  let u := castRoleUpdate u in
  validation None (updateErrors u) ;;;
  stored <- Role_findOne (hasId id) ;;
  match stored with
  | None => ret None
  | Some r =>
      let r' := applyRoleUpdate u userId r in
      dup <- Role_findOne (fun x => sameKey r' x && negb (hasId id x)) ;;
      match dup with
      | Some _ => throw (MongoServerError 11000 ["name"; "organizationCode"])
      | None =>
          modify (setRoles (replaceFirst (hasId id) (fun _ => r'))) ;;;
          docs <- gets permissionDocs ;;
          ret (Some (populateRole docs r'))
      end
  end.

Definition updateRole (roleId : IdString) (updateData : IRoleUpdateInput)
  (organizationCode_ : string) (userId : string) : M Db (option PopulatedRole) :=
  tryCatch
    (found <- Role_findInOrganization roleId (Js.toUpperCase organizationCode_) ;;
     match found with
     | None => throw (ApiError "Role not found" 404)
     | Some role =>
         if isSystemRole role then throw (ApiError "Cannot update system role" 403)
         else
           (match update_name updateData with
            | Some n =>
                if truthyString (Some n) && negb (String.eqb n (name role))
                then
                  id <- castObjectId roleId ;;
                  existingRole <- Role_findOne (fun r =>
                      String.eqb (name r) (Js.trim n)
                      && String.eqb (organizationCode r)
                                    (setOrganizationCode (Js.toUpperCase organizationCode_))
                      && negb (hasId id r)) ;;
                  match existingRole with
                  | Some _ => throw (ApiError msg_nameExists 400)
                  | None => ret tt
                  end
                else ret tt
            | None => ret tt
            end) ;;;
           Role_findByIdAndUpdate roleId updateData userId
     end)
    (fun error =>
       match error with
       | ApiError _ _ => throw error
       | _ => throw (ApiError ("Failed to update role: " ++ message error) 500)
       end).

(** [User.countDocuments({ role, organizationCode })] *)
Definition User_countDocuments (level_ : Z) (code : string) : M Db nat :=
  gets (fun db =>
    List.length (filter (fun u => (role u =? level_)%Z
                                  && String.eqb (userOrganizationCode u)
                                                (setOrganizationCode code))
                        (users db))).

(** [Role.findByIdAndDelete] *)
Definition Role_findByIdAndDelete (roleId : IdString) : M Db unit :=
  id <- castObjectId roleId ;;
  modify (setRoles (removeFirst (hasId id))).

(** The decimal digits of a count, as a template literal prints it. *)
Definition showNat (n : nat) : string :=
  NilZero.string_of_uint (Nat.to_uint n).

Definition msg_assigned (userCount : nat) : string :=
  "Cannot delete role that is assigned to " ++ showNat userCount ++ " users".

Definition deleteRole (roleId : IdString) (organizationCode_ : string) : M Db unit :=
  tryCatch
    (found <- Role_findInOrganization roleId (Js.toUpperCase organizationCode_) ;;
     match found with
     | None => throw (ApiError "Role not found" 404)
     | Some role =>
         if isSystemRole role then throw (ApiError "Cannot delete system role" 403)
         else
           userCount <- User_countDocuments (level role) (Js.toUpperCase organizationCode_) ;;
           if (0 <? userCount)%nat
           then throw (ApiError (msg_assigned userCount) 400)
           else Role_findByIdAndDelete roleId
     end)
    (fun error =>
       match error with
       | ApiError _ _ => throw error
       | _ => throw (ApiError ("Failed to delete role: " ++ message error) 500)
       end).

(** [Permission.find({ _id: { $in: permissionIds } }).countDocuments()] *)
Definition Permission_countIn (permissionIds : list IdString) : M Db nat :=
  ids <- castObjectIds permissionIds ;;
  gets (fun db =>
    List.length (filter (fun p => existsb (N.eqb (permission_id p)) ids)
                        (permissionDocs db))).

(** [p.toString() === id]: the string of an identifier is its
    canonical spelling, which no other spelling equals. *)
Definition idStringEqb (p : ObjectId) (id : IdString) : bool :=
  match id with
  | Hex n => N.eqb p n
  | Spelled _ _ => false
  | Malformed _ => false
  end.

Definition withPermissions (r : IRole) (ps : list ObjectId) : IRole :=
  {| role_id := role_id r; name := name r; displayName := displayName r;
     description := description r; permissions := ps; isActive := isActive r;
     isSystemRole := isSystemRole r; level := level r;
     dataAccessLevel := dataAccessLevel r; organizationCode := organizationCode r;
     roleCreatedBy := roleCreatedBy r; roleUpdatedBy := roleUpdatedBy r |}.

(** The strings that [addPermissions] pushes are cast to identifiers
    by the array. *)
Definition addPermissions (roleId : IdString) (permissionIds : list IdString)
  : M Db (option PopulatedRole) :=
  tryCatch
    (found <- Role_findById roleId ;;
     match found with
     | None => throw (ApiError "Role not found" 404)
     | Some role =>
         if isSystemRole role
         then throw (ApiError "Cannot modify system role permissions" 403)
         else
           validPermissions <- Permission_countIn permissionIds ;;
           if negb (validPermissions =? List.length permissionIds)%nat
           then throw (ApiError "Some permissions are invalid" 400)
           else
             let newPermissions :=
               filter (fun id => negb (existsb (fun p => idStringEqb p id) (permissions role)))
                      permissionIds in
             if (List.length newPermissions =? 0)%nat
             then throw (ApiError "All permissions are already assigned to this role" 400)
             else
               added <- castObjectIds newPermissions ;;
               Role_savePermissions (withPermissions role (permissions role ++ added)%list) ;;;
               Role_findByIdPopulated roleId
     end)
    (fun error =>
       match error with
       | ApiError _ _ => throw error
       | _ => throw (ApiError "Failed to add permissions" 500)
       end).

Definition removePermissions (roleId : IdString) (permissionIds : list IdString)
  : M Db (option PopulatedRole) :=
  tryCatch
    (found <- Role_findById roleId ;;
     match found with
     | None => throw (ApiError "Role not found" 404)
     | Some role =>
         if isSystemRole role
         then throw (ApiError "Cannot modify system role permissions" 403)
         else
           Role_savePermissions
             (withPermissions role
                (filter (fun p => negb (existsb (idStringEqb p) permissionIds))
                        (permissions role))) ;;;
           Role_findByIdPopulated roleId
     end)
    (fun error =>
       match error with
       | ApiError _ _ => throw error
       | _ => throw (ApiError "Failed to remove permissions" 500)
       end).

Definition hasPermission (roleId : IdString) (permissionName_ : string) : M Db bool :=
  tryCatch
    (found <- Role_findById roleId ;;
     match found with
     | None => ret false
     | Some role =>
         docs <- gets permissionDocs ;;
         ret (existsb (fun p => String.eqb (permissionName p) permissionName_)
                      (populate docs (permissions role)))
     end)
    (fun _ => ret false).

End RoleService.

(** ** services/UserService *)

Module UserService.

Import Mongo Model.

(** The sort [{ role: 1, fullName: 1 }]: by role, then by name. *)
Definition sortLeb (a b : IUser) : bool :=
  (role a <? role b)%Z
  || (role a =? role b)%Z && String.leb (fullName a) (fullName b).

Fixpoint insertSorted (u : IUser) (l : list IUser) : list IUser :=
  match l with
  | [] => [u]
  | x :: l' => if sortLeb u x then u :: l else x :: insertSorted u l'
  end.

Fixpoint sortUsers (l : list IUser) : list IUser :=
  match l with
  | [] => []
  | x :: l' => insertSorted x (sortUsers l')
  end.

(** The projection that [getUsersAboveRole] returns for a user. *)
Record UserSummary : Type := mkSummary {
  summary_userId : ObjectId;
  summary_email : string;
  summary_fullName : string;
  summary_role : Z
}.

Definition summary (u : IUser) : UserSummary :=
  {| summary_userId := user_id u;
     summary_email := email u;
     summary_fullName := fullName u;
     summary_role := role u |}.

(** The filter [{ role: { $lt: role }, organizationCode, status:
    'active' }] after its cast, which runs the setters of
    [organizationCode]. *)
Definition aboveRoleFilter (role_ : Z) (organizationCode_ : string) (u : IUser) : bool :=
  (role u <? role_)%Z
  && String.eqb (userOrganizationCode u) (setOrganizationCode organizationCode_)
  && statusEqb (userStatus u) ACTIVE.

Definition getUsersAboveRole (role_ : Z) (organizationCode_ : string)
  : M Db (list UserSummary) :=
  gets (fun db =>
    map summary (sortUsers (filter (aboveRoleFilter role_ organizationCode_) (users db)))).

End UserService.

(** ** Sample data *)

Module Samples.

Import Mongo Model Attendance.

Definition ann : IUser := mkUser 1%N "ann@acme.io" "Ann" 5 ACTIVE "ACME".

Definition bob : IUser := mkUser 2%N "bob@acme.io" "Bob" 5 INACTIVE "ACME".

Definition db0 : Db := mkDb [ann; bob] [] [] [].

(** 09:00, 13:00, 14:00 and 18:00 of the first day of the epoch. *)
Definition nine : Z := 32400000.
Definition thirteen : Z := 46800000.
Definition fourteen : Z := 50400000.
Definition eighteen : Z := 64800000.

Definition clockIn (e : ObjectId) (t : Z) : MarkAttendanceData :=
  mkData e t None None None.

(** Ann's record of the day after her first clock-in, and the database
    that holds it. *)
Definition openRecord : IAttendance :=
  mkAttendance 100%N 1%N 0 nine None None PRESENT None true 1%N 1%N.

Definition db1 : Db := mkDb [ann; bob] [openRecord] [] [].

(** The record after the clock-out of 13:00. *)
Definition closedRecord : IAttendance :=
  mkAttendance 100%N 1%N 0 nine (Some thirteen) (Some 4%float) PRESENT None false 1%N 1%N.

Definition db2 : Db := mkDb [ann; bob] [closedRecord] [] [].

(** The record after the clock-in of 14:00. *)
Definition reopenedRecord : IAttendance :=
  mkAttendance 100%N 1%N 0 nine None (Some 4%float) PRESENT None true 1%N 1%N.

Definition db3 : Db := mkDb [ann; bob] [reopenedRecord] [] [].

(** A record of Bob, who is inactive, for the same day. *)
Definition bobRecord : IAttendance :=
  mkAttendance 100%N 2%N 0 nine None None PRESENT None true 2%N 2%N.

(** A closed record that was marked late. *)
Definition lateRecord : IAttendance :=
  mkAttendance 100%N 1%N 0 nine (Some thirteen) (Some 4%float) LATE None false 1%N 1%N.

Definition dbLate : Db := mkDb [ann; bob] [lateRecord] [] [].

(** A note of 501 characters, and a record of Ann with a note. *)
Definition longNote : string := String.concat "" (repeat "x" 501).

Definition notedRecord : IAttendance :=
  mkAttendance 100%N 1%N 0 nine None None PRESENT (Some "Morning") true 1%N 1%N.

Definition dbNoted : Db := mkDb [ann; bob] [notedRecord] [] [].

(** Roles of the organization ACME: a system role, a role at the level
    of Ann and Bob, and a role that no user has. *)
Definition superAdmin : IRole :=
  mkRole 10%N "super_admin" "Super Admin" None [] true true 1 1 "ACME" "system" "system".

Definition recruiter : IRole :=
  mkRole 11%N "Recruiter" "Recruiter" None [50%N; 51%N] true false 5 3 "ACME" "1" "1".

Definition auditor : IRole :=
  mkRole 12%N "Auditor" "Auditor" None [] true false 7 2 "ACME" "1" "1".

Definition usersCreate : IPermission := mkPermission 50%N "users:create".

Definition dbRoles : Db :=
  mkDb [ann; bob] [] [superAdmin; recruiter; auditor] [usersCreate].

Definition recruiterInput : RoleService.IRoleCreateInput :=
  RoleService.mkCreateInput "Recruiter" "Recruiter" None 50 None.

Definition recruiterAgain : RoleService.IRoleCreateInput :=
  RoleService.mkCreateInput "Recruiter" "Recruiter" None 10 None.




Definition levelUpdate : RoleService.IRoleUpdateInput :=
  RoleService.mkUpdateInput None None None (Some 2) None.

(** Users of two organizations at several levels. *)
Definition cat : IUser := mkUser 3%N "cat@acme.io" "Cat" 2 ACTIVE "ACME".
Definition dan : IUser := mkUser 4%N "dan@acme.io" "Dan" 3 ACTIVE "ACME".
Definition eve : IUser := mkUser 5%N "eve@widge.io" "Eve" 1 ACTIVE "WIDGE".
Definition fay : IUser := mkUser 6%N "fay@acme.io" "Fay" 1 SUSPENDED "ACME".

Definition dbUsers : Db := mkDb [ann; dan; bob; eve; cat; fay] [] [] [].

End Samples.

(** ** middlewares/organizationCode.ts, the optional middleware *)

Module OptionalOrganizationCode.

Import Js OrganizationCode.

(** [optionalOrganizationCode] always calls [next()]; the result is the
    request it calls it on. *)
Definition optionalOrganizationCode (req : OrganizationRequest) : OrganizationRequest :=
  let orgCode := header_x_organization_code req in
  let orgCode :=
    if negb (truthy orgCode) && truthy (body_organizationCode req)
    then body_organizationCode req else orgCode in
  let orgCode :=
    if negb (truthy orgCode) && truthy (query_organizationCode req)
    then query_organizationCode req else orgCode in
  match orgCode with
  | Str s =>
      if truthy orgCode
      then
        let trimmedOrgCode := toUpperCase (trim s) in
        if orgCodeRegex_test trimmedOrgCode
        then {| header_x_organization_code := header_x_organization_code req;
                body_organizationCode := body_organizationCode req;
                query_organizationCode := query_organizationCode req;
                organizationCode := Some trimmedOrgCode |}
        else req
      else req
  | _ => req
  end.

End OptionalOrganizationCode.

(** ** utils/helpers.ts and the checks of [DocumentService.uploadDocument] *)

Module Helpers.

Import Js Mongo Model.
Local Open Scope mongo_scope.

Definition lowerChar (c : ascii) : ascii :=
  if isUpper c then ascii_of_nat (nat_of_ascii c + 32) else c.

(** [String.prototype.toLowerCase] *)
Fixpoint toLowerCase (s : string) : string :=
  match s with
  | EmptyString => EmptyString
  | String c s' => String (lowerChar c) (toLowerCase s')
  end.

Definition isDot (c : ascii) : bool := (nat_of_ascii c =? 46)%nat.

Definition isHyphen (c : ascii) : bool := (nat_of_ascii c =? 45)%nat.

(** The class [[a-zA-Z0-9.-]]. *)
Definition isFilenameChar (c : ascii) : bool :=
  isLower c || isUpper c || isDigit c || isDot c || isHyphen c.

(** [s.replace(/[^a-zA-Z0-9.-]/g, '_')] *)
Fixpoint replaceOthers (s : string) : string :=
  match s with
  | EmptyString => EmptyString
  | String c s' =>
      String (if isFilenameChar c then c else "_"%char) (replaceOthers s')
  end.

Definition sanitizeFilename (filename : string) : string :=
  toLowerCase (replaceOthers filename).

(** The part of a string after its last dot, if it has a dot. *)
Fixpoint afterLastDot (s : string) : option string :=
  match s with
  | EmptyString => None
  | String c s' =>
      match afterLastDot s' with
      | Some t => Some t
      | None => if isDot c then Some s' else None
      end
  end.

(** [s.split('.').pop()]: the whole string when it has no dot. *)
Definition lastSegment (s : string) : string :=
  match afterLastDot s with
  | Some t => t
  | None => s
  end.

Definition getFileExtension (filename : string) : string :=
  toLowerCase (lastSegment filename).

Definition defaultAllowedTypes : list string :=
  ["pdf"; "doc"; "docx"; "jpg"; "jpeg"; "png"].

(** [allowedTypes.includes(extension)] *)
Definition validateFileType (filename : string) (allowedTypes : list string) : bool :=
  existsb (String.eqb (getFileExtension filename)) allowedTypes.

(** What [sanitizeFilename] does to one character. *)
Definition sanitizeChar (c : ascii) : ascii :=
  lowerChar (if isFilenameChar c then c else "_"%char).

(** The characters of a sanitized name: [[a-z0-9._-]]. *)
Definition isSanitizedChar (c : ascii) : bool :=
  isLower c || isDigit c || isDot c || isHyphen c || (nat_of_ascii c =? 95)%nat.

(** [DocumentService.uploadDocument] up to the upload: the lookup of
    the user, the check of the file type, and the name and extension
    under which the file is stored. *)
Definition uploadDocumentChecks (userId : ObjectId) (originalname : string)
  : M Db (string * string) :=
  user <- User_findById userId ;;
  match user with
  | None => throw (ApiError "User not found" 404)
  | Some _ =>
      if negb (validateFileType originalname defaultAllowedTypes)
      then throw (ApiError
                    "Invalid file type. Allowed types: pdf, doc, docx, jpg, jpeg, png" 400)
      else
        let sanitizedFileName := sanitizeFilename originalname in
        let fileExtension := toLowerCase (lastSegment sanitizedFileName) in
        if String.eqb fileExtension ""
        then throw (ApiError "File must have an extension" 400)
        else ret (sanitizedFileName, fileExtension)
  end.

End Helpers.

(** ** services/AttendanceService, the other methods *)

Module AttendanceQueries.

Import Mongo Model JsNumber Attendance.
Local Open Scope mongo_scope.

(** The sort [{ checkIn: 1 }], stable. *)
Fixpoint insertByCheckIn (a : IAttendance) (l : list IAttendance) : list IAttendance :=
  match l with
  | [] => [a]
  | x :: l' => if checkIn a <=? checkIn x then a :: l else x :: insertByCheckIn a l'
  end.

Fixpoint sortByCheckIn (l : list IAttendance) : list IAttendance :=
  match l with
  | [] => []
  | x :: l' => insertByCheckIn x (sortByCheckIn l')
  end.

(** The sort [{ checkIn: -1 }], stable. *)
Fixpoint insertByCheckInDesc (a : IAttendance) (l : list IAttendance) : list IAttendance :=
  match l with
  | [] => [a]
  | x :: l' => if checkIn x <=? checkIn a then a :: l else x :: insertByCheckInDesc a l'
  end.

Fixpoint sortByCheckInDesc (l : list IAttendance) : list IAttendance :=
  match l with
  | [] => []
  | x :: l' => insertByCheckInDesc x (sortByCheckInDesc l')
  end.

Section LocalTime.

Variable tz : Z.

Definition getAllTodayAttendance (userId : ObjectId) (day : Z) : M Db (list IAttendance) :=
  gets (fun db => sortByCheckIn (filter (todayFilter tz userId day) (attendances db))).

(** The filter of [getIncompleteSession]: the filter of the day and
    [checkOut: { $exists: false }]. *)
Definition incompleteFilter (userId : ObjectId) (day : Z) (a : IAttendance) : bool :=
  todayFilter tz userId day a
  && match checkOut a with Some _ => false | None => true end.

Definition getIncompleteSession (userId : ObjectId) (day : Z) : M Db (option IAttendance) :=
  gets (fun db =>
    head (sortByCheckInDesc (filter (incompleteFilter userId day) (attendances db)))).

(** The loop of [getTotalHoursForDay]. *)
Definition addSessionHours (totalHours : float) (attendance : IAttendance) : float :=
  match checkOut attendance with
  | Some out => (totalHours + hoursBetween (checkIn attendance) out)%float
  | None => totalHours
  end.

Definition getTotalHoursForDay (userId : ObjectId) (day : Z) : M Db float :=
  todayAttendance <- getAllTodayAttendance userId day ;;
  ret (round2 (fold_left addSessionHours todayAttendance 0%float)).





End LocalTime.

Definition getAttendanceById (id : ObjectId) : M Db IAttendance :=
  attendance <- Attendance_findById id ;;
  match attendance with
  | None => throw (AppError "Attendance record not found" 404)
  | Some a => ret a
  end.

(** The update of [updateAttendance]. The method types it
    [Partial<MarkAttendanceData>]; its caller hands it the body of the
    request, and the method spreads it into the update, so that it can
    hold any path of the schema. [updatedBy] is the argument of the
    method. *)
Record PartialAttendanceData : Type := mkPartial {
  partial_employeeId : option ObjectId;
  partial_date : option Z;
  partial_checkIn : option Z;
  partial_checkOut : option Z;
  partial_totalHours : option float;
  partial_status : option AttendanceStatus;
  partial_notes : option string;
  partial_isLoggedIn : option bool;
  partial_createdBy : option ObjectId
}.

(** The cast of the update, which runs the setters. *)
Definition castPartial (u : PartialAttendanceData) : PartialAttendanceData :=
  {| partial_employeeId := partial_employeeId u;
     partial_date := partial_date u;
     partial_checkIn := partial_checkIn u;
     partial_checkOut := partial_checkOut u;
     partial_totalHours := partial_totalHours u;
     partial_status := partial_status u;
     partial_notes := setNotes (partial_notes u);
     partial_isLoggedIn := partial_isLoggedIn u;
     partial_createdBy := partial_createdBy u |}.

(** [{ ...updateData, updatedBy }] applied to a record. *)
Definition applyPartial (u : PartialAttendanceData) (by_ : ObjectId) (a : IAttendance)
  : IAttendance :=
  {| _id := _id a;
     employeeId := match partial_employeeId u with Some e => e | None => employeeId a end;
     date := match partial_date u with Some d => d | None => date a end;
     checkIn := match partial_checkIn u with Some t => t | None => checkIn a end;
     checkOut := match partial_checkOut u with Some t => Some t | None => checkOut a end;
     totalHours := match partial_totalHours u with Some h => Some h | None => totalHours a end;
     status := match partial_status u with Some s => s | None => status a end;
     notes := match partial_notes u with Some n => Some n | None => notes a end;
     isLoggedIn := match partial_isLoggedIn u with Some b => b | None => isLoggedIn a end;
     createdBy := match partial_createdBy u with Some c => c | None => createdBy a end;
     updatedBy := by_ |}.

(** [Attendance.findByIdAndUpdate(id, { ...updateData, updatedBy },
    { new: true, runValidators: true })] and the 404 of
    [updateAttendance]. *)
Definition updateAttendance (id : ObjectId) (updateData : PartialAttendanceData)
  (by_ : ObjectId) : M Db IAttendance :=
  let u := castPartial updateData in
  validation None
    (totalHoursErrors (partial_totalHours u) ++ notesErrors (partial_notes u))%list ;;;
  stored <- Attendance_findById id ;;
  match stored with
  | None => throw (AppError "Attendance record not found" 404)
  | Some a =>
      modify (setAttendances (replaceFirst (hasId id) (applyPartial u by_))) ;;;
      ret (applyPartial u by_ a)
  end.

(** [Attendance.findByIdAndDelete], and the 404 of [deleteAttendance]. *)
Definition deleteAttendance (id : ObjectId) : M Db unit :=
  attendance <- Attendance_findById id ;;
  match attendance with
  | None => throw (AppError "Attendance record not found" 404)
  | Some _ => modify (setAttendances (removeFirst (hasId id)))
  end.

Definition attendanceStatusEqb (a b : AttendanceStatus) : bool :=
  match a, b with
  | PRESENT, PRESENT | ABSENT, ABSENT | LATE, LATE
  | HALF_DAY, HALF_DAY | WORK_FROM_HOME, WORK_FROM_HOME => true
  | _, _ => false
  end.

(** The filters of [getAttendanceReport] that its query reads. *)
Record AttendanceFilters : Type := mkFilters {
  filter_employeeId : option ObjectId;
  filter_status : option AttendanceStatus
}.

Definition reportQuery (startDate endDate : Z) (filters : AttendanceFilters)
  (a : IAttendance) : bool :=
  (startDate <=? date a) && (date a <=? endDate)
  && match filter_employeeId filters with
     | Some e => N.eqb (employeeId a) e
     | None => true
     end
  && match filter_status filters with
     | Some s => attendanceStatusEqb (status a) s
     | None => true
     end.

Record ReportSummary : Type := mkSummaryCounts {
  totalRecords : nat;
  presentCount : nat;
  absentCount : nat;
  lateCount : nat;
  halfDayCount : nat;
  wfhCount : nat
}.

Definition countStatus (s : AttendanceStatus) (l : list IAttendance) : nat :=
  List.length (filter (fun a => attendanceStatusEqb (status a) s) l).

(** The [$group] stage over the matched documents; over no document
    the pipeline returns nothing and the method substitutes zeros. *)
Definition reportSummary (matched : list IAttendance) : ReportSummary :=
  match matched with
  | [] => mkSummaryCounts 0 0 0 0 0 0
  | _ =>
      {| totalRecords := List.length matched;
         presentCount := countStatus PRESENT matched;
         absentCount := countStatus ABSENT matched;
         lateCount := countStatus LATE matched;
         halfDayCount := countStatus HALF_DAY matched;
         wfhCount := countStatus WORK_FROM_HOME matched |}
  end.

(** The sort [{ date: -1, 'employeeId.fullName': 1 }], stable: the
    second key names a path below an [ObjectId], which no stored
    document has, so that it orders nothing. *)
Fixpoint insertByDateDesc (a : IAttendance) (l : list IAttendance) : list IAttendance :=
  match l with
  | [] => [a]
  | x :: l' => if date x <=? date a then a :: l else x :: insertByDateDesc a l'
  end.

Fixpoint sortByDateDesc (l : list IAttendance) : list IAttendance :=
  match l with
  | [] => []
  | x :: l' => insertByDateDesc x (sortByDateDesc l')
  end.

(** The [$match] stage of the aggregate. A pipeline is not cast: the
    [employeeId] of the filters, a string, equals the [ObjectId] of no
    document. *)
Definition aggregateMatch (startDate endDate : Z) (filters : AttendanceFilters)
  (a : IAttendance) : bool :=
  (startDate <=? date a) && (date a <=? endDate)
  && match filter_employeeId filters with
     | Some _ => false
     | None => true
     end
  && match filter_status filters with
     | Some s => attendanceStatusEqb (status a) s
     | None => true
     end.

(** The records come from [Attendance.find], the summary from
    [Attendance.aggregate]. *)
Definition getAttendanceReport (startDate endDate : Z) (filters : AttendanceFilters)
  : M Db (list IAttendance * ReportSummary) :=
  gets (fun db =>
    (sortByDateDesc (filter (reportQuery startDate endDate filters) (attendances db)),
     reportSummary (filter (aggregateMatch startDate endDate filters) (attendances db)))).

End AttendanceQueries.

(** ** controllers/AttendanceController *)

Module AttendanceController.

Import Mongo Model JsNumber Attendance AttendanceQueries.
Local Open Scope mongo_scope.

(** The [data] of the response of [clockIn]; the employee code of the
    user is left out. *)
Record ClockInResponse : Type := mkClockIn {
  in_message : string;
  in_id : ObjectId;
  in_checkIn : Z;
  in_date : Z;
  in_status : AttendanceStatus;
  in_notes : option string;
  in_isUpdate : bool;
  in_isLoggedIn : bool;
  in_fullName : string
}.

(** The [data] of the response of [clockOut]. *)
Record ClockOutResponse : Type := mkClockOut {
  out_id : ObjectId;
  out_firstClockIn : Z;
  out_lastClockOut : option Z;
  out_totalHoursToday : float;
  out_date : Z;
  out_status : AttendanceStatus;
  out_notes : option string;
  out_isLoggedIn : bool
}.

Inductive StatusKind : Type := not_started | clocked_in | available.

Record Session : Type := mkSession {
  session_id : ObjectId;
  session_checkIn : Z;
  session_checkOut : option Z;
  session_hours : option float;
  session_notes : option string;
  session_isActive : bool
}.

Record ActiveSession : Type := mkActive {
  active_id : ObjectId;
  active_checkIn : Z;
  active_currentHours : float
}.

Record DailySummary : Type := mkDaily {
  daily_totalHours : float;
  daily_completedHours : float;
  daily_currentSessionHours : float;
  daily_sessionsCount : nat;
  daily_completedSessions : nat;
  daily_activeSession : option ActiveSession
}.

(** The [data] of the response of [getCurrentStatus]; on a day without
    records the summary has the totals only, which are zero. *)
Record StatusResponse : Type := mkStatus {
  st_status : StatusKind;
  st_canClockIn : bool;
  st_canClockOut : bool;
  st_sessions : list Session;
  st_dailySummary : DailySummary
}.

Record DeletedSession : Type := mkDeleted {
  deleted_id : ObjectId;
  deleted_checkIn : Z;
  deleted_checkOut : option Z;
  deleted_sessionHours : option float
}.

(** [x || 0] on an optional number. *)
Definition orZero (x : option float) : float :=
  match x with
  | Some f => if PrimFloat.is_zero f || PrimFloat.is_nan f then 0%float else f
  | None => 0%float
  end.

Definition isClosed (a : IAttendance) : bool :=
  match checkOut a with Some _ => true | None => false end.

Section LocalTime.

Variable tz : Z.

(** [clockIn]; [now1] and [now2] are the two readings of the clock, for
    [today] and for the check-in time, and [newId] the identifier of
    the record if one is created. *)
Definition clockIn (now1 now2 : Z) (userId : ObjectId) (notes_ : option string)
  (newId : ObjectId) : M Db ClockInResponse :=
  user <- User_findById userId ;;
  match user with
  | None => throw (AppError "User not found" 404)
  | Some u =>
      let today := startOfDay tz now1 in
      existingRecord <- getTodayAttendance tz userId today ;;
      let clockInData :=
        {| data_employeeId := userId;
           data_checkIn := now2;
           data_checkOut := None;
           data_status := None;
           data_notes := Some (match orElse notes_ None with
                               | Some n => n
                               | None => ""
                               end) |} in
      attendance <- markAttendance tz clockInData userId newId ;;
      let isUpdate := match existingRecord with Some _ => true | None => false end in
      ret {| in_message :=
               if isUpdate
               then "Clock-in acknowledged - Using original check-in time for the day"
               else "Clocked in successfully - First session of the day started";
             in_id := _id attendance;
             in_checkIn := checkIn attendance;
             in_date := date attendance;
             in_status := status attendance;
             in_notes := notes attendance;
             in_isUpdate := isUpdate;
             in_isLoggedIn := isLoggedIn attendance;
             in_fullName := fullName u |}
  end.

(** [clockOut]; [now1] and [now2] are the two readings of the clock,
    for [today] and for the check-out time. *)
Definition clockOut (now1 now2 : Z) (userId : ObjectId) (notes_ : option string)
  : M Db ClockOutResponse :=
  let today := startOfDay tz now1 in
  found <- getTodayAttendance tz userId today ;;
  match found with
  | None => throw (AppError
                     "No attendance record found for today. Please clock in first." 400)
  | Some todayAttendance =>
      let checkOutTime := now2 in
      if checkOutTime <=? checkIn todayAttendance
      then throw (AppError "Check-out time must be after check-in time" 400)
      else
        updatedAttendance <-
          markCheckOut (_id todayAttendance) checkOutTime userId notes_ ;;
        let totalHours_ := hoursBetween (checkIn todayAttendance) checkOutTime in
        ret {| out_id := _id updatedAttendance;
               out_firstClockIn := checkIn updatedAttendance;
               out_lastClockOut := checkOut updatedAttendance;
               out_totalHoursToday := round2 totalHours_;
               out_date := date updatedAttendance;
               out_status := status updatedAttendance;
               out_notes := notes updatedAttendance;
               out_isLoggedIn := isLoggedIn updatedAttendance |}
  end.

Definition sessionOf (currentSessionHours : float) (record : IAttendance) : Session :=
  {| session_id := _id record;
     session_checkIn := checkIn record;
     session_checkOut := checkOut record;
     session_hours := if isClosed record then totalHours record
                      else Some currentSessionHours;
     session_notes := notes record;
     session_isActive := negb (isClosed record) |}.

(** [getCurrentStatus]; [now1] and [now2] are the readings of the clock
    for [today] and for the hours of the open session. *)
Definition getCurrentStatus (now1 now2 : Z) (userId : ObjectId) : M Db StatusResponse :=
  let today := startOfDay tz now1 in
  todayAttendanceRecords <- getAllTodayAttendance tz userId today ;;
  match todayAttendanceRecords with
  | [] =>
      ret {| st_status := not_started;
             st_canClockIn := true;
             st_canClockOut := false;
             st_sessions := [];
             st_dailySummary := mkDaily 0 0 0 0 0 None |}
  | _ =>
      let activeSession := find (fun record => negb (isClosed record))
                                todayAttendanceRecords in
      let completedSessions := filter isClosed todayAttendanceRecords in
      let currentSessionHours :=
        match activeSession with
        | Some a => hoursBetween (checkIn a) now2
        | None => 0%float
        end in
      let totalCompletedHours :=
        fold_left (fun total session => (total + orZero (totalHours session))%float)
                  completedSessions 0%float in
      let totalDailyHours := (totalCompletedHours + currentSessionHours)%float in
      ret {| st_status := match activeSession with
                          | Some _ => clocked_in
                          | None => available
                          end;
             st_canClockIn := match activeSession with Some _ => false | None => true end;
             st_canClockOut := match activeSession with Some _ => true | None => false end;
             st_sessions := map (sessionOf currentSessionHours) todayAttendanceRecords;
             st_dailySummary :=
               {| daily_totalHours := round2 totalDailyHours;
                  daily_completedHours := round2 totalCompletedHours;
                  daily_currentSessionHours := round2 currentSessionHours;
                  daily_sessionsCount := List.length todayAttendanceRecords;
                  daily_completedSessions := List.length completedSessions;
                  daily_activeSession :=
                    match activeSession with
                    | Some a => Some (mkActive (_id a) (checkIn a)
                                               (round2 currentSessionHours))
                    | None => None
                    end |} |}
  end.

(** [Promise.all] over the deletions: each one runs, and the first
    error, if there is one, is the error of the whole. *)
Fixpoint deleteAll (records : list IAttendance) (first : option error) : M Db unit :=
  match records with
  | [] => match first with
          | Some e => throw e
          | None => ret tt
          end
  | record :: rest =>
      failed <- tryCatch (deleteAttendance (_id record) ;;; ret None)
                         (fun e => ret (Some e)) ;;
      deleteAll rest (match first with Some e => Some e | None => failed end)
  end.

(** [resetTodayAttendance]: the sessions it reports as deleted, or
    nothing when the day has no record. *)
Definition resetTodayAttendance (now : Z) (userId : ObjectId)
  : M Db (option (list DeletedSession)) :=
  let today := startOfDay tz now in
  todayAttendanceRecords <- getAllTodayAttendance tz userId today ;;
  match todayAttendanceRecords with
  | [] => ret None
  | _ =>
      deleteAll todayAttendanceRecords None ;;;
      ret (Some (map (fun record =>
                        mkDeleted (_id record) (checkIn record) (checkOut record)
                                  (totalHours record))
                     todayAttendanceRecords))
  end.

End LocalTime.

End AttendanceController.

(** ** services/RoleService: the queries *)

Module RoleQueries.

Import Mongo Model RoleService.
Local Open Scope mongo_scope.

(** The sort [{ level: 1, name: 1 }]: by level, then by name. *)
Definition roleLeb (a b : IRole) : bool :=
  (level a <? level b)%Z
  || (level a =? level b)%Z && String.leb (name a) (name b).

Fixpoint insertRole (r : IRole) (l : list IRole) : list IRole :=
  match l with
  | [] => [r]
  | x :: l' => if roleLeb r x then r :: l else x :: insertRole r l'
  end.

Fixpoint sortRoles (l : list IRole) : list IRole :=
  match l with
  | [] => []
  | x :: l' => insertRole x (sortRoles l')
  end.

(** The filter of [getAllRoles], after its cast. *)
Definition allRolesFilter (organizationCode_ : string) (includeSystemRoles : bool)
  (r : IRole) : bool :=
  String.eqb (organizationCode r) (setOrganizationCode (Js.toUpperCase organizationCode_))
  && (includeSystemRoles || negb (isSystemRole r)).

Definition getAllRoles (organizationCode_ : string) (includeSystemRoles : bool)
  : M Db (list PopulatedRole) :=
  gets (fun db =>
    map (populateRole (permissionDocs db))
        (sortRoles (filter (allRolesFilter organizationCode_ includeSystemRoles) (roles db)))).

Definition getRoleById (roleId : IdString) (organizationCode_ : string)
  : M Db PopulatedRole :=
  tryCatch
    (role <- Role_findInOrganization roleId (Js.toUpperCase organizationCode_) ;;
     match role with
     | None => throw (ApiError "Role not found" 404)
     | Some r =>
         docs <- gets permissionDocs ;;
         ret (populateRole docs r)
     end)
    (fun error =>
       match error with
       | ApiError _ _ => throw error
       | _ => throw (ApiError "Failed to fetch role" 500)
       end).

(** The filter of [getRolesByLevel]. *)
Definition byLevelFilter (maxLevel : Z) (r : IRole) : bool :=
  (level r <=? maxLevel)%Z && negb (isSystemRole r).

Definition getRolesByLevel (maxLevel : Z) : M Db (list PopulatedRole) :=
  gets (fun db =>
    map (populateRole (permissionDocs db))
        (sortRoles (filter (byLevelFilter maxLevel) (roles db)))).



End RoleQueries.

(** ** services/PermissionService *)

Module PermissionService.

Import Mongo Model RoleService.
Local Open Scope mongo_scope.

Definition setPermissionDocs (f : list IPermission -> list IPermission) (db : Db) : Db :=
  {| users := users db;
     attendances := attendances db;
     roles := roles db;
     permissionDocs := f (permissionDocs db) |}.

Definition hasId (id : ObjectId) : IPermission -> bool := hasKey permission_id id.

(** [Role.countDocuments({ permissions: permissionId })] *)
Definition Role_countWithPermission (id : ObjectId) : M Db nat :=
  gets (fun db =>
    List.length (filter (fun r => existsb (N.eqb id) (permissions r)) (roles db))).

Definition msg_assignedToRoles (roleCount : nat) : string :=
  "Cannot delete permission that is assigned to " ++ showNat roleCount ++ " roles".

Definition deletePermission (permissionId : IdString) : M Db unit :=
  tryCatch
    (id <- castObjectId permissionId ;;
     permission <- gets (fun db => find (hasId id) (permissionDocs db)) ;;
     match permission with
     | None => throw (ApiError "Permission not found" 404)
     | Some _ =>
         roleCount <- Role_countWithPermission id ;;
         if (0 <? roleCount)%nat
         then throw (ApiError (msg_assignedToRoles roleCount) 400)
         else modify (setPermissionDocs (removeFirst (hasId id)))
     end)
    (fun error =>
       match error with
       | ApiError _ _ => throw error
       | _ => throw (ApiError ("Failed to delete permission: " ++ message error) 500)
       end).

End PermissionService.


(** ** More sample data *)

Module Fixtures.

Import Js OrganizationCode Mongo Model.

(** A request that carries a code in its query only. *)
Definition queryRequest : OrganizationRequest :=
  mkRequest Undefined Undefined (Str "widge9") None.

(** Ann's record after the clock-out of 18:00 that follows the
    clock-in of 14:00, and the database that holds it. *)
Definition fullDayRecord : IAttendance :=
  mkAttendance 100%N 1%N 0 Samples.nine (Some Samples.eighteen) (Some 9%float)
               PRESENT None false 1%N 1%N.

Definition db4 : Db := mkDb [Samples.ann; Samples.bob] [fullDayRecord] [] [].

(** The auditor with the permission to create users, and the roles
    with that auditor. *)
Definition auditorWithCreate : IRole :=
  RoleService.withPermissions Samples.auditor [50%N].

Definition dbAuditor : Db :=
  mkDb [Samples.ann; Samples.bob] []
       [Samples.superAdmin; Samples.recruiter; auditorWithCreate] [Samples.usersCreate].

(** An open record of Bob for the same day, alone, with the open
    record of Ann, and with her closed one. *)
Definition bobOpen : IAttendance :=
  mkAttendance 101%N 2%N 0 Samples.nine None None PRESENT None true 2%N 2%N.

Definition dbBob : Db := mkDb [Samples.ann; Samples.bob] [bobOpen] [] [].

Definition dbBoth : Db :=
  mkDb [Samples.ann; Samples.bob] [bobOpen; Samples.openRecord] [] [].

Definition dbBothClosed : Db :=
  mkDb [Samples.ann; Samples.bob] [bobOpen; Samples.closedRecord] [] [].

(** A permission whose identifier, 3a, has a letter among its digits,
    its spelling in upper case, and a role that has the permission. *)
Definition usersExport : IPermission := mkPermission 58%N "users:export".

Definition upperExport : IdString := Spelled 58%N "00000000000000000000003A".

Definition exporter : IRole :=
  mkRole 13%N "Exporter" "Exporter" None [58%N] true false 6 3 "ACME" "1" "1".

Definition dbExport : Db :=
  mkDb [Samples.ann; Samples.bob] [] [exporter] [usersExport].




End Fixtures.

(** * Properties *)

(** ** JavaScript numbers *)

Section NumberFacts.

Import JsNumber.

Lemma iter_pos_inv (A : Type) (f : A -> A) (P : A -> Prop) :
  (forall x, P x -> P (f x)) -> forall n x, P x -> P (iter_pos f n x).
Proof.
  intros Hf. induction n as [n IH|n IH|]; intros x Hx; cbn.
  - apply IH, IH, Hf, Hx.
  - apply IH, IH, Hx.
  - apply Hf, Hx.
Qed.

Lemma shr_1_nonneg (mrs : shr_record) : 0 <= shr_m mrs -> 0 <= shr_m (shr_1 mrs).
Proof.
  destruct mrs as [m r s]. cbn. destruct m as [|p|p]; cbn; intros H.
  - lia.
  - destruct p; cbn; lia.
  - lia.
Qed.

Lemma shr_fexp_nonneg (m e : Z) (l : location) :
  0 <= m -> 0 <= shr_m (fst (shr_fexp prec emax m e l)).
Proof.
  intros H. unfold shr_fexp, shr.
  assert (H0 : 0 <= shr_m (shr_record_of_loc m l)).
  { destruct l as [|[]]; cbn; exact H. }
  destruct (fexp prec emax (Zdigits2 m + e) - e) as [|p|p]; cbn [fst].
  - exact H0.
  - apply iter_pos_inv; [apply shr_1_nonneg | exact H0].
  - exact H0.
Qed.

Lemma round_nearest_even_nonneg (m : Z) (l : location) :
  0 <= m -> 0 <= round_nearest_even m l.
Proof.
  intros H. destruct l as [|[]]; cbn; try lia.
  destruct (Z.even m); lia.
Qed.

Lemma binary_round_aux_signed (s : bool) (m e : Z) (l : location) :
  0 <= m -> signed s (binary_round_aux prec emax s m e l).
Proof.
  intros H. unfold binary_round_aux.
  pose proof (shr_fexp_nonneg m e l H) as H1.
  destruct (shr_fexp prec emax m e l) as [mrs' e'].
  cbn [fst] in H1.
  pose proof (shr_fexp_nonneg _ e' loc_Exact
                (round_nearest_even_nonneg _ (loc_of_shr_record mrs') H1)) as H2.
  destruct (shr_fexp prec emax (round_nearest_even (shr_m mrs') (loc_of_shr_record mrs')) e' loc_Exact)
    as [mrs'' e''].
  cbn [fst] in H2.
  destruct (shr_m mrs'') as [|p|p].
  - constructor.
  - destruct (e'' <=? emax - prec); constructor.
  - lia.
Qed.

Lemma binary_round_signed (s : bool) (m : positive) (e : Z) :
  signed s (binary_round prec emax s m e).
Proof.
  unfold binary_round.
  destruct (shl_align m e (fexp prec emax (Z.pos (digits2_pos m) + e))) as [mz ez].
  apply binary_round_aux_signed. lia.
Qed.

Lemma binary_normalize_signed (m e : Z) :
  0 <= m -> signed false (binary_normalize prec emax m e false).
Proof.
  intros H. destruct m as [|p|p]; cbn.
  - constructor.
  - apply binary_round_signed.
  - lia.
Qed.

Lemma of_uint63_signed (n : int) : signed false (Prim2SF (of_uint63 n)).
Proof.
  rewrite FloatAxioms.of_uint63_spec. apply binary_normalize_signed.
  pose proof (Uint63.to_Z_bounded n). lia.
Qed.

Lemma div_signed (x y : float) (m : positive) (e : Z) :
  signed false (Prim2SF x) -> Prim2SF y = S754_finite false m e ->
  signed false (Prim2SF (x / y)).
Proof.
  intros Hx Hy. rewrite FloatAxioms.div_spec, Hy. unfold SF64div.
  destruct Hx as [|mx ex|]; cbn [SFdiv xorb]; try constructor.
  unfold SFdiv_core_binary.
  match goal with |- context [Z.div_eucl ?t _] => set (m' := t) end.
  assert (Hm' : 0 <= m').
  { subst m'.
    match goal with |- 0 <= match ?t with _ => _ end => destruct t as [|p|p] end; try lia.
    apply Z.shiftl_nonneg. lia. }
  pose proof (Z_div_mod m' (Z.pos m) eq_refl) as D.
  destruct (Z.div_eucl m' (Z.pos m)) as [q r].
  apply binary_round_aux_signed.
  destruct D as [D1 D2]. nia.
Qed.

Lemma mul_signed (x y : float) (m : positive) (e : Z) :
  signed false (Prim2SF x) -> Prim2SF y = S754_finite false m e ->
  signed false (Prim2SF (x * y)).
Proof.
  intros Hx Hy. rewrite FloatAxioms.mul_spec, Hy. unfold SF64mul.
  destruct Hx as [|mx ex|]; cbn [SFmul xorb]; try constructor.
  apply binary_round_aux_signed. lia.
Qed.

Lemma signed_leb (x : float) : signed false (Prim2SF x) -> (0 <=? x)%float = true.
Proof.
  intros H. rewrite FloatAxioms.leb_spec.
  change (Prim2SF 0) with (S754_zero false).
  destruct H; reflexivity.
Qed.

Lemma signed_ltb (x : float) : signed false (Prim2SF x) -> (x <? 0)%float = false.
Proof.
  intros H. rewrite FloatAxioms.ltb_spec.
  change (Prim2SF 0) with (S754_zero false).
  destruct H; reflexivity.
Qed.

Lemma Math_round_signed (x : float) :
  signed false (Prim2SF x) -> signed false (Prim2SF (Math_round x)).
Proof.
  intros H. unfold Math_round.
  destruct (PrimFloat.is_nan x || PrimFloat.is_infinity x || PrimFloat.is_zero x); [exact H|].
  destruct (frshiftexp x) as [f e].
  destruct (2154 <=? e)%uint63; [exact H|].
  rewrite (signed_ltb x H).
  destruct (62 <? 2154 - e)%uint63.
  - change (Prim2SF 0) with (S754_zero false). constructor.
  - apply of_uint63_signed.
Qed.

Lemma round2_signed (h : float) :
  signed false (Prim2SF h) -> signed false (Prim2SF (round2 h)).
Proof.
  intros H. unfold round2.
  eapply div_signed; [|vm_compute; reflexivity].
  apply Math_round_signed.
  eapply mul_signed; [exact H|vm_compute; reflexivity].
Qed.


(** The conversions of integers below 2^53 are exact. *)

Lemma digits2_pos_bounds (p : positive) :
  2 ^ (Z.pos (digits2_pos p) - 1) <= Z.pos p < 2 ^ Z.pos (digits2_pos p).
Proof.
  induction p as [p IH|p IH|]; cbn [digits2_pos].
  - rewrite Pos2Z.inj_succ.
    replace (Z.succ (Z.pos (digits2_pos p)) - 1) with (Z.succ (Z.pos (digits2_pos p) - 1)) by lia.
    rewrite !Z.pow_succ_r by lia. lia.
  - rewrite Pos2Z.inj_succ.
    replace (Z.succ (Z.pos (digits2_pos p)) - 1) with (Z.succ (Z.pos (digits2_pos p) - 1)) by lia.
    rewrite !Z.pow_succ_r by lia. lia.
  - cbn. lia.
Qed.

Lemma digits2_pos_unique (p : positive) (c : Z) :
  2 ^ (c - 1) <= Z.pos p < 2 ^ c -> Z.pos (digits2_pos p) = c.
Proof.
  intros [L U]. pose proof (digits2_pos_bounds p) as [L' U'].
  assert (0 < c).
  { destruct (Z_lt_le_dec 0 c) as [|N]; [assumption|].
    assert (2 ^ c <= 2 ^ 0) by (apply Z.pow_le_mono_r; lia).
    change (2 ^ 0) with 1 in *. lia. }
  destruct (Z_lt_le_dec (Z.pos (digits2_pos p)) c) as [Lt|Ge].
  - assert (2 ^ Z.pos (digits2_pos p) <= 2 ^ (c - 1)) by (apply Z.pow_le_mono_r; lia). lia.
  - destruct (Z_lt_le_dec c (Z.pos (digits2_pos p))) as [Lt|Le]; [|lia].
    assert (2 ^ c <= 2 ^ (Z.pos (digits2_pos p) - 1)) by (apply Z.pow_le_mono_r; lia). lia.
Qed.

Lemma iter_xO_val (p k : positive) : Z.pos (Pos.iter xO p k) = Z.pos p * 2 ^ Z.pos k.
Proof.
  induction k as [|k IH] using Pos.peano_ind.
  - cbn. lia.
  - rewrite Pos.iter_succ, Pos2Z.inj_xO, IH, Pos2Z.inj_succ, Z.pow_succ_r by lia. lia.
Qed.

Lemma shl_align_val (m : positive) (e e' : Z) :
  e' <= e -> Z.pos (fst (shl_align m e e')) = Z.pos m * 2 ^ (e - e').
Proof.
  intros H. unfold shl_align. destruct (e' - e) as [|d|d] eqn:E.
  - cbn [fst]. replace (e - e') with 0 by lia. cbn. lia.
  - lia.
  - cbn [fst]. rewrite iter_xO_val. replace (e - e') with (Z.pos d) by lia. reflexivity.
Qed.

Lemma shr_1_even (z : Z) :
  0 < z -> shr_1 (Build_shr_record (2 * z) false false) = Build_shr_record z false false.
Proof. intros H. destruct z as [|p|p]; try lia. reflexivity. Qed.

Lemma iter_shr_1_exact (j : positive) :
  forall q, 0 < q ->
    iter_pos shr_1 j (Build_shr_record (q * 2 ^ Z.pos j) false false)
    = Build_shr_record q false false.
Proof.
  induction j as [j IH|j IH|]; intros q Hq; cbn [iter_pos].
  - assert (P : 0 < 2 ^ Z.pos j) by (apply Z.pow_pos_nonneg; lia).
    replace (q * 2 ^ Z.pos j~1) with (2 * ((q * 2 ^ Z.pos j) * 2 ^ Z.pos j)).
    + rewrite shr_1_even by nia.
      rewrite IH by nia. apply IH, Hq.
    + replace (Z.pos j~1) with (Z.pos j + Z.pos j + 1) by lia.
      rewrite !Z.pow_add_r by lia. change (2 ^ 1) with 2. ring.
  - assert (P : 0 < 2 ^ Z.pos j) by (apply Z.pow_pos_nonneg; lia).
    replace (q * 2 ^ Z.pos j~0) with ((q * 2 ^ Z.pos j) * 2 ^ Z.pos j).
    + rewrite IH by nia. apply IH, Hq.
    + replace (Z.pos j~0) with (Z.pos j + Z.pos j) by lia.
      rewrite !Z.pow_add_r by lia. ring.
  - change (2 ^ 1) with 2. rewrite Z.mul_comm. apply shr_1_even, Hq.
Qed.

(** A mantissa of 53 digits with an exponent in range is what rounding
    returns. *)
Lemma binary_round_aux_canonical (s : bool) (m : positive) (e : Z) :
  Z.pos (digits2_pos m) = 53 -> -1074 <= e <= 971 ->
  binary_round_aux prec emax s (Z.pos m) e loc_Exact = S754_finite s m e.
Proof.
  intros D R.
  assert (F : shr_fexp prec emax (Z.pos m) e loc_Exact
               = (Build_shr_record (Z.pos m) false false, e)).
  { unfold shr_fexp. cbn [Zdigits2 shr_record_of_loc]. rewrite D.
    replace (fexp prec emax (53 + e) - e) with 0; [reflexivity|].
    unfold fexp, emin, prec, emax. lia. }
  unfold binary_round_aux. rewrite F. cbn [shr_m loc_of_shr_record round_nearest_even].
  rewrite F. cbn [shr_m].
  replace (e <=? emax - prec) with true; [reflexivity|].
  symmetry. apply Z.leb_le. unfold emax, prec. lia.
Qed.

Lemma binary_round_exact (s : bool) (m : positive) (k n : Z) :
  0 <= k -> 0 < n < 2 ^ 53 -> Z.pos m = n * 2 ^ k ->
  exists mz ez,
    binary_round prec emax s m (- k) = S754_finite s mz ez /\
    ez <= 0 /\ Z.pos mz = n * 2 ^ (- ez) /\ Z.pos (digits2_pos mz) = 53.
Proof.
  intros Hk Hn Hm.
  pose proof (digits2_pos_bounds m) as [L U].
  set (d := Z.pos (digits2_pos m)) in *.
  assert (Pk : 0 < 2 ^ k) by (apply Z.pow_pos_nonneg; lia).
  assert (D1 : k < d).
  { destruct (Z_lt_le_dec k d) as [|N]; [assumption|].
    assert (2 ^ d <= 2 ^ k) by (apply Z.pow_le_mono_r; lia). nia. }
  assert (D2 : d <= 53 + k).
  { destruct (Z_le_gt_dec d (53 + k)) as [|N]; [assumption|].
    assert (2 ^ (53 + k) <= 2 ^ (d - 1)) by (apply Z.pow_le_mono_r; lia).
    rewrite Z.pow_add_r in H by lia. nia. }
  unfold binary_round. fold d.
  replace (fexp prec emax (d + - k)) with (d - k - 53)
    by (unfold fexp, emin, prec, emax; lia).
  unfold shl_align.
  destruct (d - k - 53 - - k) as [|j|j] eqn:E.
  - (* the mantissa has 53 digits *)
    exists m, (- k). split; [|split; [lia|split]].
    + apply binary_round_aux_canonical; [fold d; lia|lia].
    + rewrite Z.opp_involutive. exact Hm.
    + fold d. lia.
  - (* more than 53 digits: the low digits, which are zero, are dropped *)
    assert (Hj : Z.pos j <= k) by lia.
    set (q := n * 2 ^ (k - Z.pos j)).
    assert (Pq : 0 < 2 ^ (k - Z.pos j)) by (apply Z.pow_pos_nonneg; lia).
    assert (Hq : 0 < q) by (unfold q; nia).
    assert (Hmq : Z.pos m = q * 2 ^ Z.pos j).
    { unfold q. rewrite <- Z.mul_assoc, <- Z.pow_add_r by lia.
      replace (k - Z.pos j + Z.pos j) with k by lia. exact Hm. }
    destruct q as [|qp|qp] eqn:Eq; try lia.
    assert (Dq : Z.pos (digits2_pos qp) = 53).
    { apply digits2_pos_unique.
      assert (Pj : 0 < 2 ^ Z.pos j) by (apply Z.pow_pos_nonneg; lia).
      replace d with (53 + Z.pos j) in L, U by lia.
      replace (53 + Z.pos j - 1) with (52 + Z.pos j) in L by lia.
      rewrite Z.pow_add_r in L, U by lia.
      change (53 - 1) with 52. nia. }
    exists qp, (- k + Z.pos j). split; [|split; [lia|split]].
    + unfold binary_round_aux, shr_fexp. cbn [Zdigits2 shr_record_of_loc]. fold d.
      replace (fexp prec emax (d + - k) - - k) with (Z.pos j)
        by (unfold fexp, emin, prec, emax; lia).
      cbn [shr]. rewrite Hmq, iter_shr_1_exact by lia.
      cbn [shr_m loc_of_shr_record round_nearest_even Zdigits2 shr_record_of_loc].
      rewrite Dq.
      replace (fexp prec emax (53 + (- k + Z.pos j)) - (- k + Z.pos j)) with 0
        by (unfold fexp, emin, prec, emax; lia).
      cbn [shr shr_m].
      replace (- k + Z.pos j <=? emax - prec) with true; [reflexivity|].
      symmetry. apply Z.leb_le. unfold emax, prec. lia.
    + rewrite <- Eq. unfold q. f_equal. f_equal. lia.
    + exact Dq.
  - (* fewer than 53 digits: the mantissa is shifted to the left *)
    exists (Pos.iter xO m j), (d - k - 53).
    assert (V : Z.pos (Pos.iter xO m j) = n * 2 ^ (- (d - k - 53))).
    { rewrite iter_xO_val, Hm, <- Z.mul_assoc, <- Z.pow_add_r by lia.
      f_equal. f_equal. lia. }
    assert (Dz : Z.pos (digits2_pos (Pos.iter xO m j)) = 53).
    { apply digits2_pos_unique. rewrite iter_xO_val.
      assert (Pj : 0 < 2 ^ Z.pos j) by (apply Z.pow_pos_nonneg; lia).
      replace (53 - 1) with (d - 1 + Z.pos j) by lia.
      replace 53 with (d + Z.pos j) by lia.
      rewrite (Z.pow_add_r 2 (d - 1) (Z.pos j)), (Z.pow_add_r 2 d (Z.pos j)) by lia.
      nia. }
    split; [|split; [lia|split]].
    + apply binary_round_aux_canonical; [exact Dz|lia].
    + exact V.
    + exact Dz.
Qed.

(** The mantissa of 53 digits and the exponent that stand for an
    integer are unique. *)
Lemma canonical_unique (n : Z) (m1 m2 : positive) (e1 e2 : Z) :
  e1 <= 0 -> e2 <= 0 ->
  Z.pos m1 = n * 2 ^ (- e1) -> Z.pos m2 = n * 2 ^ (- e2) ->
  Z.pos (digits2_pos m1) = 53 -> Z.pos (digits2_pos m2) = 53 ->
  m1 = m2 /\ e1 = e2.
Proof.
  intros H1 H2 V1 V2 D1 D2.
  pose proof (digits2_pos_bounds m1) as [L1 U1].
  pose proof (digits2_pos_bounds m2) as [L2 U2].
  rewrite D1 in L1, U1. rewrite D2 in L2, U2. change (53 - 1) with 52 in *.
  assert (E : e1 = e2).
  { destruct (Z.lt_trichotomy e1 e2) as [Lt|[Eq|Gt]]; [|exact Eq|].
    - exfalso.
      assert (P : 0 < 2 ^ (- e2)) by (apply Z.pow_pos_nonneg; lia).
      assert (Q : 2 <= 2 ^ (e2 - e1)).
      { change 2 with (2 ^ 1) at 1. apply Z.pow_le_mono_r; lia. }
      replace (- e1) with (- e2 + (e2 - e1)) in V1 by lia.
      rewrite Z.pow_add_r in V1 by lia.
      change (2 ^ 53) with (2 * 2 ^ 52) in U1. nia.
    - exfalso.
      assert (P : 0 < 2 ^ (- e1)) by (apply Z.pow_pos_nonneg; lia).
      assert (Q : 2 <= 2 ^ (e1 - e2)).
      { change 2 with (2 ^ 1) at 1. apply Z.pow_le_mono_r; lia. }
      replace (- e2) with (- e1 + (e1 - e2)) in V2 by lia.
      rewrite Z.pow_add_r in V2 by lia.
      change (2 ^ 53) with (2 * 2 ^ 52) in U2. nia. }
  split; [|exact E]. subst e2. rewrite <- V2 in V1. congruence.
Qed.

(** The number of an integer below 2^53 in magnitude. *)
Lemma of_uint63_exact (n : Z) :
  0 < n < 2 ^ 53 ->
  exists m e,
    Prim2SF (of_uint63 (Uint63.of_Z n)) = S754_finite false m e /\
    e <= 0 /\ Z.pos m = n * 2 ^ (- e) /\ Z.pos (digits2_pos m) = 53.
Proof.
  intros H. rewrite FloatAxioms.of_uint63_spec, Uint63.of_Z_spec.
  rewrite Z.mod_small by (change wB with (2 ^ 63); change (2 ^ 53) with 9007199254740992 in H;
                          change (2 ^ 63) with 9223372036854775808; lia).
  destruct n as [|p|p]; try lia.
  cbn [binary_normalize].
  apply (binary_round_exact false p 0 (Z.pos p)); [lia|exact H|].
  change (2 ^ 0) with 1. lia.
Qed.

Lemma validDate_bound (t : Z) : validDate t -> Z.abs t < 2 ^ 53.
Proof.
  unfold validDate, maxTime. change (2 ^ 53) with 9007199254740992. lia.
Qed.

Lemma getTime_zero : Prim2SF (getTime 0) = S754_zero false.
Proof. reflexivity. Qed.

Lemma getTime_exact (t : Z) :
  validDate t -> t <> 0 ->
  exists m e,
    Prim2SF (getTime t) = S754_finite (t <? 0) m e /\
    e <= 0 /\ Z.pos m = Z.abs t * 2 ^ (- e) /\ Z.pos (digits2_pos m) = 53.
Proof.
  intros V N. pose proof (validDate_bound t V) as B.
  unfold getTime. destruct (t <? 0) eqn:S.
  - apply Z.ltb_lt in S.
    destruct (of_uint63_exact (- t)) as (m & e & E & H). { lia. }
    exists m, e. rewrite FloatAxioms.opp_spec, E. cbn [SFopp negb].
    replace (Z.abs t) with (- t) by lia. split; [reflexivity|exact H].
  - apply Z.ltb_ge in S.
    destruct (of_uint63_exact t) as (m & e & E & H). { lia. }
    exists m, e. replace (Z.abs t) with t by lia. split; [exact E|exact H].
Qed.

(** The difference of two time values: its sign, and its value when
    it is below 2^53. *)
Lemma getTime_sub (a t : Z) :
  validDate a -> validDate t -> a < t ->
  signed false (Prim2SF (getTime t - getTime a)) /\
  (t - a < 2 ^ 53 -> (getTime t - getTime a)%float = of_uint63 (Uint63.of_Z (t - a))).
Proof.
  intros Va Vt Lt.
  rewrite FloatAxioms.sub_spec. unfold SF64sub.
  destruct (Z.eq_dec a 0) as [A0|A0]; [|destruct (Z.eq_dec t 0) as [T0|T0]].
  - (* the first time is the epoch *)
    subst a. rewrite getTime_zero.
    destruct (getTime_exact t Vt) as (m & e & E & He & Hm & D). { lia. }
    replace (t <? 0) with false in E by (symmetry; apply Z.ltb_ge; lia).
    rewrite E. cbn [SFsub]. split; [constructor|].
    intros _. apply Prim2SF_inj. rewrite FloatAxioms.sub_spec, getTime_zero, E.
    unfold SF64sub. cbn [SFsub].
    replace (t - 0) with t by lia. symmetry.
    unfold getTime in E. replace (t <? 0) with false in E by (symmetry; apply Z.ltb_ge; lia).
    exact E.
  - (* the second time is the epoch *)
    subst t. rewrite getTime_zero.
    destruct (getTime_exact a Va A0) as (m & e & E & He & Hm & D).
    replace (a <? 0) with true in E by (symmetry; apply Z.ltb_lt; lia).
    rewrite E. cbn [SFsub negb]. split; [constructor|].
    intros B. apply Prim2SF_inj. rewrite FloatAxioms.sub_spec, getTime_zero, E.
    unfold SF64sub. cbn [SFsub negb].
    destruct (of_uint63_exact (0 - a)) as (m' & e' & E' & He' & Hm' & D'). { lia. }
    rewrite E'.
    replace (Z.abs a) with (0 - a) in Hm by lia.
    destruct (canonical_unique (0 - a) m m' e e' He He' Hm Hm' D D') as [-> ->].
    reflexivity.
  - destruct (getTime_exact t Vt T0) as (mt & et & Et & Het & Hmt & Dt).
    destruct (getTime_exact a Va A0) as (ma & ea & Ea & Hea & Hma & Da).
    assert (R : SFsub prec emax (Prim2SF (getTime t)) (Prim2SF (getTime a))
                = binary_normalize prec emax ((t - a) * 2 ^ (- Z.min et ea)) (Z.min et ea) false).
    { rewrite Et, Ea. cbn [SFsub]. f_equal.
      rewrite !shl_align_val by lia. rewrite Hmt, Hma.
      rewrite <- !Z.mul_assoc, <- !Z.pow_add_r by lia.
      replace (- et + (et - Z.min et ea)) with (- Z.min et ea) by lia.
      replace (- ea + (ea - Z.min et ea)) with (- Z.min et ea) by lia.
      unfold cond_Zopp.
      destruct (t <? 0) eqn:St; destruct (a <? 0) eqn:Sa;
        try apply Z.ltb_lt in St; try apply Z.ltb_ge in St;
        try apply Z.ltb_lt in Sa; try apply Z.ltb_ge in Sa; nia. }
    rewrite R.
    set (ez := Z.min et ea) in *.
    assert (Pz : 0 < 2 ^ (- ez)) by (apply Z.pow_pos_nonneg; lia).
    split.
    + apply binary_normalize_signed. nia.
    + intros B. apply Prim2SF_inj. rewrite FloatAxioms.sub_spec. unfold SF64sub. rewrite R.
      fold ez.
      destruct ((t - a) * 2 ^ (- ez)) as [|mm|mm] eqn:Em; try nia.
      cbn [binary_normalize].
      destruct (binary_round_exact false mm (- ez) (t - a)) as (m1 & e1 & E1 & He1 & Hm1 & D1);
        [lia|lia|lia|].
      rewrite Z.opp_involutive in E1. rewrite E1.
      destruct (of_uint63_exact (t - a)) as (m2 & e2 & E2 & He2 & Hm2 & D2). { lia. }
      rewrite E2.
      destruct (canonical_unique (t - a) m1 m2 e1 e2 He1 He2 Hm1 Hm2 D1 D2) as [-> ->].
      reflexivity.
Qed.

(** The total of a session that ends after it began passes the
    validator [min: 0]. *)
Lemma total_nonnegative (a t : Z) :
  validDate a -> validDate t -> a < t ->
  (0 <=? round2 (hoursBetween a t))%float = true.
Proof.
  intros Va Vt Lt. apply signed_leb, round2_signed. unfold hoursBetween.
  eapply div_signed; [|vm_compute; reflexivity].
  apply (getTime_sub a t Va Vt Lt).
Qed.

Lemma hoursBetween_duration (a t : Z) :
  validDate a -> validDate t -> 0 < t - a < 2 ^ 53 ->
  hoursBetween a t = (of_uint63 (Uint63.of_Z (t - a)) / 3600000)%float.
Proof.
  intros Va Vt [L U]. unfold hoursBetween.
  rewrite (proj2 (getTime_sub a t Va Vt ltac:(lia)) U). reflexivity.
Qed.

(** The rounded hours of a session of a day at most, by enumeration
    of the durations. *)

Lemma eqb_signed (x y : float) :
  signed false (Prim2SF x) -> signed false (Prim2SF y) ->
  (x =? y)%float = true -> x = y.
Proof.
  intros Hx Hy E. rewrite FloatAxioms.eqb_spec in E. apply Prim2SF_inj.
  destruct Hx as [|m1 e1|]; destruct Hy as [|m2 e2|]; try reflexivity; try discriminate E.
  unfold SFeqb in E. cbn [SFcompare] in E.
  destruct (e1 ?= e2) eqn:Ce; try discriminate E.
  destruct (Pos.compare_cont Eq m1 m2) eqn:Cm; try discriminate E.
  apply Z.compare_eq in Ce. apply Pos.compare_eq in Cm. subst. reflexivity.
Qed.

Lemma checkFrom_sound (count : nat) :
  forall ms, Uint63.to_Z ms + Z.of_nat count < wB ->
    checkFrom count ms = true ->
    forall z, Uint63.to_Z ms <= z < Uint63.to_Z ms + Z.of_nat count ->
              roundsToHundredths (Uint63.of_Z z) = true.
Proof.
  induction count as [|count IH]; intros ms B H z Hz.
  - lia.
  - cbn [checkFrom] in H. apply andb_true_iff in H. destruct H as [H1 H2].
    pose proof (Uint63.to_Z_bounded ms) as Bm.
    assert (S1 : Uint63.to_Z (ms + 1)%uint63 = Uint63.to_Z ms + 1).
    { rewrite Uint63.add_spec. change (Uint63.to_Z 1) with 1.
      apply Z.mod_small. lia. }
    destruct (Z.eq_dec z (Uint63.to_Z ms)) as [->|N].
    + rewrite Uint63.of_to_Z. exact H1.
    + apply (IH (ms + 1)%uint63); [lia|exact H2|lia].
Qed.

Lemma checkBlocks_sound (blocks count : nat) :
  forall ms, Uint63.to_Z ms + Z.of_nat blocks * Z.of_nat count < wB ->
    checkBlocks blocks count ms = true ->
    forall z, Uint63.to_Z ms <= z < Uint63.to_Z ms + Z.of_nat blocks * Z.of_nat count ->
              roundsToHundredths (Uint63.of_Z z) = true.
Proof.
  induction blocks as [|blocks IH]; intros ms B H z Hz.
  - lia.
  - cbn [checkBlocks] in H. apply andb_true_iff in H. destruct H as [H1 H2].
    pose proof (Uint63.to_Z_bounded ms) as Bm.
    assert (S1 : Uint63.to_Z (ms + Uint63.of_Z (Z.of_nat count))%uint63
                 = Uint63.to_Z ms + Z.of_nat count).
    { rewrite Uint63.add_spec, Uint63.of_Z_spec.
      rewrite (Z.mod_small (Z.of_nat count)) by nia.
      apply Z.mod_small. nia. }
    destruct (Z_lt_le_dec z (Uint63.to_Z ms + Z.of_nat count)) as [Lt|Ge].
    + apply (checkFrom_sound count ms); [nia|exact H1|lia].
    + apply (IH (ms + Uint63.of_Z (Z.of_nat count))%uint63); [nia|exact H2|nia].
Qed.

Lemma day_checked : checkBlocks 2400 36000 1 = true.
Proof. vm_compute. reflexivity. Qed.

Lemma round2_of_duration (d : Z) :
  0 < d <= 86400000 ->
  exists n,
    round2 (of_uint63 (Uint63.of_Z d) / 3600000) = ofHundredths n /\
    Z.abs (36000 * n - d) <= 18000.
Proof.
  intros Hd.
  assert (C : roundsToHundredths (Uint63.of_Z d) = true).
  { apply (checkBlocks_sound 2400 36000 1%uint63).
    - replace (Z.of_nat 2400 * Z.of_nat 36000) with 86400000 by (vm_compute; reflexivity).
      reflexivity.
    - exact day_checked.
    - replace (Z.of_nat 2400 * Z.of_nat 36000) with 86400000 by (vm_compute; reflexivity).
      change (Uint63.to_Z 1) with 1. lia. }
  unfold roundsToHundredths in C.
  set (i := Uint63.of_Z d) in *.
  assert (Ti : Uint63.to_Z i = d).
  { unfold i. rewrite Uint63.of_Z_spec. apply Z.mod_small.
    change wB with 9223372036854775808. lia. }
  assert (Tn : Uint63.to_Z ((i + 18000) / 36000)%uint63 = (d + 18000) / 36000).
  { rewrite Uint63.div_spec, Uint63.add_spec, Ti.
    change (Uint63.to_Z 18000) with 18000. change (Uint63.to_Z 36000) with 36000.
    rewrite Z.mod_small by (change wB with 9223372036854775808; lia). reflexivity. }
  assert (S1 : signed false (Prim2SF (round2 (of_uint63 i / 3600000)))).
  { apply round2_signed. eapply div_signed; [apply of_uint63_signed|vm_compute; reflexivity]. }
  assert (S2 : forall k, signed false (Prim2SF (of_uint63 k / 100))).
  { intros k. eapply div_signed; [apply of_uint63_signed|vm_compute; reflexivity]. }
  pose proof (Z.div_mod (d + 18000) 36000 ltac:(lia)) as DM.
  pose proof (Z.mod_pos_bound (d + 18000) 36000 ltac:(lia)) as MB.
  apply orb_true_iff in C. destruct C as [C|C].
  - exists (Uint63.to_Z ((i + 18000) / 36000)%uint63). split.
    + unfold ofHundredths. rewrite Uint63.of_to_Z.
      apply eqb_signed; [exact S1|apply S2|exact C].
    + rewrite Tn. lia.
  - apply andb_true_iff in C. destruct C as [T C].
    apply Uint63.eqb_spec in T.
    assert (Tm : d mod 36000 = 18000).
    { apply (f_equal Uint63.to_Z) in T. rewrite Uint63.mod_spec, Ti in T. exact T. }
    pose proof (Z.div_mod d 36000 ltac:(lia)) as DM'.
    assert (N1 : 1 <= (d + 18000) / 36000).
    { apply Z.div_le_lower_bound; lia. }
    exists (Uint63.to_Z ((i + 18000) / 36000 - 1)%uint63). split.
    + unfold ofHundredths. rewrite Uint63.of_to_Z.
      apply eqb_signed; [exact S1|apply S2|exact C].
    + rewrite Uint63.sub_spec, Tn. change (Uint63.to_Z 1) with 1.
      assert (NB : (d + 18000) / 36000 <= d + 18000).
      { apply Z.div_le_upper_bound; lia. }
      rewrite Z.mod_small by (change wB with 9223372036854775808; lia).
      lia.
Qed.

End NumberFacts.

(** ** The organization-code middleware *)

Section OrganizationCodeFacts.

Import Js OrganizationCode.

Lemma extract_chosen (req : OrganizationRequest) :
  extractOrganizationCode req =
    match chosenCode req with
    | Str s =>
        if negb (truthy (Str s)) then SendError 400 msg_required
        else if negb (orgCodeRegex_test (toUpperCase (trim s)))
             then SendError 400 msg_format
             else Next (withCode req (toUpperCase (trim s)))
    | _ => SendError 400 msg_required
    end.
Proof.
  unfold extractOrganizationCode, chosenCode, withCode.
  destruct (if negb _ && truthy (query_organizationCode req) then _ else _);
    reflexivity.
Qed.

Lemma chosen_truthy (req : OrganizationRequest) :
  truthy (suppliedCode req) = true -> chosenCode req = suppliedCode req.
Proof.
  unfold chosenCode, suppliedCode.
  destruct (truthy (header_x_organization_code req)) eqn:Hh; cbn [negb andb].
  - rewrite Hh. reflexivity.
  - destruct (truthy (body_organizationCode req)) eqn:Hb; cbn [negb andb].
    + rewrite Hb. reflexivity.
    + rewrite Hh. cbn [negb andb]. intros Hq. rewrite Hq. reflexivity.
Qed.

Lemma chosen_falsy (req : OrganizationRequest) :
  truthy (suppliedCode req) = false -> truthy (chosenCode req) = false.
Proof.
  unfold chosenCode, suppliedCode.
  destruct (truthy (header_x_organization_code req)) eqn:Hh; cbn [negb andb].
  - congruence.
  - destruct (truthy (body_organizationCode req)) eqn:Hb; cbn [negb andb].
    + congruence.
    + rewrite Hh. cbn [negb andb]. intros Hq. rewrite Hq. exact Hh.
Qed.

Lemma extract_cases (req : OrganizationRequest) :
  (matchesAfterTrimAndUppercasing req = true /\
   extractOrganizationCode req = Next (withCode req (normalizedCode req)))
  \/
  (matchesAfterTrimAndUppercasing req = false /\
   (extractOrganizationCode req = SendError 400 msg_required \/
    extractOrganizationCode req = SendError 400 msg_format)).
Proof.
  rewrite extract_chosen.
  unfold matchesAfterTrimAndUppercasing, normalizedCode.
  destruct (truthy (suppliedCode req)) eqn:T.
  - rewrite (chosen_truthy req T).
    destruct (suppliedCode req) as [| | b | n | s |] eqn:E;
      try (right; split; [reflexivity | left; reflexivity]).
    rewrite T. cbn [negb].
    destruct (orgCodeRegex_test (toUpperCase (trim s))) eqn:R; cbn [negb].
    + left. split; reflexivity.
    + right. split; [reflexivity | right; reflexivity].
  - right. split.
    + destruct (suppliedCode req) as [| | b | n | s |] eqn:E; try reflexivity.
      cbn in T. destruct s; [reflexivity | discriminate T].
    + pose proof (chosen_falsy req T) as F.
      destruct (chosenCode req) as [| | b | n | s |];
        try (left; reflexivity).
      rewrite F. cbn [negb]. left; reflexivity.
Qed.

(** C5, as stated, fails: the body's code [" ac "] does not match
    [^[A-Z0-9]{2,10}$] after uppercasing, since the blanks remain, and
    yet the middleware accepts the request and stores ["AC"]. *)
Lemma extractOrganizationCode_accepts_padded_code :
  asciiRequest paddedRequest /\
  matchesAfterUppercasing paddedRequest = false /\
  extractOrganizationCode paddedRequest = Next (withCode paddedRequest "AC").
Proof.
  repeat split; reflexivity.
Qed.

(** C5, amended: [extractOrganizationCode] accepts exactly the requests
    whose organization code, taken from the header, else the body,
    else the query, is a string that matches [^[A-Z0-9]{2,10}$] after
    its surrounding white space is trimmed and it is uppercased; it
    then stores the trimmed, uppercased code on the request. Every
    other request is answered with status 400. *)
Theorem extractOrganizationCode_accepts_iff (req : OrganizationRequest) :
  asciiRequest req ->
  (forall req',
     extractOrganizationCode req = Next req' <->
     matchesAfterTrimAndUppercasing req = true /\
     req' = withCode req (normalizedCode req))
  /\
  (matchesAfterTrimAndUppercasing req = false ->
   extractOrganizationCode req = SendError 400 msg_required \/
   extractOrganizationCode req = SendError 400 msg_format).
Proof.
  intros _. split.
  - intros req'. destruct (extract_cases req) as [[M E] | [M [E | E]]];
      rewrite E; split.
    + intros H. injection H as <-. split; [exact M | reflexivity].
    + intros [_ ->]. reflexivity.
    + discriminate.
    + intros [M' _]. congruence.
    + discriminate.
    + intros [M' _]. congruence.
  - intros M. destruct (extract_cases req) as [[M' _] | [_ E]];
      [congruence | exact E].
Qed.

Lemma extractOrganizationCode_accepts_iff_witness :
  asciiRequest paddedRequest /\
  extractOrganizationCode paddedRequest = Next (withCode paddedRequest "AC").
Proof.
  assert (A : asciiRequest paddedRequest) by (repeat split; reflexivity).
  split; [exact A |].
  apply (proj1 (extractOrganizationCode_accepts_iff paddedRequest A)).
  split; reflexivity.
Defined.

(** Scenario C of the specification. *)
Example scenario_C_lowercase :
  extractOrganizationCode (mkRequest (Str "ac") Undefined Undefined None)
  = Next (mkRequest (Str "ac") Undefined Undefined (Some "AC")).
Proof. reflexivity. Qed.

Example scenario_C_one_character :
  extractOrganizationCode (mkRequest (Str "A") Undefined Undefined None)
  = SendError 400 msg_format.
Proof. reflexivity. Qed.

Example scenario_C_symbol :
  extractOrganizationCode (mkRequest (Str "ACME-1") Undefined Undefined None)
  = SendError 400 msg_format.
Proof. reflexivity. Qed.

Example eleven_characters_rejected :
  extractOrganizationCode (mkRequest Undefined Undefined (Str "ABCDEFGHIJK") None)
  = SendError 400 msg_format.
Proof. reflexivity. Qed.

Example missing_code_rejected :
  extractOrganizationCode (mkRequest Undefined Undefined Undefined None)
  = SendError 400 msg_required.
Proof. reflexivity. Qed.

Example body_before_query :
  extractOrganizationCode (mkRequest Undefined (Str "acme") (Str "widge") None)
  = Next (mkRequest Undefined (Str "acme") (Str "widge") (Some "ACME")).
Proof. reflexivity. Qed.

End OrganizationCodeFacts.

(** ** Collections *)

Section CollectionFacts.

Import Mongo.

Context {A : Type} (key : A -> ObjectId).

Lemma find_has_key (k : N) (l : list A) (a : A) :
  find (hasKey key k) l = Some a -> key a = k /\ In a l.
Proof.
  intros H. apply find_some in H. destruct H as [I E].
  split; [apply N.eqb_eq; exact E | exact I].
Qed.

Lemma find_has_in (l : list A) (a : A) :
  In a l -> exists b, find (hasKey key (key a)) l = Some b.
Proof.
  intros I. destruct (find (hasKey key (key a)) l) as [b |] eqn:F.
  - exists b. reflexivity.
  - exfalso. pose proof (find_none _ _ F a I) as E.
    unfold hasKey in E. rewrite N.eqb_refl in E. discriminate E.
Qed.

Lemma in_map_key (l : list A) (a : A) : In a l -> In (key a) (map key l).
Proof. intros I. apply in_map. exact I. Qed.

(** Under the index, the first document with the key of [a] is [a]. *)
Lemma find_has_unique (l : list A) (a : A) :
  NoDup (map key l) -> In a l -> find (hasKey key (key a)) l = Some a.
Proof.
  induction l as [| x l IH]; intros ND I; [contradiction |].
  cbn [map] in ND. inversion ND as [| k ks NI ND']; subst.
  cbn [find]. unfold hasKey at 1. destruct (N.eqb (key x) (key a)) eqn:E.
  - destruct I as [-> | I]; [reflexivity |].
    exfalso. apply NI. apply N.eqb_eq in E. rewrite E. apply in_map_key, I.
  - destruct I as [-> | I].
    + rewrite N.eqb_refl in E. discriminate E.
    + apply IH; assumption.
Qed.

Lemma replaceFirst_keys (p : A -> bool) (g : A -> A) (l : list A) :
  (forall x, In x l -> p x = true -> key (g x) = key x) ->
  map key (replaceFirst p g l) = map key l.
Proof.
  induction l as [| x l IH]; intros K; [reflexivity |].
  cbn [replaceFirst]. destruct (p x) eqn:P; cbn [map].
  - rewrite K; [reflexivity | left; reflexivity | exact P].
  - rewrite IH; [reflexivity |]. intros y I. apply K. right. exact I.
Qed.

Lemma NoDup_snoc (l : list ObjectId) (k : ObjectId) :
  NoDup l -> ~ In k l -> NoDup (l ++ [k]).
Proof.
  intros ND NI. apply NoDup_rev in ND. rewrite <- (rev_involutive (l ++ [k])).
  apply NoDup_rev. rewrite rev_app_distr. cbn [rev app].
  constructor; [| exact ND]. rewrite <- in_rev. exact NI.
Qed.

Lemma find_replaceFirst_self (p : A -> bool) (g : A -> A) (l : list A) (a : A) :
  find p l = Some a -> p (g a) = true ->
  find p (replaceFirst p g l) = Some (g a).
Proof.
  induction l as [| x l IH]; [discriminate |].
  cbn [find replaceFirst]. destruct (p x) eqn:P.
  - intros [= ->] Pg. cbn [find]. rewrite Pg. reflexivity.
  - intros F Pg. cbn [find]. rewrite P. apply IH; assumption.
Qed.

(** Replacing a document by one that still passes a filter leaves it
    the first match of that filter. *)
Lemma find_replaceFirst_filter (q : A -> bool) (g : A -> A) (l : list A) (a : A) :
  NoDup (map key l) -> find q l = Some a -> q (g a) = true ->
  find q (replaceFirst (hasKey key (key a)) g l) = Some (g a).
Proof.
  induction l as [| x l IH]; intros ND F Q; [discriminate |].
  cbn [map] in ND. inversion ND as [| k ks NI ND']; subst.
  cbn [find] in F. cbn [replaceFirst]. destruct (q x) eqn:Qx.
  - injection F as ->. unfold hasKey. rewrite N.eqb_refl.
    cbn [find]. rewrite Q. reflexivity.
  - assert (I : In a l) by (apply find_some in F; tauto).
    unfold hasKey at 1. destruct (N.eqb (key x) (key a)) eqn:E.
    + exfalso. apply NI. apply N.eqb_eq in E. rewrite E. apply in_map_key, I.
    + cbn [find]. rewrite Qx. apply IH; assumption.
Qed.

Lemma find_app_new (q : A -> bool) (l : list A) (a : A) :
  find q l = None -> q a = true -> find q (l ++ [a]) = Some a.
Proof.
  induction l as [| x l IH]; cbn [find app].
  - intros _ ->. reflexivity.
  - destruct (q x); [discriminate |]. exact IH.
Qed.

Lemma find_removeFirst_none (l : list A) (k : N) :
  NoDup (map key l) -> find (hasKey key k) (removeFirst (hasKey key k) l) = None.
Proof.
  induction l as [| x l IH]; intros ND; [reflexivity |].
  cbn [map] in ND. inversion ND as [| k' ks NI ND']; subst.
  cbn [removeFirst]. destruct (hasKey key k x) eqn:E.
  - destruct (find (hasKey key k) l) as [b |] eqn:F; [| reflexivity].
    exfalso. apply find_has_key in F. destruct F as [Kb Ib].
    apply NI. unfold hasKey in E. apply N.eqb_eq in E. rewrite E, <- Kb.
    apply in_map_key, Ib.
  - cbn [find]. rewrite E. apply IH, ND'.
Qed.

End CollectionFacts.

(** ** The attendance session engine *)

Section StringFacts.

Import Js.

Lemma trimStart_length (s : string) : (String.length (trimStart s) <= String.length s)%nat.
Proof.
  induction s as [| c s IH]; cbn [trimStart String.length]; [lia |].
  destruct (isWhiteSpace c); cbn [String.length]; lia.
Qed.

Lemma trimEnd_length (s : string) : (String.length (trimEnd s) <= String.length s)%nat.
Proof.
  induction s as [| c s IH]; cbn [trimEnd String.length]; [lia |].
  destruct (trimEnd s) as [| c' t].
  - destruct (isWhiteSpace c); cbn [String.length]; lia.
  - cbn [String.length] in *. lia.
Qed.

Lemma trim_length (s : string) : (String.length (trim s) <= String.length s)%nat.
Proof.
  unfold trim. pose proof (trimEnd_length (trimStart s)). pose proof (trimStart_length s). lia.
Qed.

Lemma upperChar_idempotent (c : ascii) : upperChar (upperChar c) = upperChar c.
Proof. destruct c as [[] [] [] [] [] [] [] []]; reflexivity. Qed.

Lemma toUpperCase_idempotent (s : string) : toUpperCase (toUpperCase s) = toUpperCase s.
Proof.
  induction s as [| c s IH]; [reflexivity |].
  cbn [toUpperCase]. rewrite upperChar_idempotent, IH. reflexivity.
Qed.

(** The setters of an organization code on a code in upper case. *)
Lemma setOrganizationCode_upper (code : string) :
  Model.setOrganizationCode (toUpperCase code) = trim (toUpperCase code).
Proof. unfold Model.setOrganizationCode. rewrite toUpperCase_idempotent. reflexivity. Qed.

End StringFacts.

Section AttendanceFacts.

Import Mongo Model JsNumber Attendance.

Variable tz : Z.

Ltac run := unfold bind, ret, gets, modify, throw; cbn beta iota.

Lemma startOfDay_idempotent (t : Z) :
  startOfDay tz (startOfDay tz t) = startOfDay tz t.
Proof.
  unfold startOfDay, msPerDay.
  replace (t - (t + tz) mod 86400000 + tz)
    with (t + tz - (t + tz) mod 86400000) by lia.
  rewrite Zminus_mod_idemp_r, Z.sub_diag, Z.mod_0_l by lia. lia.
Qed.

Lemma preSave_fields (a : IAttendance) :
  _id (preSave a) = _id a /\ employeeId (preSave a) = employeeId a /\
  date (preSave a) = date a /\ checkIn (preSave a) = checkIn a /\
  checkOut (preSave a) = checkOut a /\ isLoggedIn (preSave a) = isLoggedIn a /\
  status (preSave a) = status a.
Proof.
  unfold preSave. destruct (checkOut a) eqn:E; cbn; rewrite ?E; repeat split.
Qed.

Lemma preSave_notes (a : IAttendance) : notes (preSave a) = notes a.
Proof. unfold preSave. destruct (checkOut a); reflexivity. Qed.

(** The validator of [notes], by whether the note fits. *)
Lemma notesErrors_cases (n : option string) :
  (fits n = true /\ notesErrors n = []) \/ (fits n = false /\ notesErrors n = notesRefused).
Proof.
  destruct n as [s |]; [| left; split; reflexivity].
  unfold fits, notesErrors, maxlength, notesRefused. rewrite Nat.ltb_antisym.
  destruct (String.length s <=? 500)%nat; [left | right]; split; reflexivity.
Qed.



Lemma fits_of_no_errors (n : option string) : notesErrors n = [] -> fits n = true.
Proof.
  intros H. destruct (notesErrors_cases n) as [[F _] | [_ E]]; [exact F |].
  rewrite E in H. discriminate H.
Qed.

(** A note that fits still fits once it is trimmed. *)
Lemma fits_trim (n : option string) : fits n = true -> fits (option_map Js.trim n) = true.
Proof.
  destruct n as [s |]; [| reflexivity]. cbn [fits option_map]. intros H.
  apply Nat.leb_le in H. apply Nat.leb_le. pose proof (trim_length s). lia.
Qed.

(** The filter of the day reads the employee, the date and the
    check-in of a record, and nothing else. *)
Lemma todayFilter_ext (e : ObjectId) (day : Z) (a b : IAttendance) :
  employeeId a = employeeId b -> date a = date b -> checkIn a = checkIn b ->
  todayFilter tz e day a = todayFilter tz e day b.
Proof.
  intros E D C. unfold todayFilter. rewrite E, D, C. reflexivity.
Qed.

Lemma firstRecord_fields (d : MarkAttendanceData) (by_ newId : ObjectId) :
  _id (firstRecord tz d by_ newId) = newId /\
  employeeId (firstRecord tz d by_ newId) = data_employeeId d /\
  date (firstRecord tz d by_ newId) = startOfDay tz (data_checkIn d) /\
  checkIn (firstRecord tz d by_ newId) = data_checkIn d /\
  isLoggedIn (firstRecord tz d by_ newId) = true.
Proof.
  unfold firstRecord.
  destruct (preSave_fields (withNotes (newAttendance tz d by_ newId) (setNotes (data_notes d))))
    as (I & E & D & C & _ & L & _).
  rewrite I, E, D, C, L. repeat split.
Qed.

Lemma todayFilter_new (d : MarkAttendanceData) (by_ newId : ObjectId) :
  todayFilter tz (data_employeeId d) (startOfDay tz (data_checkIn d))
    (firstRecord tz d by_ newId) = true.
Proof.
  destruct (firstRecord_fields d by_ newId) as (_ & E & D & _).
  unfold todayFilter. rewrite E, D.
  rewrite N.eqb_refl, startOfDay_idempotent. unfold endOfDay.
  rewrite startOfDay_idempotent.
  replace (startOfDay tz (data_checkIn d) <=? startOfDay tz (data_checkIn d))
    with true by (symmetry; apply Z.leb_le; lia).
  replace (startOfDay tz (data_checkIn d)
           <=? startOfDay tz (data_checkIn d) + 86399999)
    with true by (symmetry; apply Z.leb_le; lia).
  reflexivity.
Qed.

(** A clock-in for an unknown employee. *)
Lemma markAttendance_unknown (db : Db) (d : MarkAttendanceData) (by_ newId : ObjectId) :
  find (fun u => N.eqb (user_id u) (data_employeeId d)) (users db) = None ->
  markAttendance tz d by_ newId db = (Throw (AppError "Employee not found" 404), db).
Proof.
  intros U. unfold markAttendance, User_findById. run. rewrite U. reflexivity.
Qed.

(** A clock-in on a day that has no record yet. *)
Lemma markAttendance_first (db : Db) (d : MarkAttendanceData) (by_ newId : ObjectId)
  (u : IUser) :
  find (fun u => N.eqb (user_id u) (data_employeeId d)) (users db) = Some u ->
  find (todayFilter tz (data_employeeId d) (startOfDay tz (data_checkIn d)))
       (attendances db) = None ->
  markAttendance tz d by_ newId db =
    if fits (option_map Js.trim (data_notes d))
    then (Ok (firstRecord tz d by_ newId),
          setAttendances (fun l => l ++ [firstRecord tz d by_ newId])%list db)
    else (Throw (ValidationError (Some "Attendance") notesRefused), db).
Proof.
  intros U F. unfold markAttendance, User_findById, getTodayAttendance. run.
  rewrite U. cbn beta iota. rewrite F. cbn beta iota.
  unfold Attendance_create, validate, validation. run.
  cbn [totalHours notes withNotes newAttendance app]. unfold setNotes.
  destruct (notesErrors_cases (option_map Js.trim (data_notes d))) as [[Fi E] | [Fi E]];
    rewrite Fi, E; reflexivity.
Qed.

(** A clock-in on a day that has a record. *)
Lemma markAttendance_again (db : Db) (d : MarkAttendanceData) (by_ newId : ObjectId)
  (u : IUser) (existing : IAttendance) :
  uniqueIds db ->
  find (fun u => N.eqb (user_id u) (data_employeeId d)) (users db) = Some u ->
  find (todayFilter tz (data_employeeId d) (startOfDay tz (data_checkIn d)))
       (attendances db) = Some existing ->
  markAttendance tz d by_ newId db =
    if fits (option_map Js.trim (orElse (data_notes d) (notes existing)))
    then (Ok (reopened d by_ existing),
          setAttendances
            (replaceFirst (hasId (_id existing))
                          (applyUpdate (castUpdate (reopenUpdate d by_ existing))))
            db)
    else (Throw (ValidationError None notesRefused), db).
Proof.
  intros ND U F.
  assert (I : In existing (attendances db)) by (apply find_some in F; tauto).
  pose proof (find_has_unique _id _ _ ND I) as FI.
  unfold markAttendance, User_findById, getTodayAttendance,
    Attendance_findByIdAndUpdate, Attendance_findById, hasId, validation. run.
  rewrite U. cbn beta iota. rewrite F. cbn beta iota.
  cbn [set_notes castUpdate reopenUpdate]. unfold setNotes.
  destruct (notesErrors_cases (option_map Js.trim (orElse (data_notes d) (notes existing))))
    as [[Fi E] | [Fi E]]; rewrite Fi, E; [| reflexivity].
  cbn beta iota. rewrite FI. reflexivity.
Qed.

Lemma reopened_fields (d : MarkAttendanceData) (by_ : ObjectId) (existing : IAttendance) :
  _id (reopened d by_ existing) = _id existing /\
  employeeId (reopened d by_ existing) = employeeId existing /\
  date (reopened d by_ existing) = date existing /\
  checkIn (reopened d by_ existing) = checkIn existing /\
  totalHours (reopened d by_ existing) = totalHours existing /\
  checkOut (reopened d by_ existing) = None /\
  status (reopened d by_ existing) = PRESENT /\
  isLoggedIn (reopened d by_ existing) = true.
Proof.
  unfold reopened. cbn. repeat split. destruct (checkOut existing); reflexivity.
Qed.

Lemma markAttendance_post (db db1 : Db) (d : MarkAttendanceData)
  (by_ newId : ObjectId) (r : IAttendance) :
  uniqueIds db -> freshId newId db ->
  markAttendance tz d by_ newId db = (Ok r, db1) ->
  uniqueIds db1 /\ users db1 = users db /\
  find (todayFilter tz (data_employeeId d) (startOfDay tz (data_checkIn d)))
       (attendances db1) = Some r.
Proof.
  intros ND FR H.
  destruct (find (fun u => N.eqb (user_id u) (data_employeeId d)) (users db))
    as [u |] eqn:U.
  2: { rewrite (markAttendance_unknown db d by_ newId U) in H. discriminate H. }
  destruct (find (todayFilter tz (data_employeeId d) (startOfDay tz (data_checkIn d)))
                 (attendances db)) as [existing |] eqn:F.
  - rewrite (markAttendance_again db d by_ newId u existing ND U F) in H.
    destruct (fits _); [| discriminate H].
    injection H as <- <-. unfold uniqueIds, setAttendances, reopened.
    cbn [attendances users].
    repeat split.
    + rewrite (replaceFirst_keys _id); [exact ND | reflexivity].
    + apply (find_replaceFirst_filter _id); [exact ND | exact F |].
      rewrite (todayFilter_ext _ _ _ existing) by reflexivity.
      apply find_some in F. tauto.
  - rewrite (markAttendance_first db d by_ newId u U F) in H.
    destruct (fits _); [| discriminate H].
    injection H as <- <-. unfold uniqueIds, setAttendances. cbn [attendances users].
    destruct (firstRecord_fields d by_ newId) as (I & _).
    repeat split.
    + rewrite map_app. cbn [map]. rewrite I. apply NoDup_snoc; assumption.
    + apply find_app_new; [exact F | apply todayFilter_new].
Qed.

(** The note of the record that [markCheckOut] saves. *)
Lemma checkedOut_notes (a : IAttendance) (t : Z) (by_ : ObjectId) (n : option string) :
  notes (checkedOut a t by_ n) = closingNote (notes a) n.
Proof.
  unfold checkedOut, closingNote, checkoutNotes, setNotes. cbn [notes].
  destruct n as [s |]; [| reflexivity]. cbn [truthyString option_map].
  destruct (String.eqb s ""); cbn [negb]; [reflexivity |].
  destruct (notes a) as [o |]; cbn [truthyString]; [| reflexivity].
  destruct (String.eqb o ""); reflexivity.
Qed.

Lemma markCheckOut_inv (db db2 : Db) (id : ObjectId) (t : Z) (by_ : ObjectId)
  (n : option string) (r2 : IAttendance) :
  markCheckOut id t by_ n db = (Ok r2, db2) ->
  exists a,
    find (hasId id) (attendances db) = Some a /\
    checkOut a = None /\ checkIn a < t /\
    r2 = preSave (checkedOut a t by_ n) /\
    db2 = setAttendances (replaceFirst (hasId id) (fun _ => r2)) db /\
    fits (closingNote (notes a) n) = true.
Proof.
  unfold markCheckOut, Attendance_findById. run.
  destruct (find (hasId id) (attendances db)) as [a |] eqn:F; [| discriminate].
  destruct (checkOut a) eqn:C; [discriminate |].
  destruct (t <=? checkIn a) eqn:L; [discriminate |].
  unfold Attendance_save, Attendance_findById, validate, validation. run.
  destruct (totalHoursErrors (totalHours (checkedOut a t by_ n))
            ++ notesErrors (notes (checkedOut a t by_ n)))%list eqn:V; [| discriminate].
  cbn beta iota. cbn [_id checkedOut].
  destruct (find_has_key _id _ _ _ F) as [K _].
  change (hasKey _id) with hasId in *. rewrite K, F.
  intros [= <- <-]. exists a. apply Z.leb_gt in L.
  apply app_eq_nil in V. destruct V as [_ V]. rewrite checkedOut_notes in V.
  repeat split; try assumption. apply fits_of_no_errors, V.
Qed.

Lemma checkedOut_fields (a : IAttendance) (t : Z) (by_ : ObjectId) (n : option string) :
  let a' := preSave (checkedOut a t by_ n) in
  _id a' = _id a /\ employeeId a' = employeeId a /\ date a' = date a /\
  checkIn a' = checkIn a /\ checkOut a' = Some t /\
  totalHours a' = Some (round2 (hoursBetween (checkIn a) t)) /\
  isLoggedIn a' = false.
Proof.
  cbn. repeat split.
Qed.

(** What [markCheckOut] does to an open record when the time is after
    the check-in, for times that a [Date] can hold. *)
Lemma markCheckOut_open (db : Db) (id : ObjectId) (a : IAttendance) (t : Z)
  (by_ : ObjectId) (n : option string) :
  find (hasId id) (attendances db) = Some a ->
  validDate (checkIn a) -> validDate t ->
  checkOut a = None -> checkIn a < t ->
  markCheckOut id t by_ n db =
    if fits (closingNote (notes a) n)
    then (Ok (preSave (checkedOut a t by_ n)),
          setAttendances
            (replaceFirst (hasId id) (fun _ => preSave (checkedOut a t by_ n))) db)
    else (Throw (ValidationError (Some "Attendance") notesRefused), db).
Proof.
  intros F Va Vt C L. destruct (find_has_key _id _ _ _ F) as [K _].
  unfold markCheckOut, Attendance_findById. run. rewrite F, C.
  replace (t <=? checkIn a) with false by (symmetry; apply Z.leb_gt; exact L).
  unfold Attendance_save, Attendance_findById, validate, validation. run.
  rewrite checkedOut_notes.
  cbn [totalHours checkedOut totalHoursErrors].
  rewrite (total_nonnegative (checkIn a) t Va Vt L). cbn [app].
  destruct (notesErrors_cases (closingNote (notes a) n)) as [[Fi E] | [Fi E]];
    rewrite Fi, E; [| reflexivity].
  cbn beta iota. cbn [_id checkedOut]. rewrite K, F. reflexivity.
Qed.

(** C2, as stated, fails: Ann's record is open and the time is after
    her check-in, and yet a check-out with a note of 501 characters
    does not succeed. *)
Lemma markCheckOut_refuses_long_note :
  find (hasId 100%N) (attendances Samples.db1) = Some Samples.openRecord /\
  checkOut Samples.openRecord = None /\
  checkIn Samples.openRecord < Samples.thirteen /\
  String.length Samples.longNote = 501%nat /\
  markCheckOut 100%N Samples.thirteen 1%N (Some Samples.longNote) Samples.db1
  = (Throw (ValidationError (Some "Attendance")
                            [("notes", "Notes cannot exceed 500 characters")]),
     Samples.db1).
Proof.
  repeat split; vm_compute; reflexivity.
Qed.

(** C2, amended: on a record of the collection, [markCheckOut] throws a
    400 error, and writes nothing, if the record has a check-out
    already or if the check-out time is not after the check-in.
    Otherwise, when the note that the check-out leaves on the record
    has 500 characters at most, it succeeds: the record it returns and
    stores has the check-out time, a total that is the difference of
    the two times in milliseconds divided by 3600000 and rounded to
    two decimals, and [isLoggedIn = false]; for a session of a day at
    most, the total is the number of the hundredths of an hour
    nearest to its length. When the note is longer, the validation of
    the schema refuses the record and nothing is written. *)
Theorem markCheckOut_spec (db : Db) (id : ObjectId) (a : IAttendance) (t : Z)
  (by_ : ObjectId) (n : option string) :
  find (hasId id) (attendances db) = Some a ->
  validDate (checkIn a) -> validDate t ->
  (checkOut a <> None \/ t <= checkIn a ->
   exists msg, markCheckOut id t by_ n db = (Throw (AppError msg 400), db))
  /\
  (checkOut a = None -> checkIn a < t -> fits (closingNote (notes a) n) = true ->
   exists a' db',
     markCheckOut id t by_ n db = (Ok a', db') /\
     find (hasId id) (attendances db') = Some a' /\
     checkIn a' = checkIn a /\
     checkOut a' = Some t /\
     totalHours a' = Some (round2 (hoursBetween (checkIn a) t)) /\
     isLoggedIn a' = false /\
     notes a' = closingNote (notes a) n /\
     (t - checkIn a <= 86400000 ->
      exists k, totalHours a' = Some (ofHundredths k) /\
                Z.abs (36000 * k - (t - checkIn a)) <= 18000))
  /\
  (checkOut a = None -> checkIn a < t -> fits (closingNote (notes a) n) = false ->
   markCheckOut id t by_ n db
   = (Throw (ValidationError (Some "Attendance")
                             [("notes", "Notes cannot exceed 500 characters")]), db)).
Proof.
  intros F Va Vt. destruct (find_has_key _id _ _ _ F) as [K _]. split; [| split].
  - intros H. unfold markCheckOut, Attendance_findById. run. rewrite F.
    destruct (checkOut a) eqn:C.
    + eexists. reflexivity.
    + destruct H as [H | H]; [congruence |].
      apply Z.leb_le in H. rewrite H. eexists. reflexivity.
  - intros C L Fi.
    exists (preSave (checkedOut a t by_ n)).
    exists (setAttendances
              (replaceFirst (hasId id) (fun _ => preSave (checkedOut a t by_ n))) db).
    destruct (checkedOut_fields a t by_ n) as (I & _ & _ & CI & CO & TH & LI).
    split; [rewrite (markCheckOut_open db id a t by_ n F Va Vt C L), Fi; reflexivity |].
    split.
    { cbn [attendances setAttendances].
      apply (find_replaceFirst_self (hasId id) (fun _ => preSave (checkedOut a t by_ n)) _ a F).
      unfold hasId, hasKey. rewrite I, K. apply N.eqb_refl. }
    split; [exact CI |]. split; [exact CO |]. split; [exact TH |]. split; [exact LI |].
    split; [rewrite preSave_notes; apply checkedOut_notes |].
    intros B. rewrite TH.
    rewrite (hoursBetween_duration (checkIn a) t Va Vt)
      by (change (2 ^ 53) with 9007199254740992; lia).
    destruct (round2_of_duration (t - checkIn a)) as (k & E & Hk); [lia |].
    exists k. rewrite E. split; [reflexivity | exact Hk].
  - intros C L Fi.
    rewrite (markCheckOut_open db id a t by_ n F Va Vt C L), Fi. reflexivity.
Qed.

(** C9, as stated, fails: Ann's record of the day is closed and marked
    late; her clock-in of 14:00 with a note of 501 characters is
    refused, and the record keeps its status and its check-out. *)
Lemma markAttendance_refused_keeps_status :
  find (fun u => N.eqb (user_id u) 1%N) (users Samples.dbLate) = Some Samples.ann /\
  find (todayFilter 0 1%N (startOfDay 0 Samples.fourteen)) (attendances Samples.dbLate)
  = Some Samples.lateRecord /\
  status Samples.lateRecord = LATE /\
  checkOut Samples.lateRecord = Some Samples.thirteen /\
  isLoggedIn Samples.lateRecord = false /\
  markAttendance 0 (mkData 1%N Samples.fourteen None None (Some Samples.longNote))
                 1%N 101%N Samples.dbLate
  = (Throw (ValidationError None [("notes", "Notes cannot exceed 500 characters")]),
     Samples.dbLate).
Proof.
  repeat split; vm_compute; reflexivity.
Qed.

(** C9, amended: a clock-in on a day that has a record, when the note
    that the record is to carry, trimmed, has 500 characters at most,
    leaves the check-in and the total of that record as they were,
    leaves it without a check-out, and sets its status to PRESENT and
    [isLoggedIn] to true, whatever the status was. When the note is
    longer, the update is refused and the record stays as it was. *)
Theorem markAttendance_reopen_effect (db : Db) (d : MarkAttendanceData)
  (by_ newId : ObjectId) (u : IUser) (existing : IAttendance) :
  uniqueIds db ->
  find (fun u => N.eqb (user_id u) (data_employeeId d)) (users db) = Some u ->
  find (todayFilter tz (data_employeeId d) (startOfDay tz (data_checkIn d)))
       (attendances db) = Some existing ->
  (fits (option_map Js.trim (orElse (data_notes d) (notes existing))) = true ->
   exists r db',
     markAttendance tz d by_ newId db = (Ok r, db') /\
     find (hasId (_id existing)) (attendances db') = Some r /\
     _id r = _id existing /\
     checkIn r = checkIn existing /\
     totalHours r = totalHours existing /\
     checkOut r = None /\
     status r = PRESENT /\
     isLoggedIn r = true)
  /\
  (fits (option_map Js.trim (orElse (data_notes d) (notes existing))) = false ->
   markAttendance tz d by_ newId db
   = (Throw (ValidationError None [("notes", "Notes cannot exceed 500 characters")]), db)).
Proof.
  intros ND U F.
  assert (I : In existing (attendances db)) by (apply find_some in F; tauto).
  pose proof (find_has_unique _id _ _ ND I) as FI.
  rewrite (markAttendance_again db d by_ newId u existing ND U F).
  split; intros Fi; rewrite Fi; [| reflexivity].
  destruct (reopened_fields d by_ existing) as (Hi & _ & _ & Hc & Ht & Ho & Hs & Hl).
  eexists. eexists. split; [reflexivity |].
  cbn [attendances setAttendances]. split; [| tauto].
  unfold reopened.
  apply (find_replaceFirst_self (hasId (_id existing))); [exact FI |].
  unfold hasId, hasKey. cbn [_id applyUpdate]. apply N.eqb_refl.
Qed.

(** C1: after a clock-in, a clock-out and a second clock-in of the
    same employee on the same calendar day, the record of the day has
    the check-in time it had after the first clock-in, which is the
    time of that clock-in when it was the first of the day. The second
    clock-in returns that record when its note, trimmed, has 500
    characters at most; it is refused by the validation of the update
    otherwise, and leaves the record as the clock-out stored it. *)
Theorem reopen_preserves_first_checkIn (db db1 db2 : Db) (d1 d3 : MarkAttendanceData)
  (by1 by2 by3 new1 new3 : ObjectId) (t2 : Z) (n2 : option string)
  (r1 r2 : IAttendance) :
  uniqueIds db -> freshId new1 db ->
  markAttendance tz d1 by1 new1 db = (Ok r1, db1) ->
  markCheckOut (_id r1) t2 by2 n2 db1 = (Ok r2, db2) ->
  data_employeeId d3 = data_employeeId d1 ->
  startOfDay tz (data_checkIn d3) = startOfDay tz (data_checkIn d1) ->
  (find (todayFilter tz (data_employeeId d1) (startOfDay tz (data_checkIn d1)))
        (attendances db) = None ->
   checkIn r1 = data_checkIn d1)
  /\
  (fits (option_map Js.trim (data_notes d3)) = true ->
   exists r3 db3,
     markAttendance tz d3 by3 new3 db2 = (Ok r3, db3) /\
     find (hasId (_id r1)) (attendances db3) = Some r3 /\
     _id r3 = _id r1 /\
     checkIn r3 = checkIn r1 /\
     checkOut r3 = None)
  /\
  (fits (option_map Js.trim (data_notes d3)) = false ->
   markAttendance tz d3 by3 new3 db2
   = (Throw (ValidationError None [("notes", "Notes cannot exceed 500 characters")]), db2)
   /\ find (hasId (_id r1)) (attendances db2) = Some r2
   /\ checkIn r2 = checkIn r1).
Proof.
  intros ND FR H1 H2 E D.
  assert (U : exists u, find (fun u => N.eqb (user_id u) (data_employeeId d1)) (users db)
                        = Some u).
  { destruct (find _ (users db)) as [u |] eqn:U; [exists u; reflexivity |].
    rewrite (markAttendance_unknown db d1 by1 new1 U) in H1. discriminate H1. }
  destruct U as [u U].
  destruct (markAttendance_post db db1 d1 by1 new1 r1 ND FR H1) as (ND1 & US1 & F1).
  destruct (markCheckOut_inv db1 db2 _ t2 by2 n2 r2 H2)
    as (a & Fa & _ & _ & R2 & DB2 & Fi2).
  assert (I1 : In r1 (attendances db1)) by (apply find_some in F1; tauto).
  assert (A : a = r1).
  { pose proof (find_has_unique _id _ _ ND1 I1) as Fr. unfold hasId in Fa. congruence. }
  subst a.
  destruct (checkedOut_fields r1 t2 by2 n2) as (I2 & E2 & D2 & C2 & _).
  rewrite <- R2 in I2, E2, D2, C2.
  assert (N2 : fits (notes r2) = true).
  { rewrite R2, preSave_notes, checkedOut_notes. exact Fi2. }
  assert (ND2 : uniqueIds db2).
  { subst db2. unfold uniqueIds, setAttendances. cbn [attendances].
    rewrite (replaceFirst_keys _id); [exact ND1 |].
    intros x _ P. unfold hasId, hasKey in P. apply N.eqb_eq in P. congruence. }
  assert (F2 : find (todayFilter tz (data_employeeId d3) (startOfDay tz (data_checkIn d3)))
                    (attendances db2) = Some r2).
  { rewrite E, D. subst db2. cbn [attendances setAttendances].
    apply (find_replaceFirst_filter _id _ (fun _ => r2) _ r1 ND1 F1).
    rewrite (todayFilter_ext _ _ r2 r1) by assumption.
    apply find_some in F1. tauto. }
  assert (U2 : find (fun u => N.eqb (user_id u) (data_employeeId d3)) (users db2)
               = Some u).
  { rewrite E. subst db2. cbn [users setAttendances]. rewrite US1. exact U. }
  assert (I2' : In r2 (attendances db2)) by (apply find_some in F2; tauto).
  pose proof (find_has_unique _id _ _ ND2 I2') as FI2.
  (* the note of the update fits exactly when the note of the clock-in does *)
  assert (W : fits (option_map Js.trim (orElse (data_notes d3) (notes r2)))
              = fits (option_map Js.trim (data_notes d3))).
  { unfold orElse. destruct (truthyString (data_notes d3)) eqn:T; [reflexivity |].
    rewrite (fits_trim _ N2). destruct (data_notes d3) as [s |]; [| reflexivity].
    cbn [truthyString] in T. apply negb_false_iff, String.eqb_eq in T. subst s.
    reflexivity. }
  rewrite (markAttendance_again db2 d3 by3 new3 u r2 ND2 U2 F2), W.
  split; [| split].
  - intros F0. rewrite (markAttendance_first db d1 by1 new1 u U F0) in H1.
    destruct (fits _); [| discriminate H1].
    injection H1 as E1 _.
    destruct (firstRecord_fields d1 by1 new1) as (_ & _ & _ & C & _).
    rewrite <- E1. exact C.
  - intros Fi. rewrite Fi.
    destruct (reopened_fields d3 by3 r2) as (Hi & _ & _ & Hc & _ & Ho & _).
    eexists. eexists. split; [reflexivity |].
    split.
    { cbn [attendances setAttendances]. rewrite <- I2. unfold reopened.
      apply (find_replaceFirst_self (hasId (_id r2))); [exact FI2 |].
      unfold hasId, hasKey. cbn [_id applyUpdate]. apply N.eqb_refl. }
    split; [congruence |]. split; [congruence | exact Ho].
  - intros Fi. rewrite Fi. split; [reflexivity |].
    split; [rewrite <- I2; exact FI2 | exact C2].
Qed.

(** C6, as stated, fails twice. Bob is inactive, and his clock-in is
    not refused with a 404 error: it creates his record of the day.
    Ann is active, and her second clock-in of the day, with a note of
    501 characters, is refused. *)
Lemma markAttendance_accepts_inactive_employee :
  (find (fun u => N.eqb (user_id u) 2%N) (users Samples.db0) = Some Samples.bob /\
   userStatus Samples.bob = INACTIVE /\
   markAttendance 0 (Samples.clockIn 2%N Samples.nine) 2%N 100%N Samples.db0
   = (Ok Samples.bobRecord,
      mkDb [Samples.ann; Samples.bob] [Samples.bobRecord] [] []))
  /\
  (find (fun u => N.eqb (user_id u) 1%N) (users Samples.db2) = Some Samples.ann /\
   userStatus Samples.ann = ACTIVE /\
   find (todayFilter 0 1%N (startOfDay 0 Samples.fourteen)) (attendances Samples.db2)
   = Some Samples.closedRecord /\
   markAttendance 0 (mkData 1%N Samples.fourteen None None (Some Samples.longNote))
                  1%N 101%N Samples.db2
   = (Throw (ValidationError None [("notes", "Notes cannot exceed 500 characters")]),
      Samples.db2)).
Proof.
  repeat split; vm_compute; reflexivity.
Qed.

(** C6, amended: [markAttendance] verifies that the employee exists
    before it creates or updates a record: a clock-in for an
    identifier that names no user fails with the 404 error "Employee
    not found" and leaves the database as it was. The status of the
    user is not looked at. For an employee that exists, a same-day
    re-clock-in is refused only when the note that the record is to
    carry, trimmed, has more than 500 characters: the validation of
    the update then fails and the database is left as it was. *)
Theorem markAttendance_verifies_existence (db : Db) (d : MarkAttendanceData)
  (by_ newId : ObjectId) :
  (find (fun u => N.eqb (user_id u) (data_employeeId d)) (users db) = None ->
   markAttendance tz d by_ newId db = (Throw (AppError "Employee not found" 404), db))
  /\
  (forall u existing,
     find (fun u => N.eqb (user_id u) (data_employeeId d)) (users db) = Some u ->
     find (todayFilter tz (data_employeeId d) (startOfDay tz (data_checkIn d)))
          (attendances db) = Some existing ->
     (fits (option_map Js.trim (orElse (data_notes d) (notes existing))) = true ->
      exists r db', markAttendance tz d by_ newId db = (Ok r, db'))
     /\
     (fits (option_map Js.trim (orElse (data_notes d) (notes existing))) = false ->
      markAttendance tz d by_ newId db
      = (Throw (ValidationError None [("notes", "Notes cannot exceed 500 characters")]),
         db))).
Proof.
  split.
  - apply markAttendance_unknown.
  - intros u existing U F.
    assert (I : In existing (attendances db)) by (apply find_some in F; tauto).
    destruct (find_has_in _id _ _ I) as [b FI].
    unfold markAttendance, User_findById, getTodayAttendance,
      Attendance_findByIdAndUpdate, Attendance_findById, hasId, validation. run.
    rewrite U. cbn beta iota. rewrite F. cbn beta iota.
    cbn [set_notes castUpdate reopenUpdate]. unfold setNotes.
    destruct (notesErrors_cases (option_map Js.trim (orElse (data_notes d) (notes existing))))
      as [[Fi E] | [Fi E]]; rewrite Fi, E; split; intros Q; try discriminate Q.
    + cbn beta iota. rewrite FI. eexists. eexists. reflexivity.
    + reflexivity.
Qed.

End AttendanceFacts.

Section AttendanceWitnesses.

Import Mongo Model JsNumber Attendance Samples.

Lemma uniqueIds_db0 : uniqueIds db0.
Proof. constructor. Defined.

Lemma uniqueIds_one (us : list IUser) (a : IAttendance) : uniqueIds (mkDb us [a] [] []).
Proof. constructor; [intros [] | constructor]. Defined.

Lemma validDate_nine : validDate nine.
Proof. unfold validDate, maxTime, nine. lia. Defined.

Lemma validDate_thirteen : validDate thirteen.
Proof. unfold validDate, maxTime, thirteen. lia. Defined.

Lemma markCheckOut_spec_witness :
  find (hasId 100%N) (attendances dbNoted) = Some notedRecord /\
  (exists a' db',
     markCheckOut 100%N thirteen 1%N (Some " lunch ") dbNoted = (Ok a', db') /\
     find (hasId 100%N) (attendances db') = Some a' /\
     checkIn a' = checkIn notedRecord /\
     checkOut a' = Some thirteen /\
     totalHours a' = Some (round2 (hoursBetween (checkIn notedRecord) thirteen)) /\
     isLoggedIn a' = false /\
     notes a' = closingNote (notes notedRecord) (Some " lunch ") /\
     (thirteen - checkIn notedRecord <= 86400000 ->
      exists k, totalHours a' = Some (ofHundredths k) /\
                Z.abs (36000 * k - (thirteen - checkIn notedRecord)) <= 18000)) /\
  round2 (hoursBetween (checkIn notedRecord) thirteen) = 4%float /\
  closingNote (notes notedRecord) (Some " lunch ") = Some "Morning | Checkout:  lunch".
Proof.
  assert (F : find (hasId 100%N) (attendances dbNoted) = Some notedRecord) by reflexivity.
  split; [exact F |]. split; [| split; vm_compute; reflexivity].
  apply (proj1 (proj2 (markCheckOut_spec dbNoted 100%N notedRecord thirteen 1%N
                         (Some " lunch ") F validDate_nine validDate_thirteen))).
  - reflexivity.
  - reflexivity.
  - reflexivity.
Defined.

Lemma markAttendance_reopen_effect_witness :
  status lateRecord = LATE /\
  exists r db',
    markAttendance 0 (clockIn 1%N fourteen) 1%N 101%N dbLate = (Ok r, db') /\
    find (hasId (_id lateRecord)) (attendances db') = Some r /\
    _id r = _id lateRecord /\
    checkIn r = checkIn lateRecord /\
    totalHours r = totalHours lateRecord /\
    checkOut r = None /\
    status r = PRESENT /\
    isLoggedIn r = true.
Proof.
  split; [reflexivity |].
  apply (proj1 (markAttendance_reopen_effect 0 dbLate (clockIn 1%N fourteen) 1%N 101%N
                  ann lateRecord (uniqueIds_one _ _) eq_refl eq_refl)).
  reflexivity.
Defined.

Lemma reopen_preserves_first_checkIn_witness :
  (find (todayFilter 0 1%N (startOfDay 0 nine)) (attendances db0) = None ->
   checkIn openRecord = nine) /\
  exists r3 db3',
    markAttendance 0 (clockIn 1%N fourteen) 1%N 101%N db2 = (Ok r3, db3') /\
    find (hasId (_id openRecord)) (attendances db3') = Some r3 /\
    _id r3 = _id openRecord /\
    checkIn r3 = checkIn openRecord /\
    checkOut r3 = None.
Proof.
  assert (H2 : markCheckOut (_id openRecord) thirteen 1%N None db1 = (Ok closedRecord, db2))
    by (vm_compute; reflexivity).
  pose proof (reopen_preserves_first_checkIn 0 db0 db1 db2
                (clockIn 1%N nine) (clockIn 1%N fourteen) 1%N 1%N 1%N 100%N 101%N
                thirteen None openRecord closedRecord
                uniqueIds_db0 (fun F => F) eq_refl H2 eq_refl eq_refl) as (A & B & _).
  split; [exact A | apply B; reflexivity].
Defined.

Lemma markAttendance_verifies_existence_witness :
  markAttendance 0 (clockIn 3%N nine) 3%N 100%N db0
    = (Throw (AppError "Employee not found" 404), db0)
  /\
  exists r db', markAttendance 0 (clockIn 1%N fourteen) 1%N 101%N db2 = (Ok r, db').
Proof.
  split.
  - apply (proj1 (markAttendance_verifies_existence 0 db0 (clockIn 3%N nine) 3%N 100%N)).
    reflexivity.
  - apply (proj1 (proj2 (markAttendance_verifies_existence 0 db2 (clockIn 1%N fourteen)
                           1%N 101%N) ann closedRecord eq_refl eq_refl)).
    reflexivity.
Defined.

(** Scenario A of the specification: 09:00 in, 13:00 out, 14:00 in,
    18:00 out. The record keeps the first check-in, and its total is
    the span from the first check-in to the last check-out. *)
Example scenario_A :
  markAttendance 0 (clockIn 1%N nine) 1%N 100%N db0 = (Ok openRecord, db1) /\
  markCheckOut 100%N thirteen 1%N None db1 = (Ok closedRecord, db2) /\
  markAttendance 0 (clockIn 1%N fourteen) 1%N 101%N db2 = (Ok reopenedRecord, db3) /\
  fst (markCheckOut 100%N eighteen 1%N None db3)
  = Ok (mkAttendance 100%N 1%N 0 nine (Some eighteen) (Some 9%float)
          PRESENT None false 1%N 1%N).
Proof.
  repeat split; vm_compute; reflexivity.
Qed.

(** The total is computed in binary floating point: 1.005 hours is
    stored as 1, the product [1.005 * 100] being just below 100.5;
    twenty minutes are stored as 0.33. *)
Example total_of_a_tie :
  round2 (hoursBetween 0 3618000) = 1%float /\
  round2 (hoursBetween 0 18000) = 0x1.47ae147ae147bp-7%float /\
  round2 (hoursBetween 0 1200000) = 0x1.51eb851eb851fp-2%float.
Proof.
  repeat split; vm_compute; reflexivity.
Qed.

End AttendanceWitnesses.

(** ** The role service *)

Section RoleFacts.

Import Mongo Model RoleService.

Ltac run := unfold tryCatch, bind, ret, gets, modify, throw; cbn beta iota.

Lemma find_ext {A : Type} (p q : A -> bool) (l : list A) :
  (forall x, p x = q x) -> find p l = find q l.
Proof.
  intros E. induction l as [| x l IH]; [reflexivity |].
  cbn [find]. rewrite E, IH. reflexivity.
Qed.


Lemma find_none_iff {A : Type} (p : A -> bool) (l : list A) :
  (forall a, In a l -> p a = false) -> find p l = None.
Proof.
  intros H. induction l as [| x l IH]; [reflexivity |].
  cbn [find]. rewrite (H x) by (left; reflexivity).
  apply IH. intros a I. apply H. right. exact I.
Qed.

(** The cast of an identifier, by the identifier that the string names. *)
Lemma castObjectId_idOf (s : IdString) (id : ObjectId) (db : Db) :
  idOf s = Some id -> castObjectId s db = (Ok id, db).
Proof. destruct s; cbn; intros [= <-]; reflexivity. Qed.

Lemma castObjectId_ok (s : IdString) (id : ObjectId) (db db' : Db) :
  castObjectId s db = (Ok id, db') -> idOf s = Some id /\ db' = db.
Proof. destruct s; cbn; intros [= <- <-]; split; reflexivity. Qed.

(** [Role.findById], when it finds a role. *)
Lemma findById_found (db db' : Db) (roleId : IdString) (r : IRole) :
  Role_findById roleId db = (Ok (Some r), db') ->
  idOf roleId = Some (role_id r) /\ find (hasId (role_id r)) (roles db) = Some r /\
  In r (roles db) /\ db' = db.
Proof.
  unfold Role_findById, Role_findOne. run.
  destruct (castObjectId roleId db) as [[id | e] db1] eqn:C; [| discriminate].
  apply castObjectId_ok in C. destruct C as [C ->].
  intros [= F <-].
  assert (K : role_id r = id).
  { apply find_some in F. destruct F as [_ P]. unfold hasId, hasKey in P.
    apply N.eqb_eq in P. exact P. }
  rewrite K. repeat split; try assumption. apply find_some in F. tauto.
Qed.

(** The lookup of [updateRole] and [deleteRole], when it finds a role. *)
Lemma findInOrganization_found (db db' : Db) (roleId : IdString) (code : string)
  (r : IRole) :
  Role_findInOrganization roleId code db = (Ok (Some r), db') ->
  exists id,
    idOf roleId = Some id /\
    find (fun x => hasId id x && String.eqb (organizationCode x) (setOrganizationCode code))
         (roles db) = Some r /\
    role_id r = id /\ organizationCode r = setOrganizationCode code /\ In r (roles db).
Proof.
  unfold Role_findInOrganization, Role_findOne. run.
  destruct (castObjectId roleId db) as [[id | e] db1] eqn:C; [| discriminate].
  apply castObjectId_ok in C. destruct C as [C ->].
  intros [= F _]. exists id. split; [exact C |]. split; [exact F |].
  apply find_some in F. destruct F as [I P].
  apply andb_prop in P. destruct P as [P1 P2].
  unfold hasId, hasKey in P1. apply N.eqb_eq in P1. apply String.eqb_eq in P2.
  repeat split; assumption.
Qed.

(** The lookup within an organization, by the role that the
    identifier names. *)
Lemma findInOrganization_same (db : Db) (roleId : IdString) (code : string) (r : IRole) :
  Role_findById roleId db = (Ok (Some r), db) ->
  organizationCode r = setOrganizationCode code ->
  Role_findInOrganization roleId code db = (Ok (Some r), db).
Proof.
  intros L O. destruct (findById_found _ _ _ _ L) as (C & F & _ & _).
  unfold Role_findInOrganization, Role_findOne. run.
  rewrite (castObjectId_idOf _ _ _ C). f_equal. f_equal.
  induction (roles db) as [| x l IH]; [discriminate F |].
  cbn [find] in *. destruct (hasId (role_id r) x) eqn:H.
  - injection F as ->. rewrite O, String.eqb_refl. reflexivity.
  - cbn [andb]. apply IH, F.
Qed.

Lemma findInOrganization_other (db : Db) (roleId : IdString) (code : string) (r : IRole) :
  NoDup (map role_id (roles db)) ->
  Role_findById roleId db = (Ok (Some r), db) ->
  organizationCode r <> setOrganizationCode code ->
  Role_findInOrganization roleId code db = (Ok None, db).
Proof.
  intros ND L O. destruct (findById_found _ _ _ _ L) as (C & F & I & _).
  unfold Role_findInOrganization, Role_findOne. run.
  rewrite (castObjectId_idOf _ _ _ C). f_equal. f_equal.
  apply find_none_iff. intros x Ix.
  destruct (hasId (role_id r) x) eqn:H; [| reflexivity]. cbn [andb].
  assert (X : x = r).
  { pose proof (find_has_unique role_id _ _ ND Ix) as Fx.
    unfold hasId, hasKey in H. apply N.eqb_eq in H. rewrite H in Fx.
    change (hasKey role_id) with hasId in Fx. congruence. }
  subst x. apply String.eqb_neq. exact O.
Qed.

(** C3, as stated, fails: the super administrator of ACME is a system
    role, and to a caller of the organization WIDGE [updateRole] and
    [deleteRole] answer 404, not 403. *)
Lemma system_role_of_another_organization :
  Role_findById (Hex 10%N) Samples.dbRoles = (Ok (Some Samples.superAdmin), Samples.dbRoles) /\
  isSystemRole Samples.superAdmin = true /\
  updateRole (Hex 10%N) Samples.levelUpdate "WIDGE" "1" Samples.dbRoles
  = (Throw (ApiError "Role not found" 404), Samples.dbRoles) /\
  deleteRole (Hex 10%N) "WIDGE" Samples.dbRoles
  = (Throw (ApiError "Role not found" 404), Samples.dbRoles).
Proof.
  repeat split.
Qed.

(** C3, amended: when the role that the identifier names is a system
    role, [addPermissions] and [removePermissions] fail with a 403
    error, and so do [updateRole] and [deleteRole] for a caller whose
    organization code, normalised, is that of the role; for a caller
    of another organization they fail with the 404 error "Role not
    found". In all these cases the database is left as it was. The
    normalised code is the caller's code in upper case and trimmed;
    the code is taken to be made of characters below 128. *)
Theorem system_role_immutable (db : Db) (roleId : IdString) (r : IRole) :
  Role_findById roleId db = (Ok (Some r), db) ->
  isSystemRole r = true ->
  (forall ids,
     addPermissions roleId ids db
     = (Throw (ApiError "Cannot modify system role permissions" 403), db))
  /\
  (forall ids,
     removePermissions roleId ids db
     = (Throw (ApiError "Cannot modify system role permissions" 403), db))
  /\
  (forall u code userId,
     Js.isAscii code = true ->
     organizationCode r = Js.trim (Js.toUpperCase code) ->
     updateRole roleId u code userId db
     = (Throw (ApiError "Cannot update system role" 403), db))
  /\
  (forall code,
     Js.isAscii code = true ->
     organizationCode r = Js.trim (Js.toUpperCase code) ->
     deleteRole roleId code db
     = (Throw (ApiError "Cannot delete system role" 403), db))
  /\
  (forall u code userId,
     Js.isAscii code = true ->
     NoDup (map role_id (roles db)) ->
     organizationCode r <> Js.trim (Js.toUpperCase code) ->
     updateRole roleId u code userId db = (Throw (ApiError "Role not found" 404), db))
  /\
  (forall code,
     Js.isAscii code = true ->
     NoDup (map role_id (roles db)) ->
     organizationCode r <> Js.trim (Js.toUpperCase code) ->
     deleteRole roleId code db = (Throw (ApiError "Role not found" 404), db)).
Proof.
  intros L S. refine (conj _ (conj _ (conj _ (conj _ (conj _ _))))).
  - intros ids. unfold addPermissions. run.
    rewrite L. cbn beta iota. rewrite S. reflexivity.
  - intros ids. unfold removePermissions. run.
    rewrite L. cbn beta iota. rewrite S. reflexivity.
  - intros u code userId _ O. rewrite <- setOrganizationCode_upper in O.
    unfold updateRole. run.
    rewrite (findInOrganization_same db roleId _ r L O). cbn beta iota.
    rewrite S. reflexivity.
  - intros code _ O. rewrite <- setOrganizationCode_upper in O.
    unfold deleteRole. run.
    rewrite (findInOrganization_same db roleId _ r L O). cbn beta iota.
    rewrite S. reflexivity.
  - intros u code userId _ ND O. rewrite <- setOrganizationCode_upper in O.
    unfold updateRole. run.
    rewrite (findInOrganization_other db roleId _ r ND L O). reflexivity.
  - intros code _ ND O. rewrite <- setOrganizationCode_upper in O.
    unfold deleteRole. run.
    rewrite (findInOrganization_other db roleId _ r ND L O). reflexivity.
Qed.

Lemma filter_nonempty {A : Type} (p : A -> bool) (l : list A) (a : A) :
  In a l -> p a = true -> (0 < List.length (filter p l))%nat.
Proof.
  intros I P. assert (F : In a (filter p l)) by (apply filter_In; tauto).
  destruct (filter p l); [contradiction | cbn; lia].
Qed.

Lemma filter_empty {A : Type} (p : A -> bool) (l : list A) :
  (forall a, In a l -> p a = false) -> filter p l = [].
Proof.
  intros H. induction l as [| x l IH]; [reflexivity |].
  cbn [filter]. rewrite (H x) by (left; reflexivity).
  apply IH. intros a I. apply H. right. exact I.
Qed.

(** C7: [deleteRole] on a role that is not a system role fails with a
    400 error, and removes nothing, when a user of the organization of
    the role has the level of the role as its [role]; when no user
    does, it succeeds and the role is removed. *)
Theorem deleteRole_referential_integrity (db : Db) (roleId : IdString)
  (code : string) (r : IRole) :
  Role_findInOrganization roleId (Js.toUpperCase code) db = (Ok (Some r), db) ->
  isSystemRole r = false ->
  ((exists u, In u (users db) /\ role u = level r /\
              userOrganizationCode u = organizationCode r) ->
   exists n, (0 < n)%nat /\
     deleteRole roleId code db = (Throw (ApiError (msg_assigned n) 400), db))
  /\
  ((forall u, In u (users db) ->
              userOrganizationCode u = organizationCode r -> role u <> level r) ->
   exists db',
     deleteRole roleId code db = (Ok tt, db') /\
     users db' = users db /\
     roles db' = removeFirst (hasId (role_id r)) (roles db) /\
     (NoDup (map role_id (roles db)) ->
      find (hasId (role_id r)) (roles db') = None)).
Proof.
  intros L S.
  destruct (findInOrganization_found _ _ _ _ _ L) as (id & C & _ & I & O & _).
  set (c := setOrganizationCode (Js.toUpperCase code)) in *.
  split.
  - intros (u & Iu & Ru & Ou).
    exists (List.length
              (filter (fun u => (role u =? level r)%Z
                                && String.eqb (userOrganizationCode u) c)
                      (users db))).
    assert (P : (0 < List.length
                   (filter (fun u => (role u =? level r)%Z
                                     && String.eqb (userOrganizationCode u) c)
                           (users db)))%nat).
    { apply (filter_nonempty _ _ u Iu).
      rewrite Ru, Ou, O, Z.eqb_refl, String.eqb_refl. reflexivity. }
    split; [exact P |].
    unfold deleteRole. run. rewrite L. cbn beta iota. rewrite S.
    unfold User_countDocuments. run. fold c.
    apply Nat.ltb_lt in P. rewrite P. reflexivity.
  - intros N.
    assert (E : filter (fun u => (role u =? level r)%Z
                                 && String.eqb (userOrganizationCode u) c)
                       (users db) = []).
    { apply filter_empty. intros u Iu.
      destruct (String.eqb (userOrganizationCode u) c) eqn:Eo;
        [| apply andb_false_r].
      apply String.eqb_eq in Eo. rewrite andb_true_r. apply Z.eqb_neq.
      apply (N u Iu). congruence. }
    exists (setRoles (removeFirst (hasId id)) db).
    subst id. repeat split.
    + unfold deleteRole. run. rewrite L. cbn beta iota. rewrite S.
      unfold User_countDocuments. run. fold c. rewrite E. cbn [List.length Nat.ltb Nat.leb].
      unfold Role_findByIdAndDelete. run. rewrite (castObjectId_idOf _ _ _ C).
      reflexivity.
    + intros ND. cbn [roles setRoles]. apply (find_removeFirst_none role_id), ND.
Qed.







Lemma populate_In (docs : list IPermission) (refs : list ObjectId) (p : IPermission) :
  In p (populate docs refs) <->
  exists id, In id refs /\ find (fun q => N.eqb (permission_id q) id) docs = Some p.
Proof.
  induction refs as [| id refs IH]; cbn [populate].
  - split; [intros [] | intros (id & [] & _)].
  - destruct (find (fun q => N.eqb (permission_id q) id) docs) as [q |] eqn:F.
    + cbn [In]. rewrite IH. split.
      * intros [-> | (i & I & Fi)].
        -- exists id. split; [left; reflexivity | exact F].
        -- exists i. split; [right; exact I | exact Fi].
      * intros (i & [-> | I] & Fi).
        -- left. congruence.
        -- right. exists i. split; assumption.
    + rewrite IH. split.
      * intros (i & I & Fi). exists i. split; [right; exact I | exact Fi].
      * intros (i & [-> | I] & Fi); [congruence |].
        exists i. split; assumption.
Qed.

(** C10: [hasPermission] always resolves to a boolean and leaves the
    database as it was; it resolves to [false] when the lookup of the
    role throws or finds no role, and to [true] exactly when the
    lookup finds a role whose populated permissions contain a
    permission of the given name. *)
Theorem hasPermission_total (db : Db) (roleId : IdString) (nm : string) :
  (exists b, hasPermission roleId nm db = (Ok b, db))
  /\
  (forall e, fst (Role_findById roleId db) = Throw e ->
             hasPermission roleId nm db = (Ok false, db))
  /\
  (fst (Role_findById roleId db) = Ok None ->
   hasPermission roleId nm db = (Ok false, db))
  /\
  (hasPermission roleId nm db = (Ok true, db) <->
   exists r p,
     fst (Role_findById roleId db) = Ok (Some r) /\
     In p (populate (permissionDocs db) (permissions r)) /\
     permissionName p = nm).
Proof.
  unfold hasPermission, Role_findById, Role_findOne, castObjectId.
  destruct roleId as [id | id spelling | s]; run; cbn [fst].
  3: { refine (conj _ (conj _ (conj _ (conj _ _)))).
       + eexists. reflexivity.
       + intros e _. reflexivity.
       + intros E. discriminate E.
       + intros E. discriminate E.
       + intros (r' & p & E & _). discriminate E. }
  all: destruct (find (hasId id) (roles db)) as [r |] eqn:F;
    refine (conj _ (conj _ (conj _ (conj _ _)))).
  all: try (eexists; reflexivity).
  all: try (intros e E; discriminate E).
  all: try (intros E; discriminate E).
  all: try (intros _; reflexivity).
  all: try (intros (r' & p & E & _); discriminate E).
  all: try (intros [= E]; apply existsb_exists in E; destruct E as (p & I & E);
            exists r, p; apply String.eqb_eq in E; repeat split; assumption).
  all: intros (r' & p & [= <-] & I & E);
    assert (X : existsb (fun p => String.eqb (permissionName p) nm)
                  (populate (permissionDocs db) (permissions r)) = true)
      by (apply existsb_exists; exists p; split; [exact I | apply String.eqb_eq; exact E]);
    rewrite X; reflexivity.
Qed.

End RoleFacts.

Section RoleWitnesses.

Import Mongo Model RoleService Samples.

Lemma system_role_immutable_witness :
  addPermissions (Hex 10%N) [Hex 50%N] dbRoles
  = (Throw (ApiError "Cannot modify system role permissions" 403), dbRoles)
  /\
  removePermissions (Hex 10%N) [Hex 50%N] dbRoles
  = (Throw (ApiError "Cannot modify system role permissions" 403), dbRoles)
  /\
  updateRole (Hex 10%N) levelUpdate " acme" "1" dbRoles
  = (Throw (ApiError "Cannot update system role" 403), dbRoles)
  /\
  deleteRole (Hex 10%N) "ACME" dbRoles
  = (Throw (ApiError "Cannot delete system role" 403), dbRoles)
  /\
  updateRole (Hex 10%N) levelUpdate "WIDGE" "1" dbRoles
  = (Throw (ApiError "Role not found" 404), dbRoles)
  /\
  deleteRole (Spelled 10%N "00000000000000000000000A") "WIDGE" dbRoles
  = (Throw (ApiError "Role not found" 404), dbRoles).
Proof.
  assert (ND : NoDup (map role_id (roles dbRoles))).
  { repeat constructor; cbn; intuition discriminate. }
  pose proof (system_role_immutable dbRoles (Hex 10%N) superAdmin eq_refl eq_refl)
    as (A & R & U & D & U' & _).
  pose proof (system_role_immutable dbRoles (Spelled 10%N "00000000000000000000000A")
                superAdmin eq_refl eq_refl) as (_ & _ & _ & _ & _ & D').
  split; [| split; [| split; [| split; [| split]]]].
  - apply (A [Hex 50%N]).
  - apply (R [Hex 50%N]).
  - apply (U levelUpdate " acme" "1"); reflexivity.
  - apply (D "ACME"); reflexivity.
  - apply (U' levelUpdate "WIDGE" "1" eq_refl ND). discriminate.
  - apply (D' "WIDGE" eq_refl ND). discriminate.
Defined.

Lemma deleteRole_referential_integrity_witness :
  (exists n, (0 < n)%nat /\
     deleteRole (Hex 11%N) "ACME" dbRoles
     = (Throw (ApiError (msg_assigned n) 400), dbRoles))
  /\
  (exists db',
     deleteRole (Hex 12%N) "ACME" dbRoles = (Ok tt, db') /\
     users db' = users dbRoles /\
     roles db' = removeFirst (hasId (role_id auditor)) (roles dbRoles) /\
     (NoDup (map role_id (roles dbRoles)) ->
      find (hasId (role_id auditor)) (roles db') = None)).
Proof.
  split.
  - apply (proj1 (deleteRole_referential_integrity dbRoles (Hex 11%N) "ACME" recruiter
                    eq_refl eq_refl)).
    exists ann. repeat split. left. reflexivity.
  - apply (proj2 (deleteRole_referential_integrity dbRoles (Hex 12%N) "ACME" auditor
                    eq_refl eq_refl)).
    intros u [<- | [<- | []]] _; discriminate.
Defined.


Lemma hasPermission_total_witness :
  hasPermission (Hex 11%N) "users:create" dbRoles = (Ok true, dbRoles) /\
  hasPermission (Hex 11%N) "users:delete" dbRoles = (Ok false, dbRoles) /\
  hasPermission (Hex 99%N) "users:create" dbRoles = (Ok false, dbRoles) /\
  hasPermission (Malformed "abc") "users:create" dbRoles = (Ok false, dbRoles).
Proof.
  split; [| split; [| split]].
  - apply (proj2 (proj2 (proj2 (hasPermission_total dbRoles (Hex 11%N) "users:create")))).
    exists recruiter, usersCreate. repeat split. left. reflexivity.
  - reflexivity.
  - apply (proj1 (proj2 (proj2 (hasPermission_total dbRoles (Hex 99%N) "users:create")))).
    reflexivity.
  - apply (proj1 (proj2 (hasPermission_total dbRoles (Malformed "abc") "users:create"))
             (CastError "abc")).
    reflexivity.
Defined.

(** Scenario B of the specification. *)
Example scenario_B :
  let first := createRole recruiterInput "ACME" "1" 13%N db0 in
  (exists r, fst first = Ok (Some r) /\ populated_level r = 50) /\
  fst (createRole recruiterAgain "ACME" "1" 14%N (snd first))
  = Throw (ApiError msg_nameExists 400) /\
  (exists r, fst (createRole recruiterInput "WIDGE" "1" 14%N (snd first)) = Ok (Some r)).
Proof.
  cbv zeta. split; [| split].
  - eexists. split; reflexivity.
  - reflexivity.
  - eexists. reflexivity.
Qed.

End RoleWitnesses.

(** ** The users above a role *)

Section UserFacts.

Import Mongo Model UserService.







Example users_above_employee :
  fst (getUsersAboveRole 5 "ACME" Samples.dbUsers)
  = Ok [summary Samples.cat; summary Samples.dan] /\
  fst (getUsersAboveRole 5 "acme" Samples.dbUsers)
  = Ok [summary Samples.cat; summary Samples.dan].
Proof. split; reflexivity. Qed.

End UserFacts.

(** * Further properties *)

(** ** The two organization-code middlewares *)

Section MiddlewareFacts.

Import Js OrganizationCode OptionalOrganizationCode.

Lemma optional_chosen (req : OrganizationRequest) :
  optionalOrganizationCode req =
    match chosenCode req with
    | Str s =>
        if truthy (Str s)
        then if orgCodeRegex_test (toUpperCase (trim s))
             then withCode req (toUpperCase (trim s))
             else req
        else req
    | _ => req
    end.
Proof.
  unfold optionalOrganizationCode, chosenCode, withCode.
  destruct (if negb _ && truthy (query_organizationCode req) then _ else _);
    reflexivity.
Qed.

(** X1: the optional middleware stores a code on exactly the requests
    that the mandatory one accepts, and stores the same code; on the
    requests that the mandatory one answers with 400 it passes the
    request on unchanged. *)
Theorem optionalOrganizationCode_agrees (req : OrganizationRequest) :
  asciiRequest req ->
  optionalOrganizationCode req =
    match extractOrganizationCode req with
    | Next req' => req'
    | SendError _ _ => req
    end.
Proof.
  intros _. rewrite optional_chosen, extract_chosen.
  destruct (chosenCode req) as [| | b | n | s |]; try reflexivity.
  destruct (truthy (Str s)); cbn [negb]; [| reflexivity].
  destruct (orgCodeRegex_test (toUpperCase (trim s))); reflexivity.
Qed.

Lemma optionalOrganizationCode_agrees_witness :
  optionalOrganizationCode Fixtures.queryRequest
  = withCode Fixtures.queryRequest "WIDGE9".
Proof.
  rewrite (optionalOrganizationCode_agrees Fixtures.queryRequest).
  - reflexivity.
  - repeat split; reflexivity.
Defined.

Lemma trimEnd_code (s : string) :
  all (fun c => isUpper c || isDigit c) s = true -> trimEnd s = s.
Proof.
  induction s as [| c s IH]; [reflexivity |].
  cbn [all trimEnd]. intros H. apply andb_prop in H. destruct H as [Hc Hs].
  rewrite (IH Hs). destruct s as [| c' s'].
  - assert (W : isWhiteSpace c = false).
    { destruct c as [[] [] [] [] [] [] [] []]; try reflexivity; discriminate Hc. }
    rewrite W. reflexivity.
  - reflexivity.
Qed.

Lemma trimStart_code (s : string) :
  all (fun c => isUpper c || isDigit c) s = true -> trimStart s = s.
Proof.
  destruct s as [| c s]; [reflexivity |].
  cbn [all trimStart]. intros H. apply andb_prop in H. destruct H as [Hc _].
  assert (W : isWhiteSpace c = false).
  { destruct c as [[] [] [] [] [] [] [] []]; try reflexivity; discriminate Hc. }
  rewrite W. reflexivity.
Qed.

Lemma toUpperCase_code (s : string) :
  all (fun c => isUpper c || isDigit c) s = true -> toUpperCase s = s.
Proof.
  induction s as [| c s IH]; [reflexivity |].
  cbn [all toUpperCase]. intros H. apply andb_prop in H. destruct H as [Hc Hs].
  rewrite (IH Hs). f_equal.
  destruct c as [[] [] [] [] [] [] [] []]; try reflexivity; discriminate Hc.
Qed.

(** A string that matches the pattern is left as it is by the
    normalization of the middlewares. *)
Lemma normalization_fixes_codes (c : string) :
  orgCodeRegex_test c = true -> toUpperCase (trim c) = c.
Proof.
  unfold orgCodeRegex_test. intros H. apply andb_prop in H. destruct H as [_ A].
  unfold trim. rewrite (trimStart_code c A), (trimEnd_code c A).
  apply toUpperCase_code, A.
Qed.

Lemma extract_header_code (c : string) (b q : value) (o : option string) :
  orgCodeRegex_test c = true ->
  extractOrganizationCode (mkRequest (Str c) b q o)
  = Next (mkRequest (Str c) b q (Some c)).
Proof.
  intros R.
  assert (T : truthy (Str c) = true).
  { cbn. destruct c; [discriminate R | reflexivity]. }
  assert (C : chosenCode (mkRequest (Str c) b q o) = Str c).
  { unfold chosenCode. cbn [header_x_organization_code]. rewrite T.
    cbn [negb andb]. rewrite T. reflexivity. }
  rewrite extract_chosen, C, T. cbn [negb].
  rewrite (normalization_fixes_codes _ R), R. reflexivity.
Qed.

(** X2: the code that [extractOrganizationCode] stores matches
    [^[A-Z0-9]{2,10}$], and a request that sends it back in the header
    is accepted with the same code: the normalization is idempotent. *)
Theorem accepted_code_is_canonical (req req' : OrganizationRequest) :
  asciiRequest req ->
  extractOrganizationCode req = Next req' ->
  exists c,
    organizationCode req' = Some c /\
    orgCodeRegex_test c = true /\
    forall b q o,
      extractOrganizationCode (mkRequest (Str c) b q o)
      = Next (mkRequest (Str c) b q (Some c)).
Proof.
  intros _ H. destruct (extract_cases req) as [[M E] | [_ [E | E]]];
    rewrite E in H; try discriminate H.
  injection H as <-. exists (normalizedCode req).
  assert (R : orgCodeRegex_test (normalizedCode req) = true).
  { unfold matchesAfterTrimAndUppercasing in M. unfold normalizedCode.
    destruct (suppliedCode req); try discriminate M. exact M. }
  split; [reflexivity |]. split; [exact R |].
  intros b q o. apply extract_header_code, R.
Qed.

Lemma accepted_code_is_canonical_witness :
  exists c,
    organizationCode (withCode Fixtures.queryRequest "WIDGE9") = Some c /\
    orgCodeRegex_test c = true /\
    forall b q o,
      extractOrganizationCode (mkRequest (Str c) b q o)
      = Next (mkRequest (Str c) b q (Some c)).
Proof.
  apply (accepted_code_is_canonical Fixtures.queryRequest).
  - repeat split; reflexivity.
  - reflexivity.
Defined.

End MiddlewareFacts.

(** ** File names *)

Section FilenameFacts.

Import Js Mongo Model Helpers.

Ltac by_cases_on c :=
  destruct c as [[] [] [] [] [] [] [] []]; try reflexivity; try discriminate.

Lemma sanitizeChar_safe (c : ascii) : isSanitizedChar (sanitizeChar c) = true.
Proof. by_cases_on c. Qed.

Lemma sanitizeChar_idempotent (c : ascii) :
  sanitizeChar (sanitizeChar c) = sanitizeChar c.
Proof. by_cases_on c. Qed.

Lemma sanitizeChar_dot (c : ascii) : isDot (sanitizeChar c) = isDot c.
Proof. by_cases_on c. Qed.

Lemma sanitizeChar_lower (c : ascii) : lowerChar (sanitizeChar c) = sanitizeChar c.
Proof. by_cases_on c. Qed.

Lemma sanitizeChar_letter (c : ascii) :
  isLower (lowerChar c) = true -> sanitizeChar c = lowerChar c.
Proof. by_cases_on c. Qed.

Lemma sanitize_cons (c : ascii) (s : string) :
  sanitizeFilename (String c s) = String (sanitizeChar c) (sanitizeFilename s).
Proof. reflexivity. Qed.

(** X3: [sanitizeFilename] keeps the length of a name, leaves only
    characters of [[a-z0-9._-]] in it, and changes nothing in a name
    that it has produced. *)
Theorem sanitizeFilename_safe (filename : string) :
  String.length (sanitizeFilename filename) = String.length filename /\
  all isSanitizedChar (sanitizeFilename filename) = true /\
  sanitizeFilename (sanitizeFilename filename) = sanitizeFilename filename.
Proof.
  induction filename as [| c s (L & A & I)]; [repeat split |].
  rewrite sanitize_cons. cbn [String.length all]. rewrite sanitize_cons.
  rewrite L, A, I, sanitizeChar_safe, sanitizeChar_idempotent. repeat split.
Qed.

Lemma afterLastDot_sanitize (s : string) :
  afterLastDot (sanitizeFilename s) = option_map sanitizeFilename (afterLastDot s).
Proof.
  induction s as [| c s IH]; [reflexivity |].
  rewrite sanitize_cons. cbn [afterLastDot]. rewrite IH, sanitizeChar_dot.
  destruct (afterLastDot s); cbn [option_map]; [reflexivity |].
  destruct (isDot c); reflexivity.
Qed.

Lemma lastSegment_sanitize (s : string) :
  lastSegment (sanitizeFilename s) = sanitizeFilename (lastSegment s).
Proof.
  unfold lastSegment. rewrite afterLastDot_sanitize.
  destruct (afterLastDot s); reflexivity.
Qed.

Lemma toLowerCase_sanitize (s : string) :
  toLowerCase (sanitizeFilename s) = sanitizeFilename s.
Proof.
  induction s as [| c s IH]; [reflexivity |].
  rewrite sanitize_cons. cbn [toLowerCase]. rewrite IH, sanitizeChar_lower.
  reflexivity.
Qed.

Lemma sanitize_letters (s : string) :
  all isLower (toLowerCase s) = true -> sanitizeFilename s = toLowerCase s.
Proof.
  induction s as [| c s IH]; [reflexivity |].
  rewrite sanitize_cons. cbn [toLowerCase all]. intros H.
  apply andb_prop in H. destruct H as [Hc Hs].
  rewrite (IH Hs), (sanitizeChar_letter c Hc). reflexivity.
Qed.

Lemma default_types_are_letters (e : string) :
  In e defaultAllowedTypes -> all isLower e = true /\ e <> EmptyString.
Proof.
  intros [<- | [<- | [<- | [<- | [<- | [<- | []]]]]]]; split;
    try reflexivity; discriminate.
Qed.

Lemma validated_extension (name : string) :
  validateFileType name defaultAllowedTypes = true ->
  In (getFileExtension name) defaultAllowedTypes /\
  toLowerCase (lastSegment (sanitizeFilename name)) = getFileExtension name.
Proof.
  unfold validateFileType. intros V. apply existsb_exists in V.
  destruct V as (e & I & E). apply String.eqb_eq in E. subst e.
  split; [exact I |].
  rewrite lastSegment_sanitize, toLowerCase_sanitize.
  apply sanitize_letters. apply (default_types_are_letters _ I).
Qed.

(** X4: the checks of [uploadDocument] end in one of three ways: the
    404 error when the user does not exist, the 400 error on the file
    type, or the sanitized name together with the extension that
    [validateFileType] accepted. The error "File must have an
    extension" is never thrown, and the database is never changed. *)
Theorem uploadDocumentChecks_cases (db : Db) (userId : ObjectId) (name : string) :
  (find (fun u => N.eqb (user_id u) userId) (users db) = None ->
   uploadDocumentChecks userId name db = (Throw (ApiError "User not found" 404), db))
  /\
  (find (fun u => N.eqb (user_id u) userId) (users db) <> None ->
   validateFileType name defaultAllowedTypes = false ->
   uploadDocumentChecks userId name db
   = (Throw (ApiError
               "Invalid file type. Allowed types: pdf, doc, docx, jpg, jpeg, png" 400),
      db))
  /\
  (find (fun u => N.eqb (user_id u) userId) (users db) <> None ->
   validateFileType name defaultAllowedTypes = true ->
   uploadDocumentChecks userId name db
   = (Ok (sanitizeFilename name, getFileExtension name), db) /\
   In (getFileExtension name) defaultAllowedTypes)
  /\
  fst (uploadDocumentChecks userId name db)
  <> Throw (ApiError "File must have an extension" 400).
Proof.
  unfold uploadDocumentChecks, User_findById, bind, gets, throw, ret.
  destruct (find (fun u => N.eqb (user_id u) userId) (users db)) as [u |];
    cbn beta iota.
  - destruct (validateFileType name defaultAllowedTypes) eqn:V; cbn [negb].
    + destruct (validated_extension name V) as [I E]. rewrite E.
      destruct (default_types_are_letters _ I) as [_ NE].
      assert (X : String.eqb (getFileExtension name) "" = false)
        by (apply String.eqb_neq; exact NE).
      rewrite X. refine (conj _ (conj _ (conj _ _))).
      * discriminate.
      * discriminate.
      * intros _ _. split; [reflexivity | exact I].
      * discriminate.
    + refine (conj _ (conj _ (conj _ _))).
      * discriminate.
      * reflexivity.
      * discriminate.
      * discriminate.
  - refine (conj _ (conj _ (conj _ _))).
    + reflexivity.
    + intros N. contradiction N. reflexivity.
    + intros N. contradiction N. reflexivity.
    + discriminate.
Qed.

Lemma uploadDocumentChecks_cases_witness :
  (uploadDocumentChecks 1%N "My Report (final).PDF" Samples.db0
   = (Ok (sanitizeFilename "My Report (final).PDF",
          getFileExtension "My Report (final).PDF"), Samples.db0) /\
   In (getFileExtension "My Report (final).PDF") defaultAllowedTypes)
  /\
  uploadDocumentChecks 9%N "report.pdf" Samples.db0
  = (Throw (ApiError "User not found" 404), Samples.db0)
  /\
  uploadDocumentChecks 1%N "report" Samples.db0
  = (Throw (ApiError
              "Invalid file type. Allowed types: pdf, doc, docx, jpg, jpeg, png" 400),
     Samples.db0).
Proof.
  split; [| split].
  - apply (proj1 (proj2 (proj2 (uploadDocumentChecks_cases Samples.db0 1%N
                                  "My Report (final).PDF")))).
    + discriminate.
    + reflexivity.
  - apply (proj1 (uploadDocumentChecks_cases Samples.db0 9%N "report.pdf")).
    reflexivity.
  - apply (proj1 (proj2 (uploadDocumentChecks_cases Samples.db0 1%N "report"))).
    + discriminate.
    + reflexivity.
Defined.

End FilenameFacts.

(** ** The attendance service, further *)

Section AttendanceFurther.

Import Mongo Model JsNumber Attendance AttendanceQueries.

Variable tz : Z.

Ltac run := unfold bind, ret, gets, modify, throw; cbn beta iota.

Lemma removeFirst_filter {A : Type} (key : A -> ObjectId) (k : ObjectId) (l : list A) :
  NoDup (map key l) ->
  removeFirst (hasKey key k) l = filter (fun a => negb (hasKey key k a)) l.
Proof.
  induction l as [| x l IH]; intros ND; [reflexivity |].
  cbn [map] in ND. inversion ND as [| k' ks NI ND']; subst.
  cbn [removeFirst filter]. destruct (hasKey key k x) eqn:E; cbn [negb].
  - symmetry. apply forallb_filter_id. apply forallb_forall. intros y Iy.
    unfold hasKey in *. apply N.eqb_eq in E. apply negb_true_iff, N.eqb_neq.
    intros Ey. apply NI. rewrite E, <- Ey. apply in_map, Iy.
  - rewrite (IH ND'). reflexivity.
Qed.

Lemma NoDup_map_filter {A : Type} (key : A -> ObjectId) (p : A -> bool) (l : list A) :
  NoDup (map key l) -> NoDup (map key (filter p l)).
Proof.
  induction l as [| x l IH]; intros ND; [constructor |].
  cbn [map] in ND. inversion ND as [| k' ks NI ND']; subst.
  cbn [filter]. destruct (p x); [| apply IH, ND'].
  cbn [map]. constructor; [| apply IH, ND'].
  intros I. apply NI. apply in_map_iff in I. destruct I as (y & Ey & Iy).
  apply filter_In in Iy. rewrite <- Ey. apply in_map. tauto.
Qed.

Lemma find_replaceFirst_other {A : Type} (key : A -> ObjectId) (k k' : ObjectId)
  (g : A -> A) (l : list A) :
  (forall x, key (g x) = key x) -> k' <> k ->
  find (hasKey key k') (replaceFirst (hasKey key k) g l) = find (hasKey key k') l.
Proof.
  intros G NE. induction l as [| x l IH]; [reflexivity |].
  cbn [replaceFirst find]. destruct (hasKey key k x) eqn:E.
  - cbn [find]. unfold hasKey in *. rewrite G. apply N.eqb_eq in E. rewrite E.
    replace (N.eqb k k') with false by (symmetry; apply N.eqb_neq; congruence).
    reflexivity.
  - cbn [find]. rewrite IH. reflexivity.
Qed.

Lemma find_app_other {A : Type} (p : A -> bool) (l : list A) (a : A) :
  p a = false -> find p (l ++ [a]) = find p l.
Proof.
  intros P. induction l as [| x l IH]; cbn [find app].
  - rewrite P. reflexivity.
  - destruct (p x); [reflexivity | exact IH].
Qed.

Lemma find_filter_other {A : Type} (key : A -> ObjectId) (k k' : ObjectId) (l : list A) :
  k' <> k ->
  find (hasKey key k') (filter (fun a => negb (hasKey key k a)) l)
  = find (hasKey key k') l.
Proof.
  intros NE. induction l as [| x l IH]; [reflexivity |].
  cbn [filter find]. destruct (hasKey key k x) eqn:E; cbn [negb find].
  - unfold hasKey in *. apply N.eqb_eq in E. rewrite E.
    replace (N.eqb k k') with false by (symmetry; apply N.eqb_neq; congruence).
    exact IH.
  - rewrite IH. reflexivity.
Qed.

(** What [markAttendance] does, in its three cases. *)
Lemma markAttendance_cases (db : Db) (d : MarkAttendanceData) (by_ newId : ObjectId) :
  (find (fun u => N.eqb (user_id u) (data_employeeId d)) (users db) = None /\
   markAttendance tz d by_ newId db = (Throw (AppError "Employee not found" 404), db))
  \/
  (find (todayFilter tz (data_employeeId d) (startOfDay tz (data_checkIn d)))
        (attendances db) = None /\
   markAttendance tz d by_ newId db =
     if fits (option_map Js.trim (data_notes d))
     then (Ok (firstRecord tz d by_ newId),
           setAttendances (fun l => l ++ [firstRecord tz d by_ newId])%list db)
     else (Throw (ValidationError (Some "Attendance") notesRefused), db))
  \/
  (exists existing a,
     find (todayFilter tz (data_employeeId d) (startOfDay tz (data_checkIn d)))
          (attendances db) = Some existing /\
     find (hasId (_id existing)) (attendances db) = Some a /\
     markAttendance tz d by_ newId db =
       if fits (option_map Js.trim (orElse (data_notes d) (notes existing)))
       then (Ok (applyUpdate (castUpdate (reopenUpdate d by_ existing)) a),
             setAttendances
               (replaceFirst (hasId (_id existing))
                             (applyUpdate (castUpdate (reopenUpdate d by_ existing))))
               db)
       else (Throw (ValidationError None notesRefused), db)).
Proof.
  destruct (find (fun u => N.eqb (user_id u) (data_employeeId d)) (users db))
    as [u |] eqn:U.
  2: { left. split; [reflexivity | apply markAttendance_unknown, U]. }
  right.
  destruct (find (todayFilter tz (data_employeeId d) (startOfDay tz (data_checkIn d)))
                 (attendances db)) as [existing |] eqn:F.
  - right.
    assert (I : In existing (attendances db)) by (apply find_some in F; tauto).
    destruct (find_has_in _id _ _ I) as [a FI].
    exists existing, a. split; [reflexivity |]. split; [exact FI |].
    unfold markAttendance, User_findById, getTodayAttendance,
      Attendance_findByIdAndUpdate, Attendance_findById, hasId, validation. run.
    rewrite U. cbn beta iota. rewrite F. cbn beta iota.
    cbn [set_notes castUpdate reopenUpdate]. unfold setNotes.
    destruct (notesErrors_cases (option_map Js.trim (orElse (data_notes d) (notes existing))))
      as [[Fi E] | [Fi E]]; rewrite Fi, E; [| reflexivity].
    cbn beta iota. rewrite FI. reflexivity.
  - left. split; [reflexivity |]. apply (markAttendance_first tz db d by_ newId u U F).
Qed.

(** X5: a record that [markCheckOut] has closed cannot be closed again:
    every further [markCheckOut] on it fails with the 400 error
    "Already checked out" and writes nothing. *)
Theorem markCheckOut_twice (db db' : Db) (id : ObjectId) (t : Z) (by_ : ObjectId)
  (n : option string) (r : IAttendance) :
  markCheckOut id t by_ n db = (Ok r, db') ->
  forall t' by' n',
    markCheckOut id t' by' n' db' = (Throw (AppError "Already checked out" 400), db').
Proof.
  intros H t' by' n'.
  destruct (markCheckOut_inv db db' id t by_ n r H) as (a & F & _ & _ & R & D & _).
  destruct (checkedOut_fields a t by_ n) as (I & _ & _ & _ & CO & _).
  rewrite <- R in I, CO.
  destruct (find_has_key _id _ _ _ F) as [K _].
  assert (F' : find (hasId id) (attendances db') = Some r).
  { subst db'. cbn [attendances setAttendances].
    apply (find_replaceFirst_self (hasId id) (fun _ => r) _ a F).
    unfold hasId, hasKey. rewrite I, K. apply N.eqb_refl. }
  unfold markCheckOut, Attendance_findById. run. rewrite F', CO. reflexivity.
Qed.

(** The paths of an update that fail its validation. *)
Lemma updateAttendance_cases (db : Db) (id : ObjectId) (u : PartialAttendanceData)
  (by_ : ObjectId) :
  (exists e errors,
     (totalHoursErrors (partial_totalHours u)
      ++ notesErrors (option_map Js.trim (partial_notes u)))%list = e :: errors /\
     updateAttendance id u by_ db = (Throw (ValidationError None (e :: errors)), db))
  \/
  ((totalHoursErrors (partial_totalHours u)
    ++ notesErrors (option_map Js.trim (partial_notes u)))%list = [] /\
   find (hasId id) (attendances db) = None /\
   updateAttendance id u by_ db
   = (Throw (AppError "Attendance record not found" 404), db))
  \/
  (exists a,
     (totalHoursErrors (partial_totalHours u)
      ++ notesErrors (option_map Js.trim (partial_notes u)))%list = [] /\
     find (hasId id) (attendances db) = Some a /\
     updateAttendance id u by_ db
     = (Ok (applyPartial (castPartial u) by_ a),
        setAttendances (replaceFirst (hasId id) (applyPartial (castPartial u) by_)) db)).
Proof.
  unfold updateAttendance, Attendance_findById, validation. run.
  cbn [partial_totalHours partial_notes castPartial]. unfold setNotes.
  destruct (totalHoursErrors (partial_totalHours u)
            ++ notesErrors (option_map Js.trim (partial_notes u)))%list as [| e errors].
  - right. cbn beta iota.
    destruct (find (hasId id) (attendances db)) as [a |] eqn:F.
    + right. exists a. repeat split.
    + left. repeat split.
  - left. exists e, errors. split; reflexivity.
Qed.

Lemma deleteAttendance_cases (db : Db) (id : ObjectId) :
  (find (hasId id) (attendances db) = None /\
   deleteAttendance id db = (Throw (AppError "Attendance record not found" 404), db))
  \/
  (exists a,
     find (hasId id) (attendances db) = Some a /\
     deleteAttendance id db = (Ok tt, setAttendances (removeFirst (hasId id)) db)).
Proof.
  unfold deleteAttendance, Attendance_findById. run.
  destruct (find (hasId id) (attendances db)) as [a |] eqn:F.
  - right. exists a. split; reflexivity.
  - left. split; reflexivity.
Qed.

Lemma markCheckOut_throw (db db' : Db) (id : ObjectId) (t : Z) (by_ : ObjectId)
  (n : option string) (e : error) :
  markCheckOut id t by_ n db = (Throw e, db') -> db' = db.
Proof.
  unfold markCheckOut, Attendance_findById. run.
  destruct (find (hasId id) (attendances db)) as [a |] eqn:F; [| congruence].
  destruct (checkOut a) eqn:C; [congruence |].
  destruct (t <=? checkIn a) eqn:L; [congruence |].
  unfold Attendance_save, Attendance_findById, validate, validation. run.
  destruct (totalHoursErrors (totalHours (checkedOut a t by_ n))
            ++ notesErrors (notes (checkedOut a t by_ n)))%list; [| congruence].
  cbn beta iota. cbn [_id checkedOut].
  destruct (find_has_key _id _ _ _ F) as [K _].
  change (hasKey _id) with hasId. rewrite K, F. discriminate.
Qed.

(** X6: an operation of the attendance service that throws has written
    nothing: the database is the one it was called on. *)
Theorem attendance_errors_write_nothing (db db' : Db) (e : error) :
  (forall d by_ newId,
     markAttendance tz d by_ newId db = (Throw e, db') -> db' = db)
  /\
  (forall id t by_ n, markCheckOut id t by_ n db = (Throw e, db') -> db' = db)
  /\
  (forall id u by_, updateAttendance id u by_ db = (Throw e, db') -> db' = db)
  /\
  (forall id, deleteAttendance id db = (Throw e, db') -> db' = db).
Proof.
  refine (conj _ (conj _ (conj _ _))).
  - intros d by_ newId H.
    destruct (markAttendance_cases db d by_ newId)
      as [[_ E] | [[_ E] | (x & a & _ & _ & E)]];
      rewrite E in H; try destruct (fits _); congruence.
  - intros id t by_ n H. apply (markCheckOut_throw db db' id t by_ n e H).
  - intros id u by_ H.
    destruct (updateAttendance_cases db id u by_)
      as [(e' & errors & _ & E) | [(_ & _ & E) | (a & _ & _ & E)]];
      rewrite E in H; congruence.
  - intros id H.
    destruct (deleteAttendance_cases db id) as [[_ E] | (a & _ & E)];
      rewrite E in H; congruence.
Qed.

(** X7: the writes of the attendance service keep the identifiers of
    the collection unique, and leave the users, the roles and the
    permissions as they were. *)
Theorem attendance_writes_keep_unique_ids (db db' : Db) :
  uniqueIds db ->
  (forall d by_ newId r,
     freshId newId db -> markAttendance tz d by_ newId db = (Ok r, db') ->
     uniqueIds db' /\ users db' = users db /\ roles db' = roles db /\
     permissionDocs db' = permissionDocs db)
  /\
  (forall id t by_ n r,
     markCheckOut id t by_ n db = (Ok r, db') ->
     uniqueIds db' /\ users db' = users db /\ roles db' = roles db /\
     permissionDocs db' = permissionDocs db)
  /\
  (forall id u by_ r,
     updateAttendance id u by_ db = (Ok r, db') ->
     uniqueIds db' /\ users db' = users db /\ roles db' = roles db /\
     permissionDocs db' = permissionDocs db)
  /\
  (forall id,
     deleteAttendance id db = (Ok tt, db') ->
     uniqueIds db' /\ users db' = users db /\ roles db' = roles db /\
     permissionDocs db' = permissionDocs db).
Proof.
  intros ND. refine (conj _ (conj _ (conj _ _))).
  - intros d by_ newId r FR H.
    destruct (markAttendance_cases db d by_ newId)
      as [[_ E] | [[_ E] | (x & a & _ & _ & E)]];
      rewrite E in H; [discriminate H | |];
      (destruct (fits _); [| discriminate H]); injection H as _ <-;
      unfold uniqueIds; cbn [attendances users roles permissionDocs setAttendances];
      (split; [| repeat split]).
    + rewrite map_app. cbn [map].
      destruct (firstRecord_fields tz d by_ newId) as (I & _).
      rewrite I. apply NoDup_snoc; assumption.
    + rewrite (replaceFirst_keys _id); [exact ND | reflexivity].
  - intros id t by_ n r H.
    destruct (markCheckOut_inv db db' id t by_ n r H) as (a & F & _ & _ & R & D & _).
    destruct (checkedOut_fields a t by_ n) as (I & _). rewrite <- R in I.
    destruct (find_has_key _id _ _ _ F) as [K _].
    subst db'. unfold uniqueIds.
    cbn [attendances users roles permissionDocs setAttendances].
    split; [| repeat split].
    rewrite (replaceFirst_keys _id); [exact ND |].
    intros x _ P. unfold hasId, hasKey in P. apply N.eqb_eq in P. congruence.
  - intros id u by_ r H.
    destruct (updateAttendance_cases db id u by_)
      as [(e' & errors & _ & E) | [(_ & _ & E) | (a & _ & _ & E)]];
      rewrite E in H; [discriminate H | discriminate H |]. injection H as _ <-.
    unfold uniqueIds. cbn [attendances users roles permissionDocs setAttendances].
    split; [| repeat split].
    rewrite (replaceFirst_keys _id); [exact ND | reflexivity].
  - intros id H.
    destruct (deleteAttendance_cases db id) as [[_ E] | (a & _ & E)];
      rewrite E in H; [discriminate H |]. injection H as <-.
    unfold uniqueIds. cbn [attendances users roles permissionDocs setAttendances].
    split; [| repeat split].
    unfold hasId. rewrite (removeFirst_filter _id id _ ND).
    apply NoDup_map_filter, ND.
Qed.

Lemma length_replaceFirst {A : Type} (p : A -> bool) (g : A -> A) (l : list A) :
  List.length (replaceFirst p g l) = List.length l.
Proof.
  induction l as [| x l IH]; [reflexivity |].
  cbn [replaceFirst]. destruct (p x); cbn [List.length]; congruence.
Qed.

(** X8: a clock-in or a clock-out touches one record: every record
    with another identifier is found as before; a clock-in adds at
    most one record to the collection and a clock-out adds none. *)
Theorem attendance_writes_are_local (db db' : Db) (r : IAttendance) :
  (forall d by_ newId,
     markAttendance tz d by_ newId db = (Ok r, db') ->
     (forall id', id' <> _id r ->
        find (hasId id') (attendances db') = find (hasId id') (attendances db)) /\
     (List.length (attendances db') <= S (List.length (attendances db)))%nat)
  /\
  (forall id t by_ n,
     markCheckOut id t by_ n db = (Ok r, db') ->
     (forall id', id' <> id ->
        find (hasId id') (attendances db') = find (hasId id') (attendances db)) /\
     List.length (attendances db') = List.length (attendances db)).
Proof.
  split.
  - intros d by_ newId H.
    destruct (markAttendance_cases db d by_ newId)
      as [[_ E] | [[_ E] | (x & a & _ & Fa & E)]];
      rewrite E in H; [discriminate H | |];
      (destruct (fits _); [| discriminate H]); injection H as <- <-;
      cbn [attendances setAttendances].
    + split.
      * intros id' NE. apply find_app_other. unfold hasId, hasKey.
        apply N.eqb_neq. congruence.
      * rewrite length_app. cbn [List.length]. lia.
    + destruct (find_has_key _id _ _ _ Fa) as [K _]. split.
      * intros id' NE. apply (find_replaceFirst_other _id); [reflexivity |].
        cbn [_id applyUpdate] in NE. congruence.
      * rewrite length_replaceFirst. lia.
  - intros id t by_ n H.
    destruct (markCheckOut_inv db db' id t by_ n r H) as (a & F & _ & _ & R & D & _).
    destruct (checkedOut_fields a t by_ n) as (I & _). rewrite <- R in I.
    destruct (find_has_key _id _ _ _ F) as [K _].
    subst db'. cbn [attendances setAttendances]. split.
    + intros id' NE. induction (attendances db) as [| x l IH]; [reflexivity |].
      cbn [replaceFirst find]. destruct (hasId id x) eqn:E.
      * cbn [find]. unfold hasId, hasKey in *. apply N.eqb_eq in E.
        rewrite I, K, E.
        replace (N.eqb id id') with false by (symmetry; apply N.eqb_neq; congruence).
        reflexivity.
      * cbn [find]. destruct (hasId id' x); [reflexivity |].
        cbn [find] in F. rewrite E in F. apply IH.
        -- exact F.
    + apply length_replaceFirst.
Qed.

(** The second clock-in of a day, after a clock-out, reopens the record
    of the first. *)
Lemma clock_in_again (db db1 db2 : Db) (d1 d3 : MarkAttendanceData)
  (by1 by2 by3 new1 new3 : ObjectId) (t2 : Z) (n2 : option string)
  (r1 r2 : IAttendance) :
  uniqueIds db -> freshId new1 db ->
  markAttendance tz d1 by1 new1 db = (Ok r1, db1) ->
  markCheckOut (_id r1) t2 by2 n2 db1 = (Ok r2, db2) ->
  data_employeeId d3 = data_employeeId d1 ->
  startOfDay tz (data_checkIn d3) = startOfDay tz (data_checkIn d1) ->
  markAttendance tz d3 by3 new3 db2 =
    (if fits (option_map Js.trim (orElse (data_notes d3) (notes r2)))
     then (Ok (applyUpdate (castUpdate (reopenUpdate d3 by3 r2)) r2),
           setAttendances
             (replaceFirst (hasId (_id r2))
                           (applyUpdate (castUpdate (reopenUpdate d3 by3 r2)))) db2)
     else (Throw (ValidationError None notesRefused), db2))
  /\ _id r2 = _id r1 /\ checkIn r2 = checkIn r1 /\ checkOut r2 = Some t2
  /\ uniqueIds db2
  /\ find (hasId (_id r2)) (attendances db2) = Some r2.
Proof.
  intros ND FR H1 H2 E D.
  assert (U : exists u, find (fun u => N.eqb (user_id u) (data_employeeId d1)) (users db)
                        = Some u).
  { destruct (find _ (users db)) as [u |] eqn:U; [exists u; reflexivity |].
    rewrite (markAttendance_unknown tz db d1 by1 new1 U) in H1. discriminate H1. }
  destruct U as [u U].
  destruct (markAttendance_post tz db db1 d1 by1 new1 r1 ND FR H1) as (ND1 & US1 & F1).
  destruct (markCheckOut_inv db1 db2 _ t2 by2 n2 r2 H2) as (a & Fa & _ & _ & R2 & DB2 & _).
  assert (I1 : In r1 (attendances db1)) by (apply find_some in F1; tauto).
  assert (A : a = r1).
  { pose proof (find_has_unique _id _ _ ND1 I1) as Fr. unfold hasId in Fa. congruence. }
  subst a.
  destruct (checkedOut_fields r1 t2 by2 n2) as (I2 & E2 & D2 & C2 & CO2 & _).
  rewrite <- R2 in I2, E2, D2, C2, CO2.
  assert (ND2 : uniqueIds db2).
  { subst db2. unfold uniqueIds, setAttendances. cbn [attendances].
    rewrite (replaceFirst_keys _id); [exact ND1 |].
    intros x _ P. unfold hasId, hasKey in P. apply N.eqb_eq in P. congruence. }
  assert (F2 : find (todayFilter tz (data_employeeId d3) (startOfDay tz (data_checkIn d3)))
                    (attendances db2) = Some r2).
  { rewrite E, D. subst db2. cbn [attendances setAttendances].
    apply (find_replaceFirst_filter _id _ (fun _ => r2) _ r1 ND1 F1).
    rewrite (todayFilter_ext tz _ _ r2 r1) by assumption.
    apply find_some in F1. tauto. }
  assert (U2 : find (fun u => N.eqb (user_id u) (data_employeeId d3)) (users db2)
               = Some u).
  { rewrite E. subst db2. cbn [users setAttendances]. rewrite US1. exact U. }
  assert (I2' : In r2 (attendances db2)) by (apply find_some in F2; tauto).
  pose proof (find_has_unique _id _ _ ND2 I2') as FI2.
  split; [apply (markAttendance_again tz db2 d3 by3 new3 u r2 ND2 U2 F2) |].
  repeat split; assumption.
Qed.

(** X9: the hours of a day run from the first check-in to the last
    check-out. After a clock-in, a clock-out, a second clock-in on the
    same day and a second clock-out, the record of the day has the
    check-in of the first clock-in, the time of the second clock-out,
    and as its total the hours between the two, the time between the
    sessions included. *)
Theorem hours_span_first_to_last (db db1 db2 db3 db4 : Db) (d1 d3 : MarkAttendanceData)
  (by1 by2 by3 by4 new1 new3 : ObjectId) (t2 t4 : Z) (n2 n4 : option string)
  (r1 r2 r3 r4 : IAttendance) :
  uniqueIds db -> freshId new1 db ->
  markAttendance tz d1 by1 new1 db = (Ok r1, db1) ->
  markCheckOut (_id r1) t2 by2 n2 db1 = (Ok r2, db2) ->
  data_employeeId d3 = data_employeeId d1 ->
  startOfDay tz (data_checkIn d3) = startOfDay tz (data_checkIn d1) ->
  markAttendance tz d3 by3 new3 db2 = (Ok r3, db3) ->
  markCheckOut (_id r3) t4 by4 n4 db3 = (Ok r4, db4) ->
  _id r4 = _id r1 /\
  checkIn r4 = checkIn r1 /\
  checkOut r4 = Some t4 /\
  totalHours r4 = Some (round2 (hoursBetween (checkIn r1) t4)) /\
  find (hasId (_id r1)) (attendances db4) = Some r4.
Proof.
  intros ND FR H1 H2 E D H3 H4.
  destruct (clock_in_again db db1 db2 d1 d3 by1 by2 by3 new1 new3 t2 n2 r1 r2
              ND FR H1 H2 E D) as (H3' & I2 & C2 & _ & ND2 & F2).
  rewrite H3' in H3. destruct (fits _); [| discriminate H3]. injection H3 as R3 DB3.
  assert (I3 : _id r3 = _id r2) by (rewrite <- R3; reflexivity).
  assert (C3 : checkIn r3 = checkIn r2) by (rewrite <- R3; reflexivity).
  assert (F3 : find (hasId (_id r2)) (attendances db3) = Some r3).
  { rewrite <- DB3, <- R3. cbn [attendances setAttendances].
    apply (find_replaceFirst_self (hasId (_id r2))); [exact F2 |].
    unfold hasId, hasKey. cbn [_id applyUpdate]. apply N.eqb_refl. }
  destruct (markCheckOut_inv db3 db4 _ t4 by4 n4 r4 H4) as (a & Fa & _ & _ & R4 & DB4 & _).
  rewrite I3 in Fa. assert (A : a = r3) by congruence. subst a.
  destruct (checkedOut_fields r3 t4 by4 n4) as (I4 & _ & _ & C4 & CO4 & TH4 & _).
  rewrite <- R4 in I4, C4, CO4, TH4.
  refine (conj _ (conj _ (conj _ (conj _ _)))); try congruence.
  rewrite DB4. cbn [attendances setAttendances]. rewrite I3, <- I2.
  apply (find_replaceFirst_self (hasId (_id r2)) (fun _ => r4) _ r3 F3).
  unfold hasId, hasKey. rewrite I4, I3. apply N.eqb_refl.
Qed.

Lemma insertByCheckIn_perm (a : IAttendance) (l : list IAttendance) :
  Permutation (a :: l) (insertByCheckIn a l).
Proof.
  induction l as [| x l IH]; cbn [insertByCheckIn]; [apply Permutation_refl |].
  destruct (checkIn a <=? checkIn x); [apply Permutation_refl |].
  apply perm_trans with (x :: a :: l); [apply perm_swap | apply perm_skip, IH].
Qed.

Lemma sortByCheckIn_perm (l : list IAttendance) : Permutation l (sortByCheckIn l).
Proof.
  induction l as [| x l IH]; cbn [sortByCheckIn]; [apply perm_nil |].
  apply perm_trans with (x :: sortByCheckIn l); [apply perm_skip, IH |].
  apply insertByCheckIn_perm.
Qed.

Lemma insertByCheckIn_sorted (a : IAttendance) (l : list IAttendance) :
  Sorted (fun x y => checkIn x <= checkIn y) l ->
  Sorted (fun x y => checkIn x <= checkIn y) (insertByCheckIn a l).
Proof.
  induction l as [| x l IH]; intros S; cbn [insertByCheckIn].
  - repeat constructor.
  - destruct (checkIn a <=? checkIn x) eqn:L.
    + constructor; [exact S |]. constructor. apply Z.leb_le, L.
    + inversion S as [| ? ? S' H]; subst. constructor; [apply IH, S' |].
      apply Z.leb_gt in L.
      destruct l as [| y l']; cbn [insertByCheckIn].
      * constructor. lia.
      * destruct (checkIn a <=? checkIn y); constructor; [lia |].
        inversion H; subst. assumption.
Qed.

Lemma sortByCheckIn_sorted (l : list IAttendance) :
  Sorted (fun x y => checkIn x <= checkIn y) (sortByCheckIn l).
Proof.
  induction l as [| x l IH]; cbn [sortByCheckIn]; [constructor |].
  apply insertByCheckIn_sorted, IH.
Qed.

(** X10: [getAllTodayAttendance] returns the records of the employee
    for the day, none left out and none added, by ascending check-in,
    and leaves the database as it was. *)
Theorem getAllTodayAttendance_sorted (db : Db) (userId : ObjectId) (day : Z) :
  exists records,
    getAllTodayAttendance tz userId day db = (Ok records, db) /\
    Permutation records (filter (todayFilter tz userId day) (attendances db)) /\
    Sorted (fun x y => checkIn x <= checkIn y) records /\
    (forall a, In a records <->
               In a (attendances db) /\ todayFilter tz userId day a = true).
Proof.
  exists (sortByCheckIn (filter (todayFilter tz userId day) (attendances db))).
  assert (P : Permutation
                (sortByCheckIn (filter (todayFilter tz userId day) (attendances db)))
                (filter (todayFilter tz userId day) (attendances db)))
    by apply Permutation_sym, sortByCheckIn_perm.
  split; [reflexivity |]. split; [exact P |]. split; [apply sortByCheckIn_sorted |].
  intros a. rewrite <- filter_In. split; apply Permutation_in;
    [exact P | apply Permutation_sym, P].
Qed.

Lemma head_insertByCheckInDesc (a : IAttendance) (l : list IAttendance) :
  head (insertByCheckInDesc a l) =
    match l with
    | [] => Some a
    | x :: _ => if checkIn x <=? checkIn a then Some a else Some x
    end.
Proof.
  destruct l as [| x l]; cbn [insertByCheckInDesc]; [reflexivity |].
  destruct (checkIn x <=? checkIn a); reflexivity.
Qed.

Lemma head_sortByCheckInDesc (l : list IAttendance) :
  match head (sortByCheckInDesc l) with
  | Some r => In r l /\ forall a, In a l -> checkIn a <= checkIn r
  | None => l = []
  end.
Proof.
  induction l as [| x l IH]; [reflexivity |].
  cbn [sortByCheckInDesc]. rewrite head_insertByCheckInDesc.
  destruct (sortByCheckInDesc l) as [| y s] eqn:S; cbn [head] in IH.
  - subst l. split; [left; reflexivity |]. intros a [<- | []]. lia.
  - destruct IH as [Iy My]. destruct (checkIn y <=? checkIn x) eqn:L.
    + apply Z.leb_le in L. split; [left; reflexivity |].
      intros a [<- | Ia]; [lia |]. specialize (My a Ia). lia.
    + apply Z.leb_gt in L. split; [right; exact Iy |].
      intros a [<- | Ia]; [lia |]. apply My, Ia.
Qed.

(** X11: [getIncompleteSession] returns nothing exactly when the
    employee has no record without a check-out for the day; the record
    it returns otherwise has no check-out and has the latest check-in
    among those. *)
Theorem getIncompleteSession_latest_open (db : Db) (userId : ObjectId) (day : Z) :
  exists found,
    getIncompleteSession tz userId day db = (Ok found, db) /\
    match found with
    | Some r =>
        In r (attendances db) /\ todayFilter tz userId day r = true /\
        checkOut r = None /\
        forall a, In a (attendances db) -> todayFilter tz userId day a = true ->
                  checkOut a = None -> checkIn a <= checkIn r
    | None =>
        forall a, In a (attendances db) -> todayFilter tz userId day a = true ->
                  checkOut a <> None
    end.
Proof.
  exists (head (sortByCheckInDesc
                  (filter (incompleteFilter tz userId day) (attendances db)))).
  split; [reflexivity |].
  pose proof (head_sortByCheckInDesc
                (filter (incompleteFilter tz userId day) (attendances db))) as H.
  assert (Q : forall a, incompleteFilter tz userId day a = true <->
                        todayFilter tz userId day a = true /\ checkOut a = None).
  { intros a. unfold incompleteFilter. rewrite andb_true_iff.
    destruct (checkOut a); split; intros [X Y]; try discriminate; tauto. }
  destruct (head _) as [r |].
  - destruct H as [I M]. apply filter_In in I. destruct I as [I P].
    apply Q in P. destruct P as [P C]. repeat split; try assumption.
    intros a Ia Pa Ca. apply M. apply filter_In. split; [exact Ia |].
    apply Q. tauto.
  - intros a Ia Pa Ca.
    assert (X : In a (filter (incompleteFilter tz userId day) (attendances db))).
    { apply filter_In. split; [exact Ia |]. apply Q. tauto. }
    rewrite H in X. contradiction X.
Qed.

Lemma fold_addSessionHours_open (l : list IAttendance) (acc : float) :
  (forall a, In a l -> checkOut a = None) ->
  fold_left addSessionHours l acc = acc.
Proof.
  revert acc. induction l as [| x l IH]; intros acc H; [reflexivity |].
  cbn [fold_left]. unfold addSessionHours at 2.
  rewrite (H x) by (left; reflexivity). apply IH. intros a I. apply H. right. exact I.
Qed.

(** X12: [getTotalHoursForDay] counts closed sessions only: on a day
    on which every record of the employee is still open, or on which
    there is none, the total is zero, however long ago the check-in
    was. *)
Theorem getTotalHoursForDay_open_sessions (db : Db) (userId : ObjectId) (day : Z) :
  (forall a, In a (attendances db) -> todayFilter tz userId day a = true ->
             checkOut a = None) ->
  getTotalHoursForDay tz userId day db = (Ok 0%float, db).
Proof.
  intros H. unfold getTotalHoursForDay, getAllTodayAttendance. run.
  rewrite fold_addSessionHours_open; [reflexivity |].
  intros a I.
  apply (Permutation_in _ (Permutation_sym (sortByCheckIn_perm _))) in I.
  apply filter_In in I. destruct I as [I P]. apply H; assumption.
Qed.

(** X13: [deleteAttendance] fails with the 404 error, and writes
    nothing, when no record has the identifier; when one has, it
    removes it and no other, after which the record cannot be found
    and a second deletion fails with 404. *)
Theorem deleteAttendance_spec (db : Db) (id : ObjectId) :
  uniqueIds db ->
  (find (hasId id) (attendances db) = None ->
   deleteAttendance id db = (Throw (AppError "Attendance record not found" 404), db))
  /\
  (forall a,
     find (hasId id) (attendances db) = Some a ->
     exists db',
       deleteAttendance id db = (Ok tt, db') /\
       find (hasId id) (attendances db') = None /\
       (forall id', id' <> id ->
          find (hasId id') (attendances db') = find (hasId id') (attendances db)) /\
       deleteAttendance id db'
       = (Throw (AppError "Attendance record not found" 404), db')).
Proof.
  intros ND. split.
  - intros F. destruct (deleteAttendance_cases db id) as [[_ E] | (a & Fa & _)];
      [exact E | congruence].
  - intros a F. destruct (deleteAttendance_cases db id) as [[N _] | (a' & _ & E)];
      [congruence |].
    exists (setAttendances (removeFirst (hasId id)) db).
    assert (G : find (hasId id) (attendances (setAttendances (removeFirst (hasId id)) db))
                = None).
    { cbn [attendances setAttendances]. apply (find_removeFirst_none _id), ND. }
    split; [exact E |]. split; [exact G |]. split.
    + intros id' NE. cbn [attendances setAttendances]. unfold hasId.
      rewrite (removeFirst_filter _id id _ ND). apply find_filter_other, NE.
    + destruct (deleteAttendance_cases (setAttendances (removeFirst (hasId id)) db) id)
        as [[_ E'] | (a'' & Fa & _)]; [exact E' | congruence].
Qed.


Lemma countStatus_total (l : list IAttendance) :
  (countStatus PRESENT l + countStatus ABSENT l + countStatus LATE l
   + countStatus HALF_DAY l + countStatus WORK_FROM_HOME l)%nat = List.length l.
Proof.
  unfold countStatus. induction l as [| x l IH]; [reflexivity |].
  cbn [filter List.length]. destruct (status x); cbn [attendanceStatusEqb List.length]; lia.
Qed.

Lemma countStatus_only (s : AttendanceStatus) (l : list IAttendance) :
  (forall a, In a l -> status a = s) -> countStatus s l = List.length l.
Proof.
  unfold countStatus. induction l as [| x l IH]; intros H; [reflexivity |].
  cbn [filter]. rewrite (H x) by (left; reflexivity).
  replace (attendanceStatusEqb s s) with true by (destruct s; reflexivity).
  cbn [List.length]. rewrite IH; [reflexivity |]. intros a I. apply H. right. exact I.
Qed.

Lemma insertByDateDesc_perm (a : IAttendance) (l : list IAttendance) :
  Permutation (a :: l) (insertByDateDesc a l).
Proof.
  induction l as [| x l IH]; cbn [insertByDateDesc]; [apply Permutation_refl |].
  destruct (date x <=? date a); [apply Permutation_refl |].
  apply perm_trans with (x :: a :: l); [apply perm_swap | apply perm_skip, IH].
Qed.

Lemma sortByDateDesc_perm (l : list IAttendance) : Permutation l (sortByDateDesc l).
Proof.
  induction l as [| x l IH]; cbn [sortByDateDesc]; [apply perm_nil |].
  apply perm_trans with (x :: sortByDateDesc l); [apply perm_skip, IH |].
  apply insertByDateDesc_perm.
Qed.

(** X15: in the report the records are those that match the dates
    and the filters. The five counts by status
    add up to the total of the summary. Without a filter on the
    employee the total is the number of records returned, and under a
    filter on the status the count of that status is the total; with
    a filter on the employee the summary is all zeros, whatever
    records are returned. *)
Theorem getAttendanceReport_counts (db : Db) (startDate endDate : Z)
  (filters : AttendanceFilters) :
  exists records summary,
    getAttendanceReport startDate endDate filters db = (Ok (records, summary), db) /\
    Permutation records (filter (reportQuery startDate endDate filters) (attendances db)) /\
    (presentCount summary + absentCount summary + lateCount summary
     + halfDayCount summary + wfhCount summary)%nat = totalRecords summary /\
    (filter_employeeId filters = None ->
     totalRecords summary = List.length records /\
     (filter_status filters = Some PRESENT -> presentCount summary = totalRecords summary) /\
     (filter_status filters = Some ABSENT -> absentCount summary = totalRecords summary) /\
     (filter_status filters = Some LATE -> lateCount summary = totalRecords summary) /\
     (filter_status filters = Some HALF_DAY ->
      halfDayCount summary = totalRecords summary) /\
     (filter_status filters = Some WORK_FROM_HOME ->
      wfhCount summary = totalRecords summary)) /\
    (filter_employeeId filters <> None -> summary = mkSummaryCounts 0 0 0 0 0 0).
Proof.
  set (found := filter (reportQuery startDate endDate filters) (attendances db)).
  set (matched := filter (aggregateMatch startDate endDate filters) (attendances db)).
  exists (sortByDateDesc found), (reportSummary matched).
  split; [reflexivity |].
  split; [apply Permutation_sym, sortByDateDesc_perm |].
  split.
  { destruct matched as [| x l] eqn:M; [reflexivity |].
    cbn [reportSummary presentCount absentCount lateCount halfDayCount wfhCount
         totalRecords].
    apply countStatus_total. }
  split.
  - intros NoE.
    assert (Same : matched = found).
    { unfold matched, found. apply filter_ext. intros a.
      unfold aggregateMatch, reportQuery. rewrite NoE. reflexivity. }
    assert (L : List.length (sortByDateDesc found) = List.length found).
    { symmetry. apply Permutation_length, sortByDateDesc_perm. }
    assert (T : totalRecords (reportSummary matched) = List.length matched).
    { destruct matched; reflexivity. }
    assert (S : forall s, filter_status filters = Some s ->
                          forall a, In a matched -> status a = s).
    { intros s Fs a I. apply filter_In in I. destruct I as [_ Q].
      unfold aggregateMatch in Q. rewrite Fs in Q. apply andb_prop in Q.
      destruct Q as [_ Q]. destruct (status a), s; try discriminate Q; reflexivity. }
    split; [congruence |]. rewrite T.
    repeat split; intros Fs;
      (destruct matched as [| x l] eqn:M; [reflexivity |]);
      cbn [reportSummary presentCount absentCount lateCount halfDayCount wfhCount];
      apply countStatus_only; apply (S _ Fs).
  - intros E.
    assert (Z0 : matched = []).
    { unfold matched. apply filter_empty. intros a _. unfold aggregateMatch.
      destruct (filter_employeeId filters); [| congruence].
      rewrite andb_false_r. reflexivity. }
    rewrite Z0. reflexivity.
Qed.

Lemma existsb_find {A : Type} (p : A -> bool) (l : list A) :
  existsb p l = match find p l with Some _ => true | None => false end.
Proof.
  induction l as [| x l IH]; [reflexivity |].
  cbn [existsb find]. destruct (p x); [reflexivity | exact IH].
Qed.




End AttendanceFurther.

Section AttendanceFurtherWitnesses.

Import Mongo Model JsNumber Attendance AttendanceQueries AttendanceController.

Lemma attendance_errors_write_nothing_witness :
  snd (markAttendance 0 (Samples.clockIn 3%N Samples.nine) 3%N 100%N Samples.db1)
  = Samples.db1 /\
  snd (markCheckOut 100%N Samples.thirteen 1%N None Samples.db2) = Samples.db2 /\
  snd (deleteAttendance 7%N Samples.db2) = Samples.db2.
Proof.
  split; [| split].
  - apply (proj1 (attendance_errors_write_nothing 0 Samples.db1 _
                    (AppError "Employee not found" 404))
             (Samples.clockIn 3%N Samples.nine) 3%N 100%N).
    reflexivity.
  - apply (proj1 (proj2 (attendance_errors_write_nothing 0 Samples.db2 _
                           (AppError "Already checked out" 400)))
             100%N Samples.thirteen 1%N None).
    reflexivity.
  - apply (proj2 (proj2 (proj2 (attendance_errors_write_nothing 0 Samples.db2 _
                                  (AppError "Attendance record not found" 404))))
             7%N).
    reflexivity.
Defined.

Lemma attendance_writes_keep_unique_ids_witness :
  uniqueIds (snd (markAttendance 0 (Samples.clockIn 1%N Samples.nine) 1%N 100%N
                    Samples.db0)) /\
  uniqueIds (snd (deleteAttendance 100%N Samples.db2)).
Proof.
  split.
  - apply (proj1 (attendance_writes_keep_unique_ids 0 Samples.db0 _ uniqueIds_db0)
             (Samples.clockIn 1%N Samples.nine) 1%N 100%N Samples.openRecord).
    + intros [].
    + reflexivity.
  - apply (proj2 (proj2 (proj2 (attendance_writes_keep_unique_ids 0 Samples.db2 _
                                  (uniqueIds_one _ _))))
             100%N).
    reflexivity.
Defined.

End AttendanceFurtherWitnesses.

(** ** The attendance controller *)

Section ControllerFacts.

Import Mongo Model JsNumber Attendance AttendanceQueries AttendanceController.

Variable tz : Z.

Ltac run := unfold bind, ret, gets, modify, throw; cbn beta iota.

Lemma todayFilter_day (e : ObjectId) (d d' : Z) (a : IAttendance) :
  startOfDay tz d = startOfDay tz d' -> todayFilter tz e d a = todayFilter tz e d' a.
Proof.
  intros E. unfold todayFilter. rewrite E. reflexivity.
Qed.

Lemma find_day (e : ObjectId) (d d' : Z) (l : list IAttendance) :
  startOfDay tz d = startOfDay tz d' ->
  find (todayFilter tz e d) l = find (todayFilter tz e d') l.
Proof.
  intros E. apply find_ext. intros a. apply todayFilter_day, E.
Qed.

(** The note that [clockIn] hands to [markAttendance], [notes || ''],
    counts as the note of the request. *)
Lemma clockIn_note (n other : option string) :
  orElse (Some (match orElse n None with Some s => s | None => "" end)) other
  = orElse n other.
Proof.
  unfold orElse. destruct n as [s |]; cbn [truthyString]; [| reflexivity].
  destruct (String.eqb s "") eqn:E; cbn [negb truthyString]; [| rewrite E; reflexivity].
  reflexivity.
Qed.

Lemma clockIn_note_fits (n : option string) :
  fits (option_map Js.trim (Some (match orElse n None with Some s => s | None => "" end)))
  = fits (option_map Js.trim n).
Proof.
  unfold orElse. destruct n as [s |]; cbn [truthyString]; [| reflexivity].
  destruct (String.eqb s "") eqn:E; cbn [negb]; [| reflexivity].
  apply String.eqb_eq in E. subst s. reflexivity.
Qed.

(** X17: [clockIn] fails with 404 for an unknown user. For a known one
    it is refused by the validation, and writes nothing, when the note
    that the record is to carry, trimmed, has more than 500
    characters: the note of the request, or without one the note of
    the record of the day. Otherwise it succeeds: without a record of
    the day it creates one that starts now and reports [isUpdate =
    false]; with one it reports [isUpdate = true] together with the
    identifier and the check-in time of that record, not the time of
    the call, and adds no record. *)
Theorem clockIn_reports_session (db : Db) (now1 now2 : Z) (userId : ObjectId)
  (n : option string) (newId : ObjectId) :
  uniqueIds db ->
  startOfDay tz now2 = startOfDay tz now1 ->
  (find (fun u => N.eqb (user_id u) userId) (users db) = None ->
   clockIn tz now1 now2 userId n newId db = (Throw (AppError "User not found" 404), db))
  /\
  (forall u,
     find (fun u => N.eqb (user_id u) userId) (users db) = Some u ->
     match find (todayFilter tz userId (startOfDay tz now1)) (attendances db) with
     | Some existing =>
         (fits (option_map Js.trim (orElse n (notes existing))) = true ->
          exists resp db',
            clockIn tz now1 now2 userId n newId db = (Ok resp, db') /\
            in_isLoggedIn resp = true /\ in_fullName resp = fullName u /\
            in_status resp = PRESENT /\
            in_isUpdate resp = true /\ in_id resp = _id existing /\
            in_checkIn resp = checkIn existing /\
            List.length (attendances db') = List.length (attendances db))
         /\
         (fits (option_map Js.trim (orElse n (notes existing))) = false ->
          clockIn tz now1 now2 userId n newId db
          = (Throw (ValidationError None [("notes", "Notes cannot exceed 500 characters")]),
             db))
     | None =>
         (fits (option_map Js.trim n) = true ->
          exists resp db',
            clockIn tz now1 now2 userId n newId db = (Ok resp, db') /\
            in_isLoggedIn resp = true /\ in_fullName resp = fullName u /\
            in_status resp = PRESENT /\
            in_isUpdate resp = false /\ in_id resp = newId /\
            in_checkIn resp = now2 /\
            List.length (attendances db') = S (List.length (attendances db)))
         /\
         (fits (option_map Js.trim n) = false ->
          clockIn tz now1 now2 userId n newId db
          = (Throw (ValidationError (Some "Attendance")
                                    [("notes", "Notes cannot exceed 500 characters")]),
             db))
     end).
Proof.
  intros ND Day. split.
  - intros U. unfold clockIn, User_findById. run. rewrite U. reflexivity.
  - intros u U.
    set (d := {| data_employeeId := userId; data_checkIn := now2;
                 data_checkOut := None; data_status := None;
                 data_notes := Some (match orElse n None with
                                     | Some s => s
                                     | None => ""
                                     end) |}).
    assert (Same : find (todayFilter tz userId (startOfDay tz now1)) (attendances db)
                   = find (todayFilter tz (data_employeeId d)
                             (startOfDay tz (data_checkIn d))) (attendances db)).
    { cbn [d data_employeeId data_checkIn]. rewrite Day. reflexivity. }
    destruct (find (todayFilter tz userId (startOfDay tz now1)) (attendances db))
      as [existing |] eqn:F; symmetry in Same.
    + pose proof (markAttendance_again tz db d userId newId u existing ND U Same) as E.
      cbn [d data_notes] in E. rewrite clockIn_note in E. fold d in E.
      assert (C : clockIn tz now1 now2 userId n newId db
                  = match markAttendance tz d userId newId db with
                    | (Ok attendance, db') =>
                        (Ok {| in_message :=
                                 "Clock-in acknowledged - Using original check-in time for the day";
                               in_id := _id attendance;
                               in_checkIn := checkIn attendance;
                               in_date := date attendance;
                               in_status := status attendance;
                               in_notes := notes attendance;
                               in_isUpdate := true;
                               in_isLoggedIn := isLoggedIn attendance;
                               in_fullName := fullName u |}, db')
                    | (Throw e, db') => (Throw e, db')
                    end).
      { unfold clockIn, User_findById, getTodayAttendance. run. rewrite U.
        cbn beta iota. rewrite F. fold d.
        destruct (markAttendance tz d userId newId db) as [[r | e] db']; reflexivity. }
      rewrite C, E. split; intros Fi; rewrite Fi; [| reflexivity].
      destruct (reopened_fields d userId existing) as (Hi & _ & _ & Hc & _ & _ & Hs & Hl).
      eexists. eexists. split; [reflexivity |].
      cbn [in_isLoggedIn in_fullName in_status in_isUpdate in_id in_checkIn
             attendances setAttendances].
      rewrite length_replaceFirst. repeat split; assumption.
    + pose proof (markAttendance_first tz db d userId newId u U Same) as E.
      cbn [d data_notes] in E. rewrite clockIn_note_fits in E. fold d in E.
      assert (C : clockIn tz now1 now2 userId n newId db
                  = match markAttendance tz d userId newId db with
                    | (Ok attendance, db') =>
                        (Ok {| in_message :=
                                 "Clocked in successfully - First session of the day started";
                               in_id := _id attendance;
                               in_checkIn := checkIn attendance;
                               in_date := date attendance;
                               in_status := status attendance;
                               in_notes := notes attendance;
                               in_isUpdate := false;
                               in_isLoggedIn := isLoggedIn attendance;
                               in_fullName := fullName u |}, db')
                    | (Throw e, db') => (Throw e, db')
                    end).
      { unfold clockIn, User_findById, getTodayAttendance. run. rewrite U.
        cbn beta iota. rewrite F. fold d.
        destruct (markAttendance tz d userId newId db) as [[r | e] db']; reflexivity. }
      rewrite C, E. split; intros Fi; rewrite Fi; [| reflexivity].
      destruct (firstRecord_fields tz d userId newId) as (Hi & _ & _ & Hc & Hl).
      eexists. eexists. split; [reflexivity |].
      cbn [in_isLoggedIn in_fullName in_status in_isUpdate in_id in_checkIn
             attendances setAttendances].
      rewrite length_app. cbn [List.length].
      split; [exact Hl |]. split; [reflexivity |].
      split.
      { unfold firstRecord. destruct (preSave_fields
          (withNotes (newAttendance tz d userId newId) (setNotes (data_notes d))))
          as (_ & _ & _ & _ & _ & _ & S). rewrite S. reflexivity. }
      split; [reflexivity |]. split; [exact Hi |]. split; [exact Hc | lia].
Qed.

(** [clockOut] on a day whose first record is open. *)
Lemma clockOut_open (db : Db) (now1 now2 : Z) (userId : ObjectId) (n : option string)
  (r : IAttendance) :
  uniqueIds db ->
  find (todayFilter tz userId (startOfDay tz now1)) (attendances db) = Some r ->
  validDate (checkIn r) -> validDate now2 ->
  checkOut r = None -> (now2 <=? checkIn r) = false ->
  clockOut tz now1 now2 userId n db
  = if fits (closingNote (notes r) n)
    then (Ok {| out_id := _id r; out_firstClockIn := checkIn r;
                out_lastClockOut := Some now2;
                out_totalHoursToday := round2 (hoursBetween (checkIn r) now2);
                out_date := date r; out_status := status r;
                out_notes := closingNote (notes r) n;
                out_isLoggedIn := false |},
          setAttendances
            (replaceFirst (hasId (_id r)) (fun _ => preSave (checkedOut r now2 userId n))) db)
    else (Throw (ValidationError (Some "Attendance") notesRefused), db).
Proof.
  intros ND F Vc Vn C L.
  assert (I : In r (attendances db)) by (apply find_some in F; tauto).
  pose proof (find_has_unique _id _ _ ND I) as G.
  change (hasKey _id) with hasId in G.
  unfold clockOut, getTodayAttendance. run.
  rewrite F. cbn beta iota. rewrite L.
  apply Z.leb_gt in L.
  rewrite (markCheckOut_open db (_id r) r now2 userId n G Vc Vn C L).
  destruct (fits (closingNote (notes r) n)); [| reflexivity].
  cbn beta iota. rewrite preSave_notes, checkedOut_notes.
  destruct (checkedOut_fields r now2 userId n) as (Hi & _ & Hd & Hc & Ho & _ & Hl).
  cbn zeta in Hi, Hd, Hc, Ho, Hl. rewrite Hi, Hd, Hc, Ho, Hl.
  destruct (preSave_fields (checkedOut r now2 userId n)) as (_ & _ & _ & _ & _ & _ & Hs).
  rewrite Hs. reflexivity.
Qed.

(** [clockOut] on a day whose first record is closed. *)
Lemma clockOut_closed (db : Db) (now1 now2 : Z) (userId : ObjectId) (n : option string)
  (r : IAttendance) (out : Z) :
  uniqueIds db ->
  find (todayFilter tz userId (startOfDay tz now1)) (attendances db) = Some r ->
  checkOut r = Some out ->
  clockOut tz now1 now2 userId n db
  = (Throw (AppError (if now2 <=? checkIn r
                      then "Check-out time must be after check-in time"
                      else "Already checked out") 400), db).
Proof.
  intros ND F C.
  assert (I : In r (attendances db)) by (apply find_some in F; tauto).
  pose proof (find_has_unique _id _ _ ND I) as G.
  change (hasKey _id) with hasId in G.
  unfold clockOut, getTodayAttendance, markCheckOut, Attendance_findById. run.
  rewrite F. cbn beta iota. destruct (now2 <=? checkIn r) eqn:L; [reflexivity |].
  run. rewrite G. cbn beta iota. rewrite C. reflexivity.
Qed.

(** X18: [clockOut] works on the first record of the day. It fails
    with a 400 error, and writes nothing, when the day has no record,
    when the time is not after the check-in of that record, and when
    the record is closed already. Otherwise, for times that a [Date]
    can hold, it closes the record when the note that the check-out
    leaves on it has 500 characters at most, and the total it reports
    is the total that is stored: the hours from the check-in of the
    record to now, to two decimals, which for a session of a day at
    most is the number of the hundredths of an hour nearest to its
    length; when the note is longer the validation refuses the record
    and nothing is written. *)
Theorem clockOut_outcome (db : Db) (now1 now2 : Z) (userId : ObjectId)
  (n : option string) :
  uniqueIds db ->
  match find (todayFilter tz userId (startOfDay tz now1)) (attendances db) with
  | None =>
      clockOut tz now1 now2 userId n db
      = (Throw (AppError
                  "No attendance record found for today. Please clock in first." 400),
         db)
  | Some r =>
      if now2 <=? checkIn r
      then clockOut tz now1 now2 userId n db
           = (Throw (AppError "Check-out time must be after check-in time" 400), db)
      else
        match checkOut r with
        | Some _ =>
            clockOut tz now1 now2 userId n db
            = (Throw (AppError "Already checked out" 400), db)
        | None =>
            validDate (checkIn r) -> validDate now2 ->
            (fits (closingNote (notes r) n) = true ->
             exists resp db' stored,
               clockOut tz now1 now2 userId n db = (Ok resp, db') /\
               out_id resp = _id r /\ out_firstClockIn resp = checkIn r /\
               out_lastClockOut resp = Some now2 /\ out_isLoggedIn resp = false /\
               out_totalHoursToday resp = round2 (hoursBetween (checkIn r) now2) /\
               out_notes resp = closingNote (notes r) n /\
               find (hasId (_id r)) (attendances db') = Some stored /\
               checkOut stored = Some now2 /\
               totalHours stored = Some (out_totalHoursToday resp) /\
               users db' = users db /\
               (now2 - checkIn r <= 86400000 ->
                exists k, out_totalHoursToday resp = ofHundredths k /\
                          Z.abs (36000 * k - (now2 - checkIn r)) <= 18000))
            /\
            (fits (closingNote (notes r) n) = false ->
             clockOut tz now1 now2 userId n db
             = (Throw (ValidationError (Some "Attendance")
                                       [("notes", "Notes cannot exceed 500 characters")]),
                db))
        end
  end.
Proof.
  intros ND.
  destruct (find (todayFilter tz userId (startOfDay tz now1)) (attendances db))
    as [r |] eqn:F.
  2: { unfold clockOut, getTodayAttendance. run. rewrite F. reflexivity. }
  assert (I : In r (attendances db)) by (apply find_some in F; tauto).
  pose proof (find_has_unique _id _ _ ND I) as G.
  change (hasKey _id) with hasId in G.
  destruct (now2 <=? checkIn r) eqn:L.
  { unfold clockOut, getTodayAttendance. run. rewrite F. cbn beta iota.
    rewrite L. reflexivity. }
  destruct (checkOut r) as [out |] eqn:C.
  { rewrite (clockOut_closed db now1 now2 userId n r out ND F C), L. reflexivity. }
  intros Vc Vn.
  rewrite (clockOut_open db now1 now2 userId n r ND F Vc Vn C L).
  split; intros Fi; rewrite Fi; [| reflexivity].
  eexists. eexists. exists (preSave (checkedOut r now2 userId n)).
  split; [reflexivity |].
  cbn [out_id out_firstClockIn out_lastClockOut out_isLoggedIn out_totalHoursToday
       out_notes].
  do 6 (split; [reflexivity |]).
  split.
  { cbn [attendances setAttendances].
    apply (find_replaceFirst_self (hasId (_id r))
             (fun _ => preSave (checkedOut r now2 userId n)) _ r G).
    unfold hasId, hasKey. cbn. apply N.eqb_refl. }
  split; [reflexivity |]. split; [reflexivity |]. split; [reflexivity |].
  intros B. apply Z.leb_gt in L.
  rewrite (hoursBetween_duration (checkIn r) now2 Vc Vn)
    by (change (2 ^ 53) with 9007199254740992; lia).
  apply round2_of_duration. lia.
Qed.

(** A clock-in that carries no check-out leaves the record of the day
    open. *)
Lemma markAttendance_open (db db1 : Db) (d : MarkAttendanceData) (by_ newId : ObjectId)
  (r : IAttendance) :
  uniqueIds db -> data_checkOut d = None ->
  markAttendance tz d by_ newId db = (Ok r, db1) ->
  checkOut r = None.
Proof.
  intros ND C H.
  destruct (find (fun u => N.eqb (user_id u) (data_employeeId d)) (users db))
    as [u |] eqn:U.
  2: { rewrite (markAttendance_unknown tz db d by_ newId U) in H. discriminate H. }
  destruct (find (todayFilter tz (data_employeeId d) (startOfDay tz (data_checkIn d)))
                 (attendances db)) as [existing |] eqn:F.
  - rewrite (markAttendance_again tz db d by_ newId u existing ND U F) in H.
    destruct (fits _); [| discriminate H].
    injection H as <- _. apply (reopened_fields d by_ existing).
  - rewrite (markAttendance_first tz db d by_ newId u U F) in H.
    destruct (fits _); [| discriminate H].
    injection H as <- _. unfold firstRecord.
    destruct (preSave_fields
                (withNotes (newAttendance tz d by_ newId) (setNotes (data_notes d))))
      as (_ & _ & _ & _ & Co & _).
    rewrite Co. exact C.
Qed.

(** What a successful [clockIn] has done. *)
Lemma clockIn_inv (db db1 : Db) (now1 now2 : Z) (userId : ObjectId) (n : option string)
  (newId : ObjectId) (resp : ClockInResponse) :
  clockIn tz now1 now2 userId n newId db = (Ok resp, db1) ->
  exists d r,
    data_employeeId d = userId /\ data_checkIn d = now2 /\ data_checkOut d = None /\
    markAttendance tz d userId newId db = (Ok r, db1) /\
    in_id resp = _id r /\ in_checkIn resp = checkIn r /\ in_notes resp = notes r.
Proof.
  unfold clockIn, User_findById, getTodayAttendance. run.
  destruct (find (fun u => N.eqb (user_id u) userId) (users db)) as [u |];
    [| discriminate].
  cbn beta iota.
  match goal with
  | |- context [markAttendance tz ?d userId newId db] => set (data := d)
  end.
  destruct (markAttendance tz data userId newId db) as [[r | e] db'] eqn:E;
    [| discriminate].
  intros H. injection H as <- <-. exists data, r. repeat split. exact E.
Qed.

(** X19: a clock-out that follows a clock-in on the same day, at a time
    after the check-in that the clock-in reported, succeeds on the same
    record when the note that it leaves on the record has 500
    characters at most, for times that a [Date] can hold; its total is
    counted from that check-in, which is the first of the day. With a
    longer note it is refused by the validation and writes nothing. *)
Theorem clockIn_then_clockOut (db db1 : Db) (now1 now2 now3 now4 : Z)
  (userId newId : ObjectId) (n n' : option string) (resp : ClockInResponse) :
  uniqueIds db -> freshId newId db ->
  clockIn tz now1 now2 userId n newId db = (Ok resp, db1) ->
  startOfDay tz now3 = startOfDay tz now2 ->
  in_checkIn resp < now4 ->
  validDate (in_checkIn resp) -> validDate now4 ->
  (fits (closingNote (in_notes resp) n') = true ->
   exists out db2,
     clockOut tz now3 now4 userId n' db1 = (Ok out, db2) /\
     out_id out = in_id resp /\
     out_firstClockIn out = in_checkIn resp /\
     out_lastClockOut out = Some now4 /\
     out_isLoggedIn out = false /\
     out_notes out = closingNote (in_notes resp) n' /\
     out_totalHoursToday out = round2 (hoursBetween (in_checkIn resp) now4))
  /\
  (fits (closingNote (in_notes resp) n') = false ->
   clockOut tz now3 now4 userId n' db1
   = (Throw (ValidationError (Some "Attendance")
                             [("notes", "Notes cannot exceed 500 characters")]), db1)).
Proof.
  intros ND FR H Day Late Vc Vn.
  destruct (clockIn_inv db db1 now1 now2 userId n newId resp H)
    as (d & r & De & Dc & Do & M & Ei & Ec & En).
  destruct (markAttendance_post tz db db1 d userId newId r ND FR M) as (ND1 & _ & F).
  pose proof (markAttendance_open db db1 d userId newId r ND Do M) as C.
  rewrite De, Dc in F.
  assert (F' : find (todayFilter tz userId (startOfDay tz now3)) (attendances db1)
               = Some r).
  { rewrite <- F. apply find_day. rewrite Day. reflexivity. }
  assert (L : (now4 <=? checkIn r) = false) by (apply Z.leb_gt; lia).
  rewrite Ec in Vc.
  rewrite (clockOut_open db1 now3 now4 userId n' r ND1 F' Vc Vn C L).
  rewrite Ei, Ec, En.
  split; intros Fi; rewrite Fi; [| reflexivity].
  eexists. eexists. split; [reflexivity |].
  cbn [out_id out_firstClockIn out_lastClockOut out_isLoggedIn out_totalHoursToday
       out_notes].
  repeat split.
Qed.

(** What [getCurrentStatus] answers, by the records of the day. *)
Lemma getCurrentStatus_flags (db : Db) (now1 now2 : Z) (userId : ObjectId) :
  exists resp,
    getCurrentStatus tz now1 now2 userId db = (Ok resp, db) /\
    st_canClockIn resp = negb (st_canClockOut resp) /\
    st_canClockOut resp
    = existsb (fun a => negb (isClosed a))
        (filter (todayFilter tz userId (startOfDay tz now1)) (attendances db)) /\
    (st_status resp = not_started <->
     filter (todayFilter tz userId (startOfDay tz now1)) (attendances db) = []) /\
    (st_status resp = clocked_in <-> st_canClockOut resp = true) /\
    List.length (st_sessions resp)
    = List.length (filter (todayFilter tz userId (startOfDay tz now1))
                          (attendances db)) /\
    daily_sessionsCount (st_dailySummary resp) = List.length (st_sessions resp).
Proof.
  unfold getCurrentStatus, getAllTodayAttendance. run.
  set (today := filter (todayFilter tz userId (startOfDay tz now1)) (attendances db)).
  pose proof (sortByCheckIn_perm today) as P.
  assert (X : existsb (fun a => negb (isClosed a)) today
              = existsb (fun a => negb (isClosed a)) (sortByCheckIn today)).
  { apply eq_true_iff_eq. rewrite !existsb_exists.
    split; intros (a & I & Q); exists a; (split; [| exact Q]).
    - apply (Permutation_in _ P I).
    - apply (Permutation_in _ (Permutation_sym P) I). }
  rewrite X. pose proof (Permutation_length P) as LP.
  destruct (sortByCheckIn today) as [| x s] eqn:S.
  - eexists. split; [reflexivity |].
    cbn [st_canClockIn st_canClockOut st_status st_sessions st_dailySummary
           daily_sessionsCount existsb negb List.length].
    destruct today; [| discriminate LP].
    repeat split; intros Q; (reflexivity || discriminate Q).
  - eexists. split; [reflexivity |].
    cbn [st_canClockIn st_canClockOut st_status st_sessions st_dailySummary
           daily_sessionsCount].
    rewrite existsb_find, length_map.
    destruct (find (fun record => negb (isClosed record)) (x :: s)); cbn [negb].
    all: split; [reflexivity |]; split; [reflexivity |];
      split; [split; intros Q; [discriminate Q | rewrite Q in LP; discriminate LP] |];
      split; [split; intros Q; (reflexivity || discriminate Q) |];
      split; [symmetry; exact LP | reflexivity].
Qed.

(** X21: [getCurrentStatus] writes nothing and answers by the records
    of the user for the day: [not_started] exactly when there is none,
    [clocked_in] exactly when one of them has no check-out, and
    [available] exactly when there are some and all are closed. The
    user can clock out exactly when the status is [clocked_in], and
    can clock in exactly when not. *)
Theorem getCurrentStatus_kinds (db : Db) (now1 now2 : Z) (userId : ObjectId) :
  exists resp,
    getCurrentStatus tz now1 now2 userId db = (Ok resp, db) /\
    (st_status resp = not_started <->
     forall a, In a (attendances db) ->
               todayFilter tz userId (startOfDay tz now1) a = false) /\
    (st_status resp = clocked_in <->
     exists a, In a (attendances db) /\
               todayFilter tz userId (startOfDay tz now1) a = true /\
               checkOut a = None) /\
    (st_status resp = available <->
     (exists a, In a (attendances db) /\
                todayFilter tz userId (startOfDay tz now1) a = true) /\
     forall a, In a (attendances db) ->
               todayFilter tz userId (startOfDay tz now1) a = true ->
               checkOut a <> None) /\
    (st_canClockOut resp = true <-> st_status resp = clocked_in) /\
    st_canClockIn resp = negb (st_canClockOut resp).
Proof.
  destruct (getCurrentStatus_flags db now1 now2 userId)
    as (resp & H & In_ & Out & NS & CI & _).
  exists resp. split; [exact H |].
  assert (Empty : filter (todayFilter tz userId (startOfDay tz now1)) (attendances db) = []
                  <-> forall a, In a (attendances db) ->
                                todayFilter tz userId (startOfDay tz now1) a = false).
  { split.
    - intros E a I. destruct (todayFilter tz userId (startOfDay tz now1) a) eqn:Q;
        [| reflexivity].
      assert (X : In a (filter (todayFilter tz userId (startOfDay tz now1))
                               (attendances db))) by (apply filter_In; tauto).
      rewrite E in X. contradiction X.
    - intros A.
      destruct (filter (todayFilter tz userId (startOfDay tz now1)) (attendances db))
        as [| x l] eqn:E; [reflexivity |].
      assert (X : In x (filter (todayFilter tz userId (startOfDay tz now1))
                               (attendances db))) by (rewrite E; left; reflexivity).
      apply filter_In in X. destruct X as [I Q]. rewrite (A x I) in Q. discriminate Q. }
  assert (Open : st_canClockOut resp = true
                 <-> exists a, In a (attendances db) /\
                               todayFilter tz userId (startOfDay tz now1) a = true /\
                               checkOut a = None).
  { rewrite Out, existsb_exists. split.
    - intros (a & I & Q). apply filter_In in I. exists a.
      unfold isClosed in Q. destruct (checkOut a); [discriminate Q | tauto].
    - intros (a & I & Q & C). exists a. split; [apply filter_In; tauto |].
      unfold isClosed. rewrite C. reflexivity. }
  split; [rewrite NS; exact Empty |].
  split; [rewrite CI; exact Open |].
  split; [| split; [symmetry; exact CI | exact In_]].
  split.
  - intros Av. split.
    + destruct (filter (todayFilter tz userId (startOfDay tz now1)) (attendances db))
        as [| x l] eqn:E.
      * pose proof (proj2 NS eq_refl) as St. congruence.
      * assert (X : In x (filter (todayFilter tz userId (startOfDay tz now1))
                                 (attendances db))) by (rewrite E; left; reflexivity).
        apply filter_In in X. exists x. exact X.
    + intros a I Q C.
      assert (Y : st_status resp = clocked_in).
      { apply CI, Open. exists a. tauto. }
      congruence.
  - intros [(a & I & Q) Closed].
    destruct (st_status resp) eqn:St; [| | reflexivity].
    + pose proof (proj1 Empty (proj1 NS eq_refl)) as None_.
      rewrite (None_ a I) in Q. discriminate Q.
    + destruct (proj1 Open (proj1 CI eq_refl)) as (b & Ib & Qb & Cb).
      contradiction (Closed b Ib Qb Cb).
Qed.

(** X20: [getCurrentStatus] and [clockOut] agree on a refusal: when
    the status of the day says that the user cannot clock out, a
    clock-out at that moment fails with a 400 error and writes nothing. *)
Theorem status_refusal_is_honoured (db : Db) (now1 now2 : Z) (userId : ObjectId)
  (n : option string) (resp : StatusResponse) :
  uniqueIds db ->
  getCurrentStatus tz now1 now2 userId db = (Ok resp, db) ->
  st_canClockOut resp = false ->
  exists msg,
    clockOut tz now1 now2 userId n db = (Throw (AppError msg 400), db).
Proof.
  intros ND H No.
  destruct (getCurrentStatus_flags db now1 now2 userId) as (resp' & H' & _ & E & _).
  assert (R : resp' = resp) by congruence. subst resp'.
  rewrite No in E. symmetry in E.
  destruct (find (todayFilter tz userId (startOfDay tz now1)) (attendances db))
    as [r |] eqn:F.
  - assert (C : isClosed r = true).
    { apply negb_false_iff.
      destruct (negb (isClosed r)) eqn:Q; [| reflexivity].
      assert (Y : existsb (fun a => negb (isClosed a))
                    (filter (todayFilter tz userId (startOfDay tz now1))
                            (attendances db)) = true).
      { apply existsb_exists. exists r. split; [| exact Q].
        apply filter_In. apply find_some in F. exact F. }
      congruence. }
    unfold isClosed in C. destruct (checkOut r) as [out |] eqn:O; [| discriminate C].
    eexists. apply (clockOut_closed db now1 now2 userId n r out ND F O).
  - eexists. unfold clockOut, getTodayAttendance. run. rewrite F. reflexivity.
Qed.

Lemma filter_twice {A : Type} (p q : A -> bool) (l : list A) :
  filter p (filter q l) = filter (fun a => q a && p a) l.
Proof.
  induction l as [| x l IH]; [reflexivity |].
  cbn [filter]. destruct (q x); cbn [andb filter]; rewrite IH; reflexivity.
Qed.

Lemma unique_by_id (l : list IAttendance) (a b : IAttendance) :
  NoDup (map _id l) -> In a l -> In b l -> _id a = _id b -> a = b.
Proof.
  intros ND Ia Ib E.
  pose proof (find_has_unique _id l a ND Ia) as Fa.
  pose proof (find_has_unique _id l b ND Ib) as Fb.
  rewrite E in Fa. congruence.
Qed.

(** The deletions of [resetTodayAttendance], on records of the
    collection: each one succeeds, and together they remove the records
    that have one of the identifiers. *)
Lemma deleteAll_removes (records : list IAttendance) :
  forall db : Db,
    uniqueIds db -> NoDup (map _id records) ->
    (forall r, In r records -> In r (attendances db)) ->
    exists db',
      deleteAll records None db = (Ok tt, db') /\
      attendances db'
      = filter (fun a => negb (existsb (fun r => hasId (_id r) a) records))
               (attendances db) /\
      users db' = users db.
Proof.
  induction records as [| r rest IH]; intros db ND NR Sub.
  - exists db. split; [reflexivity |]. split; [| reflexivity].
    cbn [existsb negb]. symmetry. apply forallb_filter_id.
    apply forallb_forall. reflexivity.
  - cbn [map] in NR. inversion NR as [| k ks NI NR']; subst.
    destruct (deleteAttendance_cases db (_id r)) as [[N _] | (a & _ & E)].
    { destruct (find_has_in _id _ _ (Sub r (or_introl eq_refl))) as [b Fb].
      change (hasKey _id) with hasId in Fb. congruence. }
    set (db1 := setAttendances (removeFirst (hasId (_id r))) db) in *.
    assert (A1 : attendances db1
                 = filter (fun a => negb (hasId (_id r) a)) (attendances db)).
    { unfold db1. destruct db as [us atts rs ps]. cbn [attendances setAttendances].
      apply (removeFirst_filter _id), ND. }
    assert (ND1 : uniqueIds db1).
    { unfold uniqueIds. rewrite A1. apply NoDup_map_filter, ND. }
    assert (Sub1 : forall r', In r' rest -> In r' (attendances db1)).
    { intros r' I. rewrite A1. apply filter_In. split; [apply Sub; right; exact I |].
      apply negb_true_iff. unfold hasId, hasKey. apply N.eqb_neq. intros Q.
      apply NI. rewrite <- Q. apply in_map, I. }
    destruct (IH db1 ND1 NR' Sub1) as (db' & D & A' & U').
    exists db'. split; [| split].
    + cbn [deleteAll]. unfold bind, tryCatch, ret. rewrite E. cbn beta iota. exact D.
    + rewrite A', A1, filter_twice. apply filter_ext. intros y.
      cbn [existsb]. rewrite negb_orb. reflexivity.
    + rewrite U'. unfold db1. destruct db; reflexivity.
Qed.

(** X22: [resetTodayAttendance] removes the records of the user for
    the day and no others, and leaves the users as they were; it
    reports one deleted session for each record removed, and reports
    nothing when the day has no record. *)
Theorem resetTodayAttendance_removes_the_day (db : Db) (now : Z) (userId : ObjectId) :
  uniqueIds db ->
  exists out db',
    resetTodayAttendance tz now userId db = (Ok out, db') /\
    attendances db'
    = filter (fun a => negb (todayFilter tz userId (startOfDay tz now) a))
             (attendances db) /\
    users db' = users db /\
    match out with
    | None => filter (todayFilter tz userId (startOfDay tz now)) (attendances db) = []
    | Some deleted =>
        Permutation (map deleted_id deleted)
          (map _id (filter (todayFilter tz userId (startOfDay tz now)) (attendances db)))
        /\ deleted <> []
    end.
Proof.
  intros ND.
  unfold resetTodayAttendance, getAllTodayAttendance. run.
  set (today := filter (todayFilter tz userId (startOfDay tz now)) (attendances db)).
  pose proof (sortByCheckIn_perm today) as P.
  assert (NR : NoDup (map _id (sortByCheckIn today))).
  { apply (Permutation_NoDup (Permutation_map _id P)).
    apply NoDup_map_filter, ND. }
  assert (Sub : forall r, In r (sortByCheckIn today) ->
                          In r (attendances db) /\
                          todayFilter tz userId (startOfDay tz now) r = true).
  { intros r I. apply (Permutation_in _ (Permutation_sym P)) in I.
    apply filter_In in I. exact I. }
  assert (Sup : forall a, In a today -> In a (sortByCheckIn today)).
  { intros a I. apply (Permutation_in _ P I). }
  destruct (deleteAll_removes (sortByCheckIn today) db ND NR
              (fun r I => proj1 (Sub r I))) as (db' & D & A' & U').
  assert (Same : filter (fun a => negb (existsb (fun r => hasId (_id r) a)
                                          (sortByCheckIn today))) (attendances db)
                 = filter (fun a => negb (todayFilter tz userId (startOfDay tz now) a))
                          (attendances db)).
  { apply filter_ext_in. intros a Ia. f_equal.
    apply eq_true_iff_eq. rewrite existsb_exists. split.
    - intros (r & Ir & Q). destruct (Sub r Ir) as [Ir' Tr].
      unfold hasId, hasKey in Q. apply N.eqb_eq in Q.
      rewrite (unique_by_id _ a r ND Ia Ir' Q). exact Tr.
    - intros T. exists a. split; [apply Sup, filter_In; tauto |].
      unfold hasId, hasKey. apply N.eqb_refl. }
  destruct (sortByCheckIn today) as [| x s] eqn:S.
  - exists None, db.
    assert (E : today = []).
    { apply Permutation_sym, Permutation_nil in P. exact P. }
    split; [reflexivity |]. split; [| split; [reflexivity | exact E]].
    rewrite <- Same. cbn [existsb negb]. symmetry. apply forallb_filter_id.
    apply forallb_forall. reflexivity.
  - eexists. exists db'. split; [rewrite D; reflexivity |].
    split; [rewrite A'; exact Same |]. split; [exact U' |].
    split; [| discriminate].
    rewrite map_map. cbn [deleted_id]. apply Permutation_sym, Permutation_map, P.
Qed.

End ControllerFacts.

(** ** Sorted listings *)

Section InsertionSort.

Context {A : Type} (leb : A -> A -> bool) (ins : A -> list A -> list A).

Hypothesis ins_eq : forall a l,
  ins a l = match l with
            | [] => [a]
            | x :: l' => if leb a x then a :: l else x :: ins a l'
            end.

Hypothesis leb_total : forall a b, leb a b = false -> leb b a = true.

Lemma ins_sorted (a : A) (l : list A) :
  Sorted (fun x y => leb x y = true) l -> Sorted (fun x y => leb x y = true) (ins a l).
Proof.
  induction l as [| x l IH]; intros S; rewrite ins_eq.
  - repeat constructor.
  - destruct (leb a x) eqn:L.
    + constructor; [exact S |]. constructor. exact L.
    + inversion S as [| ? ? S' H]; subst. constructor; [apply IH, S' |].
      rewrite ins_eq. destruct l as [| y l'].
      * constructor. apply leb_total, L.
      * destruct (leb a y); constructor; [apply leb_total, L |].
        inversion H; subst. assumption.
Qed.

End InsertionSort.

Lemma Sorted_map {A B : Type} (f : A -> B) (R : B -> B -> Prop) (l : list A) :
  Sorted (fun x y => R (f x) (f y)) l -> Sorted R (map f l).
Proof.
  induction 1 as [| x l S IH H]; cbn [map]; constructor; [exact IH |].
  destruct H; cbn [map]; constructor. assumption.
Qed.

Section ListingFacts.

Import Mongo Model RoleService RoleQueries UserService.

Lemma sortLeb_total (a b : IUser) : sortLeb a b = false -> sortLeb b a = true.
Proof.
  unfold sortLeb. intros H. apply orb_false_iff in H. destruct H as [L E].
  apply Z.ltb_ge in L. apply orb_true_iff.
  destruct (role b <? role a)%Z eqn:L'; [left; reflexivity | right].
  apply Z.ltb_ge in L'. assert (Q : role a = role b) by lia.
  rewrite Q, Z.eqb_refl in *. cbn [andb] in *.
  destruct (String.leb_total (fullName a) (fullName b)); congruence.
Qed.

Lemma roleLeb_total (a b : IRole) : roleLeb a b = false -> roleLeb b a = true.
Proof.
  unfold roleLeb. intros H. apply orb_false_iff in H. destruct H as [L E].
  apply Z.ltb_ge in L. apply orb_true_iff.
  destruct (level b <? level a)%Z eqn:L'; [left; reflexivity | right].
  apply Z.ltb_ge in L'. assert (Q : level a = level b) by lia.
  rewrite Q, Z.eqb_refl in *. cbn [andb] in *.
  destruct (String.leb_total (name a) (name b)); congruence.
Qed.

Lemma sortUsers_sorted (l : list IUser) :
  Sorted (fun x y => sortLeb x y = true) (sortUsers l).
Proof.
  induction l as [| x l IH]; cbn [sortUsers]; [constructor |].
  apply (ins_sorted sortLeb insertSorted); [| exact sortLeb_total | exact IH].
  intros a [| y l']; reflexivity.
Qed.

Lemma sortRoles_sorted (l : list IRole) :
  Sorted (fun x y => roleLeb x y = true) (sortRoles l).
Proof.
  induction l as [| x l IH]; cbn [sortRoles]; [constructor |].
  apply (ins_sorted roleLeb insertRole); [| exact roleLeb_total | exact IH].
  intros a [| y l']; reflexivity.
Qed.

Lemma insertRole_perm (r : IRole) (l : list IRole) :
  Permutation (r :: l) (insertRole r l).
Proof.
  induction l as [| x l IH]; cbn [insertRole]; [apply Permutation_refl |].
  destruct (roleLeb r x); [apply Permutation_refl |].
  apply perm_trans with (x :: r :: l); [apply perm_swap | apply perm_skip, IH].
Qed.

Lemma sortRoles_perm (l : list IRole) : Permutation l (sortRoles l).
Proof.
  induction l as [| x l IH]; cbn [sortRoles]; [apply perm_nil |].
  apply perm_trans with (x :: sortRoles l); [apply perm_skip, IH |].
  apply insertRole_perm.
Qed.

(** X23: the list that [getUsersAboveRole] returns is in ascending
    order of role, and among users of one role in ascending order of
    full name. *)
Theorem getUsersAboveRole_sorted (db : Db) (role_ : Z) (code : string) :
  exists out,
    getUsersAboveRole role_ code db = (Ok out, db) /\
    Sorted (fun a b => summary_role a < summary_role b \/
                       summary_role a = summary_role b /\
                       String.leb (summary_fullName a) (summary_fullName b) = true)
           out.
Proof.
  eexists. split; [reflexivity |].
  apply Sorted_map.
  eapply Sorted_ind with (P := fun l => Sorted _ l);
    [constructor | | apply (sortUsers_sorted (filter (aboveRoleFilter role_ code) (users db)))].
  intros a l _ S H. constructor; [exact S |].
  destruct H as [| b l' H]; constructor.
  cbn [summary summary_role summary_fullName]. unfold sortLeb in H.
  apply orb_true_iff in H. destruct H as [H | H].
  - left. apply Z.ltb_lt, H.
  - right. apply andb_true_iff in H. destruct H as [E L].
    split; [apply Z.eqb_eq, E | exact L].
Qed.

(** X24: [getAllRoles] returns the roles of the organization, without
    the system roles if they are not asked for, and [getRolesByLevel]
    the roles of every organization that are not system roles and are
    at the level or below it. Both lists are in ascending order of
    level, then of name, and hold each such role once per document,
    with its permissions populated: in place of its references, the
    permission documents that they name. Nothing is written. The
    organization is the one whose code is the given code in upper
    case and trimmed; the code is taken to be made of characters
    below 128. *)
Theorem role_listings (db : Db) (code : string) (includeSystemRoles : bool)
  (maxLevel : Z) :
  Js.isAscii code = true ->
  (exists rs,
     getAllRoles code includeSystemRoles db
     = (Ok (map (populateRole (permissionDocs db)) rs), db) /\
     Permutation rs (filter (allRolesFilter code includeSystemRoles) (roles db)) /\
     Sorted (fun a b => roleLeb a b = true) rs /\
     forall r, In r rs <->
               In r (roles db) /\ organizationCode r = Js.trim (Js.toUpperCase code) /\
               (includeSystemRoles = false -> isSystemRole r = false))
  /\
  (exists rs,
     getRolesByLevel maxLevel db = (Ok (map (populateRole (permissionDocs db)) rs), db) /\
     Permutation rs (filter (byLevelFilter maxLevel) (roles db)) /\
     Sorted (fun a b => roleLeb a b = true) rs /\
     forall r, In r rs <->
               In r (roles db) /\ level r <= maxLevel /\ isSystemRole r = false)
  /\
  (forall r p,
     In p (populated_permissions (populateRole (permissionDocs db) r)) <->
     exists id, In id (permissions r) /\
                find (fun q => N.eqb (permission_id q) id) (permissionDocs db) = Some p).
Proof.
  intros _. split; [| split].
  - exists (sortRoles (filter (allRolesFilter code includeSystemRoles) (roles db))).
    split; [reflexivity |].
    split; [apply Permutation_sym, sortRoles_perm |].
    split; [apply sortRoles_sorted |].
    intros r. split.
    + intros I. apply (Permutation_in _ (Permutation_sym (sortRoles_perm _))) in I.
      apply filter_In in I. destruct I as [I Q]. unfold allRolesFilter in Q.
      apply andb_true_iff in Q. destruct Q as [O S]. apply String.eqb_eq in O.
      unfold setOrganizationCode in O. rewrite toUpperCase_idempotent in O.
      split; [exact I |]. split; [exact O |]. intros ->. cbn [orb] in S.
      apply negb_true_iff, S.
    + intros (I & O & S). apply (Permutation_in _ (sortRoles_perm _)).
      apply filter_In. split; [exact I |]. unfold allRolesFilter.
      apply andb_true_iff. split.
      * apply String.eqb_eq. unfold setOrganizationCode.
        rewrite toUpperCase_idempotent. exact O.
      * destruct includeSystemRoles; [reflexivity |]. rewrite (S eq_refl). reflexivity.
  - exists (sortRoles (filter (byLevelFilter maxLevel) (roles db))).
    split; [reflexivity |].
    split; [apply Permutation_sym, sortRoles_perm |].
    split; [apply sortRoles_sorted |].
    intros r. split.
    + intros I. apply (Permutation_in _ (Permutation_sym (sortRoles_perm _))) in I.
      apply filter_In in I. destruct I as [I Q]. unfold byLevelFilter in Q.
      apply andb_true_iff in Q. destruct Q as [L S].
      split; [exact I |]. split; [apply Z.leb_le, L | apply negb_true_iff, S].
    + intros (I & L & S). apply (Permutation_in _ (sortRoles_perm _)).
      apply filter_In. split; [exact I |]. unfold byLevelFilter.
      apply andb_true_iff. split; [apply Z.leb_le, L | rewrite S; reflexivity].
  - intros r p. cbn [populated_permissions populateRole]. apply populate_In.
Qed.

End ListingFacts.

(** ** Roles and permissions *)

Section RoleFurther.

Import Mongo Model RoleService RoleQueries PermissionService.

Ltac run := unfold bind, ret, gets, modify, throw, tryCatch; cbn beta iota.

(** [getRoleById] by what its query finds. *)
Lemma getRoleById_cases (db : Db) (roleId : IdString) (id : ObjectId) (code : string) :
  idOf roleId = Some id ->
  getRoleById roleId code db
  = match find (fun x => RoleService.hasId id x
                         && String.eqb (organizationCode x)
                                       (Js.trim (Js.toUpperCase code)))
               (roles db) with
    | Some r => (Ok (populateRole (permissionDocs db) r), db)
    | None => (Throw (ApiError "Role not found" 404), db)
    end.
Proof.
  intros Id. unfold getRoleById, Role_findInOrganization, Role_findOne. run.
  rewrite (castObjectId_idOf roleId id db Id). cbn beta iota.
  rewrite setOrganizationCode_upper.
  destruct (find _ (roles db)); reflexivity.
Qed.

(** X25: [getRoleById] answers within one organization: the role it
    returns is a stored role with the identifier asked for, in any
    spelling, and the organization code of the caller in upper case
    and trimmed, with its permissions populated: in place of its
    references, the permission documents that they name. A role that
    exists under another code is reported as not found, with the same
    404 error as a role that does not exist; an identifier that is not
    an ObjectId gives the 500 error. Nothing is written. The code is
    taken to be made of characters below 128. *)
Theorem getRoleById_isolation (db : Db) (roleId : IdString) (code : string) :
  Js.isAscii code = true ->
  (forall out db',
     getRoleById roleId code db = (Ok out, db') ->
     db' = db /\
     exists r,
       In r (roles db) /\ idOf roleId = Some (role_id r) /\
       organizationCode r = Js.trim (Js.toUpperCase code) /\
       out = populateRole (permissionDocs db) r)
  /\
  (forall r,
     NoDup (map role_id (roles db)) ->
     In r (roles db) -> idOf roleId = Some (role_id r) ->
     organizationCode r = Js.trim (Js.toUpperCase code) ->
     getRoleById roleId code db = (Ok (populateRole (permissionDocs db) r), db))
  /\
  (forall id,
     idOf roleId = Some id ->
     (forall r, In r (roles db) -> role_id r = id ->
                organizationCode r <> Js.trim (Js.toUpperCase code)) ->
     getRoleById roleId code db = (Throw (ApiError "Role not found" 404), db))
  /\
  (forall s,
     roleId = Malformed s ->
     getRoleById roleId code db = (Throw (ApiError "Failed to fetch role" 500), db))
  /\
  (forall r p,
     In p (populated_permissions (populateRole (permissionDocs db) r)) <->
     exists id, In id (permissions r) /\
                find (fun q => N.eqb (permission_id q) id) (permissionDocs db) = Some p).
Proof.
  intros _. refine (conj _ (conj _ (conj _ (conj _ _)))).
  - intros out db' H.
    destruct (idOf roleId) as [id |] eqn:Id;
      [| destruct roleId; try discriminate Id; discriminate H].
    rewrite (getRoleById_cases db roleId id code Id) in H.
    destruct (find _ (roles db)) as [x |] eqn:F; [| discriminate H].
    injection H as <- <-. apply find_some in F. destruct F as [I Q].
    apply andb_true_iff in Q. destruct Q as [K O].
    unfold RoleService.hasId, hasKey in K. apply N.eqb_eq in K.
    apply String.eqb_eq in O. split; [reflexivity |]. exists x. rewrite K. tauto.
  - intros r ND I Id O. rewrite (getRoleById_cases db roleId (role_id r) code Id).
    pose proof (find_has_unique role_id (roles db) r ND I) as G.
    assert (F : find (fun x => RoleService.hasId (role_id r) x
                               && String.eqb (organizationCode x)
                                             (Js.trim (Js.toUpperCase code)))
                     (roles db) = Some r).
    { revert G. unfold RoleService.hasId. generalize (hasKey role_id (role_id r)).
      intros q G. induction (roles db) as [| x l IH]; [discriminate G |].
      cbn [find] in *. destruct (q x) eqn:Q.
      - injection G as ->. rewrite O, String.eqb_refl. reflexivity.
      - cbn [andb]. apply IH; [| | exact G].
        + cbn [map] in ND. inversion ND; assumption.
        + apply find_some in G. tauto. }
    rewrite F. reflexivity.
  - intros id Id No. rewrite (getRoleById_cases db roleId id code Id).
    rewrite find_none_iff; [reflexivity |].
    intros r I. apply andb_false_iff.
    unfold RoleService.hasId, hasKey. destruct (N.eqb (role_id r) id) eqn:K.
    + right. apply String.eqb_neq. apply No; [exact I | apply N.eqb_eq, K].
    + left. reflexivity.
  - intros s ->. reflexivity.
  - intros r p. cbn [populated_permissions populateRole]. apply populate_In.
Qed.




(** The cast of a list of identifiers gives the identifiers that the
    strings name, or fails on one that names none. *)
Lemma castObjectIds_cases (l : list IdString) (db : Db) :
  (exists ids, castObjectIds l db = (Ok ids, db) /\
               Forall2 (fun s i => idOf s = Some i) l ids) \/
  (exists s, castObjectIds l db = (Throw (CastError s), db)).
Proof.
  induction l as [| x l IH]; [left; exists []; split; [reflexivity | constructor] |].
  destruct (idOf x) as [i |] eqn:Ix.
  - destruct IH as [(ids & E & F) | (s & E)].
    + left. exists (i :: ids). split; [| constructor; assumption].
      cbn [castObjectIds]. run. rewrite (castObjectId_idOf x i db Ix). cbn beta iota.
      rewrite E. reflexivity.
    + right. exists s. cbn [castObjectIds]. run.
      rewrite (castObjectId_idOf x i db Ix). cbn beta iota. rewrite E. reflexivity.
  - right. destruct x as [i | i sp | v]; try discriminate Ix. exists v. reflexivity.
Qed.

Lemma Forall2_idOf_In (l : list IdString) (ids : list ObjectId) (i : ObjectId) :
  Forall2 (fun s i => idOf s = Some i) l ids ->
  (In i ids <-> exists s, In s l /\ idOf s = Some i).
Proof.
  induction 1 as [| s j l ids E _ IH]; cbn [In].
  - split; [contradiction | intros (s & [] & _)].
  - rewrite IH. split.
    + intros [<- | (s' & I & E')]; [exists s; tauto | exists s'; tauto].
    + intros (s' & [<- | I] & E'); [left; congruence | right; exists s'; tauto].
Qed.

Lemma roleErrors_withPermissions (r : IRole) (ps : list ObjectId) :
  roleErrors (withPermissions r ps) = roleErrors r.
Proof. reflexivity. Qed.

(** [role.save()] after a change of the permissions of a role that
    was found. *)
Lemma savePermissions_found (db : Db) (id : ObjectId) (role : IRole)
  (ps : list ObjectId) :
  find (RoleService.hasId id) (roles db) = Some role ->
  let role' := withPermissions role ps in
  Role_savePermissions role' db
  = match roleErrors role with
    | [] => (Ok tt, setRoles (replaceFirst (RoleService.hasId id) (fun _ => role')) db)
    | e :: errors => (Throw (ValidationError (Some "Role") (e :: errors)), db)
    end
  /\ find (RoleService.hasId id)
       (replaceFirst (RoleService.hasId id) (fun _ => role') (roles db)) = Some role'.
Proof.
  intros F role'.
  destruct (find_has_key role_id _ _ _ F) as [K _].
  split.
  - unfold Role_savePermissions, validate, validation, Role_findOne. run.
    change (roleErrors role') with (roleErrors role).
    destruct (roleErrors role) as [| e errors]; [| reflexivity]. cbn beta iota.
    cbn [role' role_id withPermissions]. rewrite K, F. reflexivity.
  - apply (find_replaceFirst_self (RoleService.hasId id) (fun _ => role') (roles db) role F).
    unfold RoleService.hasId, hasKey. cbn [role' role_id withPermissions].
    rewrite K. apply N.eqb_refl.
Qed.

Lemma findById_cases (db : Db) (roleId : IdString) (id : ObjectId) :
  idOf roleId = Some id ->
  Role_findById roleId db = (Ok (find (RoleService.hasId id) (roles db)), db).
Proof.
  intros Id. unfold Role_findById, Role_findOne. run.
  rewrite (castObjectId_idOf roleId id db Id). reflexivity.
Qed.

Lemma findByIdPopulated_cases (db : Db) (roleId : IdString) (id : ObjectId) :
  idOf roleId = Some id ->
  Role_findByIdPopulated roleId db
  = (Ok (option_map (populateRole (permissionDocs db))
                    (find (RoleService.hasId id) (roles db))), db).
Proof.
  intros Id. unfold Role_findByIdPopulated. run.
  rewrite (findById_cases db roleId id Id). reflexivity.
Qed.

(** What a successful [addPermissions] has done. *)
Lemma addPermissions_inv (db db' : Db) (roleId : IdString) (ids : list IdString)
  (out : option PopulatedRole) :
  addPermissions roleId ids db = (Ok out, db') ->
  exists id role added,
    idOf roleId = Some id /\
    find (RoleService.hasId id) (roles db) = Some role /\
    isSystemRole role = false /\
    roleErrors role = [] /\
    Forall2 (fun s i => idOf s = Some i)
      (filter (fun s => negb (existsb (fun p => idStringEqb p s) (permissions role))) ids)
      added /\
    added <> [] /\
    let role' := withPermissions role (permissions role ++ added) in
    out = Some (populateRole (permissionDocs db) role') /\
    db' = setRoles (replaceFirst (RoleService.hasId id) (fun _ => role')) db.
Proof.
  intros H.
  destruct (idOf roleId) as [id |] eqn:Id;
    [| destruct roleId; try discriminate Id; discriminate H].
  revert H. unfold addPermissions, Permission_countIn.
  unfold tryCatch, bind at 1. rewrite (findById_cases db roleId id Id).
  destruct (find (RoleService.hasId id) (roles db)) as [role |] eqn:F; [| discriminate].
  destruct (isSystemRole role) eqn:Sys; [discriminate |].
  unfold bind at 1. unfold bind at 1.
  destruct (castObjectIds_cases ids db) as [(all & E & _) | (s & E)]; rewrite E;
    [| discriminate].
  unfold gets at 1. cbn beta iota.
  destruct (negb (_ =? _)%nat); [discriminate |].
  match goal with
  | |- context [castObjectIds ?l] => set (new := l)
  end.
  destruct (List.length new =? 0)%nat eqn:L; [discriminate |].
  unfold bind at 1.
  destruct (castObjectIds_cases new db) as [(added & E' & FA) | (s & E')]; rewrite E';
    [| discriminate].
  cbn beta iota. unfold bind at 1.
  destruct (savePermissions_found db id role (permissions role ++ added) F) as [Sv F'].
  cbn zeta in Sv, F'. rewrite Sv.
  destruct (roleErrors role) as [| e errors] eqn:V; [| discriminate].
  rewrite (findByIdPopulated_cases _ roleId id Id). cbn [roles setRoles]. rewrite F'.
  intros H. injection H as <- <-. exists id, role, added.
  split; [reflexivity |]. split; [exact F |]. split; [exact Sys |].
  split; [exact V |]. split; [exact FA |].
  split; [| split; [destruct db; reflexivity | reflexivity]].
  intros ->. apply Forall2_length in FA. cbn [List.length] in FA.
  rewrite FA in L. discriminate L.
Qed.

(** [hasPermission] on a role that is found. *)
Lemma hasPermission_found (db : Db) (roleId : IdString) (r : IRole) (nm : string) :
  Role_findById roleId db = (Ok (Some r), db) ->
  hasPermission roleId nm db
  = (Ok (existsb (fun p => String.eqb (permissionName p) nm)
                 (populate (permissionDocs db) (permissions r))), db).
Proof.
  intros H. unfold hasPermission, tryCatch, bind. rewrite H. reflexivity.
Qed.

Lemma idStringEqb_true (p : ObjectId) (x : IdString) :
  idStringEqb p x = true <-> x = Hex p.
Proof.
  destruct x as [i | i sp | s]; cbn [idStringEqb].
  - rewrite N.eqb_eq. split; congruence.
  - split; discriminate.
  - split; discriminate.
Qed.

Lemma held_iff (ps : list ObjectId) (s : IdString) :
  existsb (fun p => idStringEqb p s) ps = true <-> exists i, s = Hex i /\ In i ps.
Proof.
  rewrite existsb_exists. split.
  - intros (p & I & Q). apply idStringEqb_true in Q. exists p. tauto.
  - intros (i & -> & I). exists i. split; [exact I | apply N.eqb_refl].
Qed.

(** X27: after a successful [addPermissions], the role that is stored
    keeps the permissions it had, in their order, followed by the
    identifiers that the pushed strings name; the pushed strings are
    the requested ones that are not the canonical spelling of a
    permission of the role, so that a permission requested in another
    spelling, in upper case, is pushed also when the role has it. The
    permissions of the role are then those it had and those
    requested, the role is returned with its permissions populated,
    and [hasPermission] answers [true] for the name of every requested
    permission. The users and the permissions are not written. *)
Theorem addPermissions_grants (db db' : Db) (roleId : IdString) (ids : list IdString)
  (out : option PopulatedRole) :
  addPermissions roleId ids db = (Ok out, db') ->
  exists role role' added,
    Role_findById roleId db = (Ok (Some role), db) /\
    Role_findById roleId db' = (Ok (Some role'), db') /\
    out = Some (populateRole (permissionDocs db) role') /\
    permissions role' = (permissions role ++ added)%list /\
    added <> [] /\
    (forall i, In i added <->
               (In (Hex i) ids /\ ~ In i (permissions role)) \/
               exists s, In (Spelled i s) ids) /\
    (forall i, In i (permissions role') <->
               In i (permissions role) \/ exists s, In s ids /\ idOf s = Some i) /\
    users db' = users db /\ permissionDocs db' = permissionDocs db /\
    (forall s i p,
       In s ids -> idOf s = Some i ->
       find (fun q => N.eqb (permission_id q) i) (permissionDocs db) = Some p ->
       hasPermission roleId (permissionName p) db' = (Ok true, db')).
Proof.
  intros H.
  destruct (addPermissions_inv db db' roleId ids out H)
    as (id & role & added & Id & F & Sys & V & FA & NE & -> & ->).
  set (role' := withPermissions role (permissions role ++ added)).
  destruct (savePermissions_found db id role (permissions role ++ added) F) as [_ F'].
  cbn zeta in F'. fold role' in F'.
  set (db' := setRoles (replaceFirst (RoleService.hasId id) (fun _ => role')) db).
  assert (G' : Role_findById roleId db' = (Ok (Some role'), db')).
  { rewrite (findById_cases db' roleId id Id). unfold db'. cbn [roles setRoles].
    rewrite F'. reflexivity. }
  assert (Add : forall i, In i added <->
                          (In (Hex i) ids /\ ~ In i (permissions role)) \/
                          exists s, In (Spelled i s) ids).
  { intros i. rewrite (Forall2_idOf_In _ _ i FA). split.
    - intros (s & I & E). apply filter_In in I. destruct I as [I Q].
      apply negb_true_iff in Q.
      destruct s as [j | j sp | v]; cbn [idOf] in E; [| | discriminate E];
        injection E as ->.
      + left. split; [exact I |]. intros Ip.
        assert (X : existsb (fun p => idStringEqb p (Hex i)) (permissions role) = true)
          by (apply held_iff; exists i; tauto).
        congruence.
      + right. exists sp. exact I.
    - intros [[I NI] | (sp & I)].
      + exists (Hex i). split; [| reflexivity]. apply filter_In. split; [exact I |].
        apply negb_true_iff. apply not_true_iff_false. intros X.
        apply held_iff in X. destruct X as (j & E & Ip). injection E as ->. exact (NI Ip).
      + exists (Spelled i sp). split; [| reflexivity]. apply filter_In. split; [exact I |].
        apply negb_true_iff. apply not_true_iff_false. intros X.
        apply held_iff in X. destruct X as (j & E & _). discriminate E. }
  assert (Mem : forall i, In i (permissions role') <->
                          In i (permissions role) \/ exists s, In s ids /\ idOf s = Some i).
  { intros i. cbn [role' permissions withPermissions]. rewrite in_app_iff, Add. split.
    - intros [I | [[I _] | (sp & I)]].
      + left. exact I.
      + right. exists (Hex i). tauto.
      + right. exists (Spelled i sp). tauto.
    - intros [I | (s & I & E)]; [left; exact I |].
      destruct s as [j | j sp | v]; cbn [idOf] in E; [| | discriminate E];
        injection E as ->.
      + destruct (in_dec N.eq_dec i (permissions role)) as [Ip | NI]; [left; exact Ip |].
        right. left. tauto.
      + right. right. exists sp. exact I. }
  exists role, role', added.
  refine (conj _ (conj G' (conj eq_refl (conj eq_refl (conj NE (conj Add (conj Mem
            (conj _ (conj _ _))))))))).
  - rewrite (findById_cases db roleId id Id), F. reflexivity.
  - destruct db; reflexivity.
  - destruct db; reflexivity.
  - intros s i p I E P. rewrite (hasPermission_found db' roleId role' _ G').
    replace (permissionDocs db') with (permissionDocs db) by (destruct db; reflexivity).
    assert (X : existsb (fun q => String.eqb (permissionName q) (permissionName p))
                  (populate (permissionDocs db) (permissions role')) = true).
    { apply existsb_exists. exists p. split; [| apply String.eqb_refl].
      apply populate_In. exists i. split; [| exact P].
      apply Mem. right. exists s. tauto. }
    rewrite X. reflexivity.
Qed.

Lemma filter_idempotent {A : Type} (p : A -> bool) (l : list A) :
  filter p (filter p l) = filter p l.
Proof.
  induction l as [| x l IH]; [reflexivity |].
  cbn [filter]. destruct (p x) eqn:P; [| exact IH].
  cbn [filter]. rewrite P, IH. reflexivity.
Qed.

Lemma replaceFirst_same {A : Type} (p : A -> bool) (a : A) (l : list A) :
  find p l = Some a -> replaceFirst p (fun _ => a) l = l.
Proof.
  induction l as [| x l IH]; [reflexivity |].
  cbn [find replaceFirst]. destruct (p x); [congruence |].
  intros F. rewrite (IH F). reflexivity.
Qed.

(** [removePermissions] on a role that is found and is not a system
    role. *)
Lemma removePermissions_found (db : Db) (roleId : IdString) (id : ObjectId)
  (ids : list IdString) (role : IRole) :
  idOf roleId = Some id ->
  find (RoleService.hasId id) (roles db) = Some role -> isSystemRole role = false ->
  let role' := withPermissions role
                 (filter (fun p => negb (existsb (idStringEqb p) ids))
                         (permissions role)) in
  removePermissions roleId ids db
  = match roleErrors role with
    | [] => (Ok (Some (populateRole (permissionDocs db) role')),
             setRoles (replaceFirst (RoleService.hasId id) (fun _ => role')) db)
    | _ :: _ => (Throw (ApiError "Failed to remove permissions" 500), db)
    end.
Proof.
  intros Id F Sys role'.
  unfold removePermissions. unfold tryCatch, bind at 1.
  rewrite (findById_cases db roleId id Id), F, Sys. unfold bind at 1.
  destruct (savePermissions_found db id role
              (filter (fun p => negb (existsb (idStringEqb p) ids)) (permissions role)) F)
    as [Sv F'].
  cbn zeta in Sv, F'. rewrite Sv.
  destruct (roleErrors role) as [| e errors]; [| reflexivity].
  rewrite (findByIdPopulated_cases _ roleId id Id). cbn [roles setRoles]. rewrite F'.
  destruct db; reflexivity.
Qed.

(** X28: [removePermissions] on a role that is not a system role and
    that passes the validation of its schema succeeds whatever the
    identifiers are, also ones that the role does not have or that
    are no ObjectId: the role keeps, in their order, the permissions
    whose canonical spelling is not among the identifiers and loses
    the others, so that a permission named in another spelling only
    is kept; the role is returned with its permissions populated. It
    grants nothing: a [hasPermission] that is true afterwards was true
    before. Removing the same identifiers again changes nothing. On a
    stored role that does not pass the validation, it fails with the
    500 error and writes nothing. *)
Theorem removePermissions_revokes (db : Db) (roleId : IdString) (ids : list IdString)
  (role : IRole) :
  Role_findById roleId db = (Ok (Some role), db) ->
  isSystemRole role = false ->
  (roleErrors role = [] ->
   exists role' db',
     removePermissions roleId ids db
     = (Ok (Some (populateRole (permissionDocs db) role')), db') /\
     Role_findById roleId db' = (Ok (Some role'), db') /\
     permissions role'
     = filter (fun p => negb (existsb (idStringEqb p) ids)) (permissions role) /\
     (forall i, In i (permissions role') <->
                In i (permissions role) /\ ~ In (Hex i) ids) /\
     (forall i s, In i (permissions role) -> In (Spelled i s) ids ->
                  ~ In (Hex i) ids -> In i (permissions role')) /\
     users db' = users db /\ permissionDocs db' = permissionDocs db /\
     (forall nm, hasPermission roleId nm db' = (Ok true, db') ->
                 hasPermission roleId nm db = (Ok true, db)) /\
     removePermissions roleId ids db'
     = (Ok (Some (populateRole (permissionDocs db) role')), db'))
  /\
  (roleErrors role <> [] ->
   removePermissions roleId ids db
   = (Throw (ApiError "Failed to remove permissions" 500), db)).
Proof.
  intros H Sys.
  destruct (findById_found db db roleId role H) as (Id & F & _ & _).
  set (id := role_id role) in *.
  pose proof (removePermissions_found db roleId id ids role Id F Sys) as R.
  cbn zeta in R. split.
  - intros V. rewrite V in R.
    destruct (savePermissions_found db id role
                (filter (fun p => negb (existsb (idStringEqb p) ids)) (permissions role)) F)
      as [_ F'].
    cbn zeta in F'.
    set (role' := withPermissions role
                    (filter (fun p => negb (existsb (idStringEqb p) ids))
                            (permissions role))) in *.
    set (db' := setRoles (replaceFirst (RoleService.hasId id) (fun _ => role')) db) in *.
    assert (G : Role_findById roleId db' = (Ok (Some role'), db')).
    { rewrite (findById_cases db' roleId id Id). unfold db'. cbn [roles setRoles].
      rewrite F'. reflexivity. }
    assert (Mem : forall i, In i (permissions role') <->
                            In i (permissions role) /\ ~ In (Hex i) ids).
    { intros i. cbn [role' permissions withPermissions]. rewrite filter_In.
      rewrite negb_true_iff, <- not_true_iff_false, existsb_exists.
      split; intros [I N]; (split; [exact I |]).
      - intros X. apply N. exists (Hex i). split; [exact X | apply N.eqb_refl].
      - intros (x & X & Q). apply idStringEqb_true in Q. subst x. exact (N X). }
    exists role', db'.
    refine (conj R (conj G (conj eq_refl (conj Mem (conj _ (conj _ (conj _ (conj _ _)))))))).
    + intros i s I _ NI. apply Mem. tauto.
    + unfold db'. destruct db; reflexivity.
    + unfold db'. destruct db; reflexivity.
    + intros nm. rewrite (hasPermission_found db' roleId role' nm G).
      rewrite (hasPermission_found db roleId role nm H).
      replace (permissionDocs db') with (permissionDocs db)
        by (unfold db'; destruct db; reflexivity).
      intros T. injection T as T.
      enough (X : existsb (fun p => String.eqb (permissionName p) nm)
                    (populate (permissionDocs db) (permissions role)) = true)
        by (rewrite X; reflexivity).
      apply existsb_exists in T. destruct T as (p & I & Q).
      apply existsb_exists. exists p. split; [| exact Q].
      apply populate_In in I. destruct I as (i & I & P).
      apply populate_In. exists i. split; [apply Mem, I | exact P].
    + assert (Sys' : isSystemRole role' = false) by exact Sys.
      assert (Fd : find (RoleService.hasId id) (roles db') = Some role')
        by (unfold db'; cbn [roles setRoles]; exact F').
      pose proof (removePermissions_found db' roleId id ids role' Id Fd Sys') as R'.
      cbn zeta in R'.
      change (roleErrors role') with (roleErrors role) in R'. rewrite V in R'.
      assert (E : withPermissions role'
                    (filter (fun p => negb (existsb (idStringEqb p) ids))
                            (permissions role')) = role').
      { unfold role'. cbn [permissions withPermissions].
        rewrite filter_idempotent. reflexivity. }
      rewrite E in R'. rewrite R'.
      replace (permissionDocs db') with (permissionDocs db)
        by (unfold db'; destruct db; reflexivity).
      f_equal.
      unfold db'. destruct db as [us atts rs ps].
      unfold setRoles. cbn [users attendances roles permissionDocs] in *.
      rewrite (replaceFirst_same _ _ _ F'). reflexivity.
  - intros V. rewrite R. destruct (roleErrors role); [contradiction V |]; reflexivity.
Qed.

Lemma find_removeFirst_other {A : Type} (key : A -> ObjectId) (k k' : ObjectId)
  (l : list A) :
  k' <> k ->
  find (hasKey key k') (removeFirst (hasKey key k) l) = find (hasKey key k') l.
Proof.
  intros NE. induction l as [| x l IH]; [reflexivity |].
  cbn [removeFirst find]. destruct (hasKey key k x) eqn:K.
  - unfold hasKey in *. apply N.eqb_eq in K. rewrite K.
    replace (N.eqb k k') with false by (symmetry; apply N.eqb_neq; congruence).
    reflexivity.
  - cbn [find]. rewrite IH. reflexivity.
Qed.

Lemma populate_removeFirst (docs : list IPermission) (id : ObjectId)
  (refs : list ObjectId) :
  ~ In id refs ->
  populate (removeFirst (PermissionService.hasId id) docs) refs = populate docs refs.
Proof.
  induction refs as [| i refs IH]; intros NI; [reflexivity |].
  cbn [populate].
  change (fun p => N.eqb (permission_id p) i) with (hasKey permission_id i).
  unfold PermissionService.hasId.
  rewrite (find_removeFirst_other permission_id id i docs)
    by (intros E; apply NI; left; congruence).
  unfold PermissionService.hasId in IH.
  rewrite IH by (intros I; apply NI; right; exact I). reflexivity.
Qed.

(** [deletePermission] by what it finds. *)
Lemma deletePermission_cases (db : Db) (id : ObjectId) :
  deletePermission (Hex id) db
  = match find (PermissionService.hasId id) (permissionDocs db) with
    | None => (Throw (ApiError "Permission not found" 404), db)
    | Some _ =>
        let roleCount :=
          List.length (filter (fun r => existsb (N.eqb id) (permissions r)) (roles db)) in
        if (0 <? roleCount)%nat
        then (Throw (ApiError (msg_assignedToRoles roleCount) 400), db)
        else (Ok tt, setPermissionDocs (removeFirst (PermissionService.hasId id)) db)
    end.
Proof.
  unfold deletePermission, castObjectId, Role_countWithPermission. run.
  destruct (find _ (permissionDocs db)); [| reflexivity]. cbn beta iota.
  destruct (0 <? _)%nat; reflexivity.
Qed.

(** X29: [deletePermission] leaves no reference behind: it fails with
    a 400 error, and deletes nothing, when a role of any organization
    has the permission; when it succeeds no role had it, the first
    document with the identifier is removed, the roles and the users
    are as they were, and every [hasPermission] answers as before. An
    unknown identifier gives 404. *)
Theorem deletePermission_safe (db : Db) (id : ObjectId) :
  (find (PermissionService.hasId id) (permissionDocs db) = None ->
   deletePermission (Hex id) db = (Throw (ApiError "Permission not found" 404), db))
  /\
  (forall p r,
     find (PermissionService.hasId id) (permissionDocs db) = Some p ->
     In r (roles db) -> In id (permissions r) ->
     exists n, (0 < n)%nat /\
       deletePermission (Hex id) db = (Throw (ApiError (msg_assignedToRoles n) 400), db))
  /\
  (forall db',
     deletePermission (Hex id) db = (Ok tt, db') ->
     (forall r, In r (roles db) -> ~ In id (permissions r)) /\
     permissionDocs db' = removeFirst (PermissionService.hasId id) (permissionDocs db) /\
     roles db' = roles db /\ users db' = users db /\
     forall roleId nm,
       fst (hasPermission roleId nm db') = fst (hasPermission roleId nm db)).
Proof.
  rewrite deletePermission_cases. refine (conj _ (conj _ _)).
  - intros ->. reflexivity.
  - intros p r -> I Ip.
    exists (List.length (filter (fun r => existsb (N.eqb id) (permissions r)) (roles db))).
    assert (L : (0 < List.length (filter (fun r => existsb (N.eqb id) (permissions r))
                                         (roles db)))%nat).
    { apply (filter_nonempty _ _ r I). apply existsb_exists. exists id.
      split; [exact Ip | apply N.eqb_refl]. }
    split; [exact L |]. cbn zeta. apply Nat.ltb_lt in L. rewrite L. reflexivity.
  - intros db'. destruct (find _ (permissionDocs db)) as [p |]; [| discriminate].
    cbn zeta. destruct (0 <? _)%nat eqn:L; [discriminate |].
    intros H. injection H as <-.
    assert (Free : forall r, In r (roles db) -> ~ In id (permissions r)).
    { intros r I Ip. apply Nat.ltb_ge in L.
      assert (X : (0 < List.length (filter (fun r => existsb (N.eqb id) (permissions r))
                                           (roles db)))%nat).
      { apply (filter_nonempty _ _ r I). apply existsb_exists. exists id.
        split; [exact Ip | apply N.eqb_refl]. }
      lia. }
    split; [exact Free |].
    split; [destruct db; reflexivity |].
    split; [destruct db; reflexivity |].
    split; [destruct db; reflexivity |].
    intros roleId nm. destruct roleId as [rid | rid sp | s]; [| | reflexivity].
    all: unfold hasPermission, Role_findById, Role_findOne, castObjectId; run.
    all: replace (roles (setPermissionDocs (removeFirst (PermissionService.hasId id)) db))
      with (roles db) by (destruct db; reflexivity).
    all: destruct (find (RoleService.hasId rid) (roles db)) as [r |] eqn:F; [| reflexivity].
    all: cbn beta iota.
    all: replace (permissionDocs
               (setPermissionDocs (removeFirst (PermissionService.hasId id)) db))
      with (removeFirst (PermissionService.hasId id) (permissionDocs db))
      by (destruct db; reflexivity).
    all: rewrite populate_removeFirst; [reflexivity |].
    all: apply Free; apply find_some in F; tauto.
Qed.

End RoleFurther.

Section RoleUpdateFacts.

Import Mongo Model RoleService RoleQueries.

Ltac run := unfold bind, ret, gets, modify, throw, tryCatch; cbn beta iota.






End RoleUpdateFacts.

(** ** The further properties on the sample data *)

Section FurtherWitnesses.

Import Mongo Model JsNumber Attendance AttendanceQueries AttendanceController.
Import RoleService RoleQueries PermissionService.

Lemma markCheckOut_twice_witness :
  markCheckOut 100%N Samples.thirteen 1%N None Samples.db1
  = (Ok Samples.closedRecord, Samples.db2) /\
  markCheckOut 100%N Samples.eighteen 2%N (Some "late") Samples.db2
  = (Throw (AppError "Already checked out" 400), Samples.db2).
Proof.
  split; [reflexivity |].
  apply (markCheckOut_twice Samples.db1 Samples.db2 100%N Samples.thirteen 1%N None
           Samples.closedRecord).
  reflexivity.
Defined.

Lemma attendance_writes_are_local_witness :
  markAttendance 0 (Samples.clockIn 1%N Samples.nine) 1%N 100%N Fixtures.dbBob
  = (Ok Samples.openRecord, Fixtures.dbBoth) /\
  find (Attendance.hasId 101%N) (attendances Fixtures.dbBob) = Some Fixtures.bobOpen /\
  find (Attendance.hasId 101%N) (attendances Fixtures.dbBoth) = Some Fixtures.bobOpen /\
  (List.length (attendances Fixtures.dbBoth)
   <= S (List.length (attendances Fixtures.dbBob)))%nat /\
  markCheckOut 100%N Samples.thirteen 1%N None Fixtures.dbBoth
  = (Ok Samples.closedRecord, Fixtures.dbBothClosed) /\
  find (Attendance.hasId 101%N) (attendances Fixtures.dbBothClosed)
  = Some Fixtures.bobOpen /\
  List.length (attendances Fixtures.dbBothClosed) = 2%nat.
Proof.
  destruct (proj1 (attendance_writes_are_local 0 Fixtures.dbBob Fixtures.dbBoth
                     Samples.openRecord)
              (Samples.clockIn 1%N Samples.nine) 1%N 100%N eq_refl) as [In1 In2].
  destruct (proj2 (attendance_writes_are_local 0 Fixtures.dbBoth Fixtures.dbBothClosed
                     Samples.closedRecord)
              100%N Samples.thirteen 1%N None eq_refl) as [Out1 Out2].
  split; [reflexivity |]. split; [reflexivity |].
  split; [rewrite (In1 101%N); [reflexivity | discriminate] |].
  split; [exact In2 |]. split; [reflexivity |].
  split; [rewrite (Out1 101%N); [reflexivity | discriminate] |].
  rewrite Out2. reflexivity.
Defined.

Lemma hours_span_first_to_last_witness :
  checkIn Fixtures.fullDayRecord = Samples.nine /\
  totalHours Fixtures.fullDayRecord
  = Some (round2 (hoursBetween Samples.nine Samples.eighteen)) /\
  find (Attendance.hasId 100%N) (attendances Fixtures.db4) = Some Fixtures.fullDayRecord.
Proof.
  destruct (hours_span_first_to_last 0
              Samples.db0 Samples.db1 Samples.db2 Samples.db3 Fixtures.db4
              (Samples.clockIn 1%N Samples.nine) (Samples.clockIn 1%N Samples.fourteen)
              1%N 1%N 1%N 1%N 100%N 101%N Samples.thirteen Samples.eighteen None None
              Samples.openRecord Samples.closedRecord Samples.reopenedRecord
              Fixtures.fullDayRecord)
    as (_ & C & _ & T & F); try reflexivity.
  - exact uniqueIds_db0.
  - intros [].
  - split; [exact C |]. split; [exact T | exact F].
Defined.

Lemma getTotalHoursForDay_open_sessions_witness :
  getTotalHoursForDay 0 1%N Samples.eighteen Samples.db1 = (Ok 0%float, Samples.db1).
Proof.
  apply (getTotalHoursForDay_open_sessions 0 Samples.db1 1%N Samples.eighteen).
  intros a [<- | []] _. reflexivity.
Defined.

Lemma deleteAttendance_spec_witness :
  deleteAttendance 7%N Samples.db2
  = (Throw (AppError "Attendance record not found" 404), Samples.db2) /\
  exists db',
    deleteAttendance 100%N Samples.db2 = (Ok tt, db') /\
    find (Attendance.hasId 100%N) (attendances db') = None.
Proof.
  split.
  - apply (proj1 (deleteAttendance_spec Samples.db2 7%N (uniqueIds_one _ _))).
    reflexivity.
  - destruct (proj2 (deleteAttendance_spec Samples.db2 100%N (uniqueIds_one _ _))
               Samples.closedRecord eq_refl) as (db' & D & F & _).
    exists db'. split; [exact D | exact F].
Defined.



Lemma clockIn_reports_session_witness :
  clockIn 0 Samples.fourteen Samples.fourteen 9%N None 101%N Samples.db2
  = (Throw (AppError "User not found" 404), Samples.db2) /\
  (exists resp db',
     clockIn 0 Samples.fourteen Samples.fourteen 1%N None 101%N Samples.db2
     = (Ok resp, db') /\
     in_isUpdate resp = true /\ in_id resp = 100%N /\ in_checkIn resp = Samples.nine) /\
  clockIn 0 Samples.fourteen Samples.fourteen 1%N (Some Samples.longNote) 101%N Samples.db2
  = (Throw (ValidationError None [("notes", "Notes cannot exceed 500 characters")]),
     Samples.db2) /\
  clockIn 0 Samples.nine Samples.nine 1%N (Some Samples.longNote) 100%N Samples.db0
  = (Throw (ValidationError (Some "Attendance")
                            [("notes", "Notes cannot exceed 500 characters")]),
     Samples.db0).
Proof.
  split; [| split; [| split]].
  - apply (proj1 (clockIn_reports_session 0 Samples.db2 Samples.fourteen Samples.fourteen
                    9%N None 101%N (uniqueIds_one _ _) eq_refl)).
    reflexivity.
  - pose proof (proj2 (clockIn_reports_session 0 Samples.db2 Samples.fourteen
                         Samples.fourteen 1%N None 101%N (uniqueIds_one _ _) eq_refl)
                  Samples.ann eq_refl) as H.
    hnf in H. destruct (proj1 H eq_refl) as (resp & db' & C & _ & _ & _ & U & I & T & _).
    exists resp, db'. split; [exact C |]. split; [exact U |]. split; [exact I | exact T].
  - pose proof (proj2 (clockIn_reports_session 0 Samples.db2 Samples.fourteen
                         Samples.fourteen 1%N (Some Samples.longNote) 101%N
                         (uniqueIds_one _ _) eq_refl)
                  Samples.ann eq_refl) as H.
    hnf in H. apply (proj2 H). reflexivity.
  - pose proof (proj2 (clockIn_reports_session 0 Samples.db0 Samples.nine
                         Samples.nine 1%N (Some Samples.longNote) 100%N
                         uniqueIds_db0 eq_refl)
                  Samples.ann eq_refl) as H.
    hnf in H. apply (proj2 H). reflexivity.
Defined.

Lemma clockOut_outcome_witness :
  (exists resp db' stored,
     clockOut 0 Samples.thirteen Samples.thirteen 1%N None Samples.db1 = (Ok resp, db') /\
     out_totalHoursToday resp = 4%float /\
     find (Attendance.hasId 100%N) (attendances db') = Some stored /\
     totalHours stored = Some (out_totalHoursToday resp) /\
     exists k, out_totalHoursToday resp = ofHundredths k /\
               Z.abs (36000 * k - 14400000) <= 18000) /\
  clockOut 0 Samples.thirteen Samples.thirteen 1%N (Some Samples.longNote) Samples.db1
  = (Throw (ValidationError (Some "Attendance")
                            [("notes", "Notes cannot exceed 500 characters")]),
     Samples.db1).
Proof.
  split.
  - pose proof (clockOut_outcome 0 Samples.db1 Samples.thirteen Samples.thirteen 1%N None
                  (uniqueIds_one _ _)) as H.
    hnf in H.
    destruct (proj1 (H validDate_nine validDate_thirteen) eq_refl)
      as (resp & db' & stored & C & _ & _ & _ & _ & T & _ & F & _ & S & _ & P).
    exists resp, db', stored. split; [exact C |]. split; [rewrite T; reflexivity |].
    split; [exact F |]. split; [exact S |]. apply P. vm_compute. discriminate.
  - pose proof (clockOut_outcome 0 Samples.db1 Samples.thirteen Samples.thirteen 1%N
                  (Some Samples.longNote) (uniqueIds_one _ _)) as H.
    hnf in H. apply (proj2 (H validDate_nine validDate_thirteen)). reflexivity.
Defined.

Lemma clockIn_then_clockOut_witness :
  exists resp db1 out db2,
    clockIn 0 Samples.nine Samples.nine 1%N None 100%N Samples.db0 = (Ok resp, db1) /\
    clockOut 0 Samples.thirteen Samples.thirteen 1%N None db1 = (Ok out, db2) /\
    out_id out = 100%N /\ out_totalHoursToday out = 4%float /\
    clockOut 0 Samples.thirteen Samples.thirteen 1%N (Some Samples.longNote) db1
    = (Throw (ValidationError (Some "Attendance")
                              [("notes", "Notes cannot exceed 500 characters")]), db1).
Proof.
  destruct (clockIn 0 Samples.nine Samples.nine 1%N None 100%N Samples.db0)
    as [[resp | e] db1] eqn:C; [| discriminate C].
  assert (R : in_checkIn resp = Samples.nine /\ in_notes resp = Some ""
              /\ in_id resp = 100%N)
    by (injection C as <- _; split; [reflexivity | split; reflexivity]).
  destruct R as (R1 & R2 & R3).
  assert (Lt : in_checkIn resp < Samples.thirteen) by (rewrite R1; reflexivity).
  assert (V : validDate (in_checkIn resp)) by (rewrite R1; exact validDate_nine).
  destruct (proj1 (clockIn_then_clockOut 0 Samples.db0 db1 Samples.nine Samples.nine
                     Samples.thirteen Samples.thirteen 1%N 100%N None None resp
                     uniqueIds_db0 (fun I => I) C eq_refl Lt V validDate_thirteen))
    as (out & db2 & O & I & _ & _ & _ & _ & T).
  { rewrite R2. reflexivity. }
  exists resp, db1, out, db2. split; [reflexivity |]. split; [exact O |].
  split; [rewrite I; exact R3 |]. split; [rewrite T, R1; reflexivity |].
  apply (proj2 (clockIn_then_clockOut 0 Samples.db0 db1 Samples.nine Samples.nine
                  Samples.thirteen Samples.thirteen 1%N 100%N None
                  (Some Samples.longNote) resp
                  uniqueIds_db0 (fun I => I) C eq_refl Lt V validDate_thirteen)).
  rewrite R2. reflexivity.
Defined.

Lemma status_refusal_is_honoured_witness :
  exists resp msg,
    getCurrentStatus 0 Samples.fourteen Samples.fourteen 1%N Samples.db2
    = (Ok resp, Samples.db2) /\
    st_status resp = available /\
    clockOut 0 Samples.fourteen Samples.fourteen 1%N None Samples.db2
    = (Throw (AppError msg 400), Samples.db2).
Proof.
  destruct (getCurrentStatus 0 Samples.fourteen Samples.fourteen 1%N Samples.db2)
    as [[resp | e] db'] eqn:G; [| discriminate G].
  assert (D : db' = Samples.db2) by (injection G as _ <-; reflexivity).
  subst db'.
  assert (No : st_canClockOut resp = false) by (injection G as <-; reflexivity).
  destruct (status_refusal_is_honoured 0 Samples.db2 Samples.fourteen Samples.fourteen
              1%N None resp (uniqueIds_one _ _) G No) as (msg & C).
  exists resp, msg. split; [reflexivity |]. split; [| exact C].
  injection G as <-. reflexivity.
Defined.

Lemma resetTodayAttendance_removes_the_day_witness :
  exists out db',
    resetTodayAttendance 0 Samples.fourteen 1%N Samples.db2 = (Ok out, db') /\
    attendances db' = [] /\ users db' = users Samples.db2.
Proof.
  destruct (resetTodayAttendance_removes_the_day 0 Samples.db2 Samples.fourteen 1%N
              (uniqueIds_one _ _)) as (out & db' & R & A & U & _).
  exists out, db'. split; [exact R |]. split; [rewrite A; reflexivity | exact U].
Defined.

Lemma role_listings_witness :
  (exists rs,
     getAllRoles " acme" false Samples.dbRoles
     = (Ok (map (populateRole (permissionDocs Samples.dbRoles)) rs), Samples.dbRoles) /\
     rs = [Samples.recruiter; Samples.auditor])
  /\
  (exists rs,
     getRolesByLevel 5 Samples.dbRoles
     = (Ok (map (populateRole (permissionDocs Samples.dbRoles)) rs), Samples.dbRoles) /\
     (forall r, In r rs <-> In r (roles Samples.dbRoles) /\ level r <= 5 /\
                            isSystemRole r = false))
  /\
  permissions Samples.recruiter = [50%N; 51%N] /\
  populated_permissions (populateRole (permissionDocs Samples.dbRoles) Samples.recruiter)
  = [Samples.usersCreate] /\
  In Samples.usersCreate
     (populated_permissions (populateRole (permissionDocs Samples.dbRoles)
                                          Samples.recruiter)).
Proof.
  destruct (role_listings Samples.dbRoles " acme" false 5 eq_refl)
    as ((rs & G & _ & _ & _) & (rs' & G' & _ & _ & M') & Pop).
  split; [| split; [| split; [| split]]].
  - exists [Samples.recruiter; Samples.auditor]. split; reflexivity.
  - exists rs'. split; [exact G' | exact M'].
  - reflexivity.
  - reflexivity.
  - apply (Pop Samples.recruiter Samples.usersCreate). exists 50%N.
    split; [left; reflexivity | reflexivity].
Defined.

Lemma getRoleById_isolation_witness :
  getRoleById (Hex 11%N) " acme" Samples.dbRoles
  = (Ok (populateRole (permissionDocs Samples.dbRoles) Samples.recruiter), Samples.dbRoles) /\
  getRoleById (Spelled 11%N "00000000000000000000000B") "ACME" Samples.dbRoles
  = (Ok (populateRole (permissionDocs Samples.dbRoles) Samples.recruiter), Samples.dbRoles) /\
  permissions Samples.recruiter = [50%N; 51%N] /\
  populated_permissions (populateRole (permissionDocs Samples.dbRoles) Samples.recruiter)
  = [Samples.usersCreate] /\
  getRoleById (Hex 11%N) "widge" Samples.dbRoles
  = (Throw (ApiError "Role not found" 404), Samples.dbRoles) /\
  getRoleById (Malformed "eleven") "acme" Samples.dbRoles
  = (Throw (ApiError "Failed to fetch role" 500), Samples.dbRoles).
Proof.
  assert (ND : NoDup (map role_id (roles Samples.dbRoles))).
  { repeat constructor; cbn; intuition discriminate. }
  split; [| split; [| split; [| split; [| split]]]].
  - apply (proj1 (proj2 (getRoleById_isolation Samples.dbRoles (Hex 11%N) " acme" eq_refl))
             Samples.recruiter ND).
    + right. left. reflexivity.
    + reflexivity.
    + reflexivity.
  - apply (proj1 (proj2 (getRoleById_isolation Samples.dbRoles
                           (Spelled 11%N "00000000000000000000000B") "ACME" eq_refl))
             Samples.recruiter ND).
    + right. left. reflexivity.
    + reflexivity.
    + reflexivity.
  - reflexivity.
  - reflexivity.
  - apply (proj1 (proj2 (proj2 (getRoleById_isolation Samples.dbRoles (Hex 11%N) "widge"
                                  eq_refl)))
             11%N eq_refl).
    intros r [<- | [<- | [<- | []]]] _; discriminate.
  - apply (proj1 (proj2 (proj2 (proj2 (getRoleById_isolation Samples.dbRoles
                                         (Malformed "eleven") "acme" eq_refl))))
             "eleven" eq_refl).
Defined.


Lemma addPermissions_grants_witness :
  addPermissions (Hex 12%N) [Hex 50%N] Samples.dbRoles
  = (Ok (Some (populateRole (permissionDocs Samples.dbRoles) Fixtures.auditorWithCreate)),
     Fixtures.dbAuditor) /\
  hasPermission (Hex 12%N) "users:create" Samples.dbRoles = (Ok false, Samples.dbRoles) /\
  hasPermission (Hex 12%N) "users:create" Fixtures.dbAuditor
  = (Ok true, Fixtures.dbAuditor) /\
  exists out db' role',
    addPermissions (Hex 13%N) [Fixtures.upperExport] Fixtures.dbExport = (Ok out, db') /\
    Role_findById (Hex 13%N) db' = (Ok (Some role'), db') /\
    permissions Fixtures.exporter = [58%N] /\
    permissions role' = [58%N; 58%N].
Proof.
  split; [reflexivity |]. split; [reflexivity |]. split.
  - destruct (addPermissions_grants Samples.dbRoles Fixtures.dbAuditor (Hex 12%N)
                [Hex 50%N]
                (Some (populateRole (permissionDocs Samples.dbRoles)
                                    Fixtures.auditorWithCreate)) eq_refl)
      as (role & role' & added & _ & _ & _ & _ & _ & _ & _ & _ & _ & G).
    apply (G (Hex 50%N) 50%N Samples.usersCreate); [left; reflexivity | reflexivity..].
  - destruct (addPermissions (Hex 13%N) [Fixtures.upperExport] Fixtures.dbExport)
      as [[out | e] db'] eqn:A; [| discriminate A].
    destruct (addPermissions_grants Fixtures.dbExport db' (Hex 13%N)
                [Fixtures.upperExport] out A)
      as (role & role' & added & F & F' & _ & _ & _ & _ & _ & _ & _ & _).
    exists out, db', role'. split; [reflexivity |]. split; [exact F' |].
    split; [reflexivity |].
    injection A as _ <-. injection F' as <-. reflexivity.
Defined.

Lemma removePermissions_revokes_witness :
  (exists role' db',
     removePermissions (Hex 11%N) [Hex 51%N; Malformed "none"; Hex 77%N] Samples.dbRoles
     = (Ok (Some (populateRole (permissionDocs Samples.dbRoles) role')), db') /\
     permissions role' = [50%N] /\
     removePermissions (Hex 11%N) [Hex 51%N; Malformed "none"; Hex 77%N] db'
     = (Ok (Some (populateRole (permissionDocs Samples.dbRoles) role')), db')) /\
  (exists role' db',
     removePermissions (Hex 13%N) [Fixtures.upperExport] Fixtures.dbExport
     = (Ok (Some (populateRole (permissionDocs Fixtures.dbExport) role')), db') /\
     permissions role' = [58%N]).
Proof.
  split.
  - destruct (proj1 (removePermissions_revokes Samples.dbRoles (Hex 11%N)
                       [Hex 51%N; Malformed "none"; Hex 77%N] Samples.recruiter
                       eq_refl eq_refl) eq_refl)
      as (role' & db' & R & _ & P & _ & _ & _ & _ & _ & Again).
    exists role', db'. split; [exact R |]. split; [rewrite P; reflexivity | exact Again].
  - destruct (proj1 (removePermissions_revokes Fixtures.dbExport (Hex 13%N)
                       [Fixtures.upperExport] Fixtures.exporter eq_refl eq_refl) eq_refl)
      as (role' & db' & R & _ & P & _ & Kept & _).
    exists role', db'. split; [exact R |]. rewrite P. reflexivity.
Defined.

Lemma deletePermission_safe_witness :
  (exists n, (0 < n)%nat /\
     deletePermission (Hex 50%N) Samples.dbRoles
     = (Throw (ApiError (msg_assignedToRoles n) 400), Samples.dbRoles)) /\
  deletePermission (Hex 51%N) Samples.dbRoles
  = (Throw (ApiError "Permission not found" 404), Samples.dbRoles).
Proof.
  split.
  - apply (proj1 (proj2 (deletePermission_safe Samples.dbRoles 50%N))
             Samples.usersCreate Samples.recruiter).
    + reflexivity.
    + right. left. reflexivity.
    + left. reflexivity.
  - apply (proj1 (deletePermission_safe Samples.dbRoles 51%N)). reflexivity.
Defined.


End FurtherWitnesses.
